(** * Dynamic workflow orchestrator (workflow_orchestrator.py)

    A shallow embedding of the classifier, the channel selector, the context
    accumulator, the persona client, the metrics requester and the workflow
    runner of [src/G1/workflow_orchestrator.py], followed by the properties
    the specification states about them.

    Conventions of the embedding.
    - A Python [str] is a [string] whose characters are the code points
      U+0000..U+00FF (Latin-1); [len] is [String.length].
    - A Python [float] is a binary64 primitive float, compared with the
      kernel's IEEE comparisons.
    - A Python [dict] is an association list in insertion order: assigning to
      a key that is present replaces the value where it stands, assigning to
      a new key appends.
    - The gateway is an oracle giving the reply to the n-th HTTP request of a
      run; the requests sent are logged in the order they are sent. The
      client is modelled as the orchestrator and the metrics calculator call
      it, without a context manager, and then with one
      ([WithContextManager]).
    - The texts of exceptions are those of Python 3.11.
    - Wall-clock readings and the random workflow id are inputs of a run: a
      timestamp is one reading of the clock, and a duration is one reading
      taken where the code reads the clock the second time. *)

From Stdlib Require Import Bool List String Ascii NArith ZArith Lia.
From Stdlib Require Import PrimFloat FloatOps.
From Stdlib Require DecimalString.
Import ListNotations.
Set Warnings "-register-all,-inexact-float".
Local Open Scope string_scope.
Local Open Scope list_scope.

(* ================================================================== *)
(** ** Text: the [str] operations the orchestrator uses               *)
(* ================================================================== *)

Module Text.

(** [str.lower] on one code point of U+0000..U+00FF: A-Z and the Latin-1
    capitals U+00C0..U+00DE (the multiplication sign U+00D7 apart) move up
    by 32; every other code point is unchanged. *)
Definition lower_char (c : ascii) : ascii :=
  let n := N_of_ascii c in
  if ((65 <=? n) && (n <=? 90) || (192 <=? n) && (n <=? 222) && negb (n =? 215))%N
  then ascii_of_N (n + 32) else c.

(** [s.lower()] *)
Fixpoint lower (s : string) : string :=
  match s with
  | EmptyString => EmptyString
  | String c s' => String (lower_char c) (lower s')
  end.

(** [s.startswith(w)] *)
Fixpoint startswith (w s : string) : bool :=
  match w, s with
  | EmptyString, _ => true
  | String _ _, EmptyString => false
  | String a w', String b s' => Ascii.eqb a b && startswith w' s'
  end.

(** [w in s]: [w] occurs in [s] as a contiguous substring. *)
Fixpoint contains (w s : string) : bool :=
  startswith w s ||
  match s with
  | EmptyString => false
  | String _ s' => contains w s'
  end.

(** [any(word in s for word in words)] *)
Definition any_in (words : list string) (s : string) : bool :=
  existsb (fun word => contains word s) words.

(** [s[:n]] *)
Fixpoint take (n : nat) (s : string) : string :=
  match n, s with
  | O, _ => EmptyString
  | S _, EmptyString => EmptyString
  | S n', String c s' => String c (take n' s')
  end.

(** [s[:n] + "..." if len(s) > n else s] *)
Definition ellipsis (n : nat) (s : string) : string :=
  if Nat.ltb n (String.length s) then take n s ++ "..." else s.

End Text.

(* ================================================================== *)
(** ** Values, dictionaries and exceptions                            *)
(* ================================================================== *)

(** The Python objects that travel through the orchestrator: JSON values
    and the dictionaries built from them. *)
Inductive value : Type :=
| VNone
| VBool (b : bool)
| VInt (n : Z)
| VFloat (x : float)
| VStr (s : string)
| VList (items : list value)
| VDict (entries : list (string * value)).

Definition dict : Type := list (string * value).

(** The exceptions that the modelled code can raise. *)
Inductive exn : Type :=
| KeyError (key : string)
| TypeError (msg : string)
| ValueError (msg : string)
| AttributeError (msg : string).

(** [str(e)] of an exception; a KeyError prints the repr of its key. *)
Definition exn_str (e : exn) : string :=
  match e with
  | KeyError k => "'" ++ k ++ "'"
  | TypeError m => m
  | ValueError m => m
  | AttributeError m => m
  end.

(** [d.get(k)] *)
Fixpoint dict_get (k : string) (d : dict) : option value :=
  match d with
  | [] => None
  | (k', v) :: d' => if String.eqb k k' then Some v else dict_get k d'
  end.

(** [k in d] *)
Definition dict_has (k : string) (d : dict) : bool :=
  match dict_get k d with Some _ => true | None => false end.

(** [d.get(k, default)] *)
Definition dict_get_default (k : string) (default : value) (d : dict) : value :=
  match dict_get k d with Some v => v | None => default end.

(** [d[k]], which raises [KeyError(k)] when the key is absent. *)
Definition dict_item (k : string) (d : dict) : exn + value :=
  match dict_get k d with Some v => inr v | None => inl (KeyError k) end.

(** [d[k] = v] *)
Fixpoint dict_set (k : string) (v : value) (d : dict) : dict :=
  match d with
  | [] => [(k, v)]
  | (k', v') :: d' =>
      if String.eqb k k' then (k', v) :: d' else (k', v') :: dict_set k v d'
  end.

(** [list(d.keys())] *)
Definition dict_keys (d : dict) : list string := map fst d.

(** Truth value of an object, as [if x:] tests it. *)
Definition truthy (v : value) : bool :=
  match v with
  | VNone => false
  | VBool b => b
  | VInt n => negb (n =? 0)%Z
  | VFloat x => negb (PrimFloat.eqb x 0%float)
  | VStr s => negb (String.eqb s "")
  | VList l => match l with [] => false | _ => true end
  | VDict d => match d with [] => false | _ => true end
  end.

(* ================================================================== *)
(** ** Enumerations and records of the data model                      *)
(* ================================================================== *)

Module RequirementType.
Inductive t : Type :=
| BUG_FIX | FEATURE_REQUEST | INFRASTRUCTURE | COMPLIANCE | MIGRATION | RESEARCH.

Definition value (x : t) : string :=
  match x with
  | BUG_FIX => "bug_fix"
  | FEATURE_REQUEST => "feature_request"
  | INFRASTRUCTURE => "infrastructure"
  | COMPLIANCE => "compliance"
  | MIGRATION => "migration"
  | RESEARCH => "research"
  end.

Definition eqb (x y : t) : bool :=
  match x, y with
  | BUG_FIX, BUG_FIX | FEATURE_REQUEST, FEATURE_REQUEST
  | INFRASTRUCTURE, INFRASTRUCTURE | COMPLIANCE, COMPLIANCE
  | MIGRATION, MIGRATION | RESEARCH, RESEARCH => true
  | _, _ => false
  end.
End RequirementType.

Module RequirementPriority.
Inductive t : Type := CRITICAL | HIGH | MEDIUM | LOW.

Definition value (x : t) : string :=
  match x with
  | CRITICAL => "critical"
  | HIGH => "high"
  | MEDIUM => "medium"
  | LOW => "low"
  end.
End RequirementPriority.

Module WorkflowChannel.
Inductive t : Type := FAST_TRACK | STANDARD | MEGA | RESEARCH.

Definition value (x : t) : string :=
  match x with
  | FAST_TRACK => "fast_track"
  | STANDARD => "standard"
  | MEGA => "mega"
  | RESEARCH => "research"
  end.
End WorkflowChannel.

(** [@dataclass RequirementClassification] *)
Record RequirementClassification : Type := mkClassification {
  type : RequirementType.t;
  priority : RequirementPriority.t;
  complexity_score : float;
  risk_score : float;
  estimated_effort : string;
  confidence : float
}.

(* ================================================================== *)
(** ** WorkflowContextManager: the context accumulator                *)
(* ================================================================== *)

(** The three attributes set by [__init__]: two dictionaries keyed by
    strings and a list of history records. *)
Record WorkflowContextManager : Type := mkManager {
  workflow_context : dict;
  persona_outputs : dict;
  context_history : list dict
}.

(** [WorkflowContextManager()] *)
Definition new_manager : WorkflowContextManager :=
  mkManager [] [] [].

(** [metadata or {}] *)
Definition metadata_or_empty (metadata : option dict) : dict :=
  match metadata with
  | Some (e :: m) => e :: m
  | _ => []
  end.

(** [add_persona_output(persona_name, output, metadata)]. [now1] and [now2]
    are the two readings of [datetime.now().isoformat()], in program order. *)
Definition add_persona_output (self : WorkflowContextManager)
    (persona_name output : string) (metadata : option dict)
    (now1 now2 : string) : WorkflowContextManager :=
  let entry := VDict [("output", VStr output);
                      ("timestamp", VStr now1);
                      ("metadata", VDict (metadata_or_empty metadata))] in
  mkManager
    (dict_set (persona_name ++ "_output") (VStr output) (workflow_context self))
    (dict_set persona_name entry (persona_outputs self))
    (context_history self ++
       [[("persona", VStr persona_name);
         ("output", VStr (Text.ellipsis 200 output));
         ("timestamp", VStr now2)]]).

(** One call of [add_persona_output], with its clock readings. *)
Record output_call : Type := mkCall {
  call_persona_name : string;
  call_output : string;
  call_metadata : option dict;
  call_now1 : string;
  call_now2 : string
}.

Definition apply_call (m : WorkflowContextManager) (c : output_call)
    : WorkflowContextManager :=
  add_persona_output m (call_persona_name c) (call_output c)
    (call_metadata c) (call_now1 c) (call_now2 c).

(** A sequence of calls, oldest first. *)
Definition apply_calls (m : WorkflowContextManager) (cs : list output_call)
    : WorkflowContextManager :=
  fold_left apply_call cs m.

(** [@dataclass WorkflowContext], after [__post_init__]. *)
Record WorkflowContext : Type := mkContext {
  workflow_id : string;
  user_input : string;
  timestamp : string;
  classification : option RequirementClassification;
  metadata : dict;
  context_manager : WorkflowContextManager
}.

(* ================================================================== *)
(** ** The classifier and the channel selector                         *)
(* ================================================================== *)

Definition bug_fix_words : list string := ["fix"; "bug"; "error"; "broken"].
Definition compliance_words : list string := ["compliance"; "hipaa"; "gdpr"; "audit"].
Definition migration_words : list string := ["migrate"; "migration"; "upgrade"].
Definition infrastructure_words : list string := ["infrastructure"; "deployment"; "server"].
Definition research_words : list string := ["research"; "poc"; "investigate"].

Definition critical_words : list string := ["critical"; "urgent"; "emergency"].
Definition high_words : list string := ["high"; "important"; "soon"].
Definition low_words : list string := ["low"; "nice"; "future"].

Definition simple_words : list string := ["simple"; "quick"; "small"].
Definition complex_words : list string := ["complex"; "large"; "enterprise"; "platform"].
Definition architecture_words : list string := ["microservices"; "migration"; "architecture"].

Definition domain_words : list string := ["patient"; "financial"; "security"].

(** The first [if]/[elif] chain of [_classify_requirement]. *)
Definition classify_type (input_lower : string) : RequirementType.t :=
  if Text.any_in bug_fix_words input_lower then RequirementType.BUG_FIX
  else if Text.any_in compliance_words input_lower then RequirementType.COMPLIANCE
  else if Text.any_in migration_words input_lower then RequirementType.MIGRATION
  else if Text.any_in infrastructure_words input_lower then RequirementType.INFRASTRUCTURE
  else if Text.any_in research_words input_lower then RequirementType.RESEARCH
  else RequirementType.FEATURE_REQUEST.

(** The second chain. *)
Definition classify_priority (input_lower : string) : RequirementPriority.t :=
  if Text.any_in critical_words input_lower then RequirementPriority.CRITICAL
  else if Text.any_in high_words input_lower then RequirementPriority.HIGH
  else if Text.any_in low_words input_lower then RequirementPriority.LOW
  else RequirementPriority.MEDIUM.

(** [complexity_score = 3.0] and the chain that may replace it. *)
Definition classify_complexity (input_lower : string) : float :=
  if Text.any_in simple_words input_lower then 2.0%float
  else if Text.any_in complex_words input_lower then 8.0%float
  else if Text.any_in architecture_words input_lower then 9.0%float
  else 3.0%float.

(** [risk_score = 3.0] and the chain that may replace it. *)
Definition classify_risk (req_type : RequirementType.t) (input_lower : string) : float :=
  if RequirementType.eqb req_type RequirementType.COMPLIANCE then 8.0%float
  else if Text.any_in domain_words input_lower then 7.0%float
  else if RequirementType.eqb req_type RequirementType.BUG_FIX then 2.0%float
  else 3.0%float.

(** [_classify_requirement(user_input, context)]. The method reads nothing
    of [context] (nor of [self], which is not a parameter here). *)
Definition _classify_requirement (user_input : string) (context : WorkflowContext)
    : RequirementClassification :=
  let input_lower := Text.lower user_input in
  let req_type := classify_type input_lower in
  mkClassification
    req_type
    (classify_priority input_lower)
    (classify_complexity input_lower)
    (classify_risk req_type input_lower)
    "auto-calculated"
    0.8%float.

(** [_select_workflow_channel(classification, context)]. [a >= 7.0] is the
    IEEE comparison [7.0 <= a]. *)
Definition _select_workflow_channel (c : RequirementClassification)
    (context : WorkflowContext) : WorkflowChannel.t :=
  if RequirementType.eqb (type c) RequirementType.RESEARCH
  then WorkflowChannel.RESEARCH
  else if PrimFloat.leb (complexity_score c) 3.0%float
          && PrimFloat.leb (risk_score c) 3.0%float
          && RequirementType.eqb (type c) RequirementType.BUG_FIX
  then WorkflowChannel.FAST_TRACK
  else if PrimFloat.leb 7.0%float (complexity_score c)
          || existsb (RequirementType.eqb (type c))
               [RequirementType.MIGRATION; RequirementType.INFRASTRUCTURE]
  then WorkflowChannel.MEGA
  else WorkflowChannel.STANDARD.

(* ================================================================== *)
(** ** The environment of a run and the monad of effects               *)
(* ================================================================== *)

(** Text handed to a persona. Prompts are kept symbolic: a template is
    named by its text up to the first interpolation, and carries the
    interpolated pieces in order. *)
Inductive prompt : Type :=
| Plain (s : string)                         (* a string passed as it is *)
| Fmt (head : string) (args : list prompt)   (* an f-string *)
| Json (v : value)                           (* json.dumps(v, indent=2) *)
| Str (v : value).                           (* str(v) *)

(** One POST to [{personas_gateway_url}/persona/{persona_name}]; the
    payload's "parameters" are the constants max_tokens=2000 and
    temperature=0.7. *)
Record request : Type := mkRequest {
  req_persona : string;
  req_query : prompt;
  req_context : dict
}.

(** What the gateway does with a request: it answers with a status and a
    body, which [response.json()] decodes to a value or fails on and which
    [response.text()] reads as a text or fails on (a failure is the
    exception's text); or the request itself raises (connection refused,
    timeout, ...). *)
Inductive http_reply : Type :=
| Response (status : N) (json : string + value) (text : string + string)
| Raised (e : string).

(** The inputs of a run that the program does not choose. *)
Record env : Type := mkEnv {
  reply : nat -> http_reply;     (* the reply to the n-th request *)
  isotime : nat -> string;       (* datetime.now().isoformat() at the n-th clock reading *)
  seconds : nat -> float;        (* elapsed seconds measured at the n-th clock reading *)
  uuid : string                  (* str(uuid.uuid4()) *)
}.

(** The state a run changes. *)
Record state : Type := mkState {
  sent : list request;           (* the requests posted so far, oldest first *)
  ticks : nat;                   (* the number of clock readings so far *)
  execution_history : list dict  (* DynamicWorkflowOrchestrator.execution_history *)
}.

Definition initial_state : state := mkState [] 0 [].

(** Computations that read the environment, change the state and either
    return a value or raise an exception. *)
Definition M (A : Type) : Type := env -> state -> (exn + A) * state.

Definition ret {A : Type} (a : A) : M A :=
  fun _ st => (inr a, st).

Definition raise {A : Type} (e : exn) : M A :=
  fun _ st => (inl e, st).

Definition bind {A B : Type} (m : M A) (k : A -> M B) : M B :=
  fun en st =>
    match m en st with
    | (inl e, st') => (inl e, st')
    | (inr a, st') => k a en st'
    end.

(** [try: m except Exception as e: handler(e)] *)
Definition try_except {A : Type} (m : M A) (handler : exn -> M A) : M A :=
  fun en st =>
    match m en st with
    | (inl e, st') => handler e en st'
    | (inr a, st') => (inr a, st')
    end.

(** An expression that may raise. *)
Definition lift {A : Type} (r : exn + A) : M A :=
  match r with
  | inl e => raise e
  | inr a => ret a
  end.

Declare Scope m_scope.
Delimit Scope m_scope with m.
Notation "x <- m ;; k" := (bind m (fun x => k))
  (at level 61, m at next level, right associativity) : m_scope.
Notation "m1 ;;; m2" := (bind m1 (fun _ => m2))
  (at level 61, right associativity) : m_scope.
Local Open Scope m_scope.

(** [session.post(...)]: the request is logged and answered. *)
Definition http_post (r : request) : M http_reply :=
  fun en st =>
    (inr (reply en (List.length (sent st))),
     mkState (sent st ++ [r]) (ticks st) (execution_history st)).

(** [datetime.now().isoformat()] *)
Definition now_isoformat : M string :=
  fun en st =>
    (inr (isotime en (ticks st)),
     mkState (sent st) (S (ticks st)) (execution_history st)).

(** [(datetime.now() - start_time).total_seconds()] *)
Definition elapsed_seconds : M float :=
  fun en st =>
    (inr (seconds en (ticks st)),
     mkState (sent st) (S (ticks st)) (execution_history st)).

(** [self.execution_history.append(result)] *)
Definition history_append (result : dict) : M unit :=
  fun _ st =>
    (inr tt, mkState (sent st) (ticks st) (execution_history st ++ [result])).

(* ================================================================== *)
(** ** PersonaAPIClient                                                *)
(* ================================================================== *)

(** [type(v).__name__] *)
Definition type_name (v : value) : string :=
  match v with
  | VNone => "NoneType"
  | VBool _ => "bool"
  | VInt _ => "int"
  | VFloat _ => "float"
  | VStr _ => "str"
  | VList _ => "list"
  | VDict _ => "dict"
  end.

(** Decimal text of a status code. *)
Definition decimal (n : N) : string :=
  DecimalString.NilZero.string_of_uint (N.to_uint n).

(** The dictionary returned by the two failure exits of [call_persona]. *)
Definition failure_result (error persona_name : string) : dict :=
  [("success", VBool false); ("error", VStr error); ("persona", VStr persona_name)].

(** The dictionary returned on status 200 with a decoded JSON object. *)
Definition success_result (result : dict) (persona_name : string) : dict :=
  [("success", VBool true);
   ("response", dict_get_default "response" (VStr "") result);
   ("persona", dict_get_default "persona" (VStr persona_name) result);
   ("execution_time", dict_get_default "execution_time" (VInt 0) result);
   ("raw_result", VDict result)].

(** What [call_persona] makes of a reply. A body that does not decode, or
    that decodes to something other than an object (so that [result.get]
    is an AttributeError), or that cannot be read as a text when the status
    is not 200, ends in the [except Exception] exit. *)
Definition result_of_reply (persona_name : string) (r : http_reply) : dict :=
  match r with
  | Raised e => failure_result e persona_name
  | Response status json text =>
      if (status =? 200)%N then
        match json with
        | inl e => failure_result e persona_name
        | inr (VDict result) => success_result result persona_name
        | inr v =>
            failure_result
              (exn_str (AttributeError
                 ("'" ++ type_name v ++ "' object has no attribute 'get'")))
              persona_name
        end
      else
        match text with
        | inl e => failure_result e persona_name
        | inr error_text =>
            failure_result ("HTTP " ++ decimal status ++ ": " ++ error_text)
              persona_name
        end
  end.

(** [call_persona(persona_name, user_message, context)], with
    [context_manager=None], the parameter's default and the only way the
    orchestrator and the metrics calculator call it: the two
    [if context_manager:] blocks are skipped and [final_context] is
    [context]. *)
Definition call_persona (persona_name : string) (user_message : prompt)
    (context : dict) : M dict :=
  r <- http_post (mkRequest persona_name user_message context) ;;
  ret (result_of_reply persona_name r).

(** [validate_and_route_request(persona_name, user_message, context)],
    with [context_manager=None]. *)
Definition validate_and_route_request (persona_name : string)
    (user_message : prompt) (context : dict) : M dict :=
  validation_result <-
    call_persona "interface_validator"
      (Fmt "Please validate this request format for persona communication:"
           [Plain persona_name; user_message; Json (VDict context)])
      [("validation_target", VStr persona_name); ("request_type", VStr "validation")] ;;
  success <- lift (dict_item "success" validation_result) ;;
  if negb (truthy success) then ret validation_result
  else
    routing_result <-
      call_persona "queue_manager"
        (Fmt "Please route this validated request to the appropriate persona:"
             [Plain persona_name; user_message; Json (VDict context);
              Str (dict_get_default "response" (VStr "") validation_result)])
        [("routing_target", VStr persona_name); ("request_type", VStr "routing")] ;;
    call_persona persona_name user_message context.

(* ================================================================== *)
(** ** Regular expressions: the fragment of [re] the parser uses       *)
(* ================================================================== *)

Module Re.

(** Patterns: literals, character classes, concatenation, alternation,
    greedy [?], greedy [*] and [+] over a class, and the capturing
    group. *)
Inductive regex : Type :=
| Lit (c : ascii)
| Class (p : ascii -> bool)
| Cat (a b : regex)
| Alt (a b : regex)
| Opt (a : regex)
| Star (p : ascii -> bool)
| Plus (p : ascii -> bool)
| Group (a : regex).

(** A word, as the concatenation of its letters. *)
Fixpoint word (w : string) : regex :=
  match w with
  | EmptyString => Opt (Class (fun _ => false))
  | String c EmptyString => Lit c
  | String c w' => Cat (Lit c) (word w')
  end.

(** Greedy repetition of a class with backtracking: the longest run is
    tried first, and each shorter one in turn while the continuation
    fails. *)
Fixpoint star {R : Type} (p : ascii -> bool) (s : string)
    (k : string -> option R) : option R :=
  match s with
  | String c s' =>
      if p c then
        match star p s' k with
        | Some r => Some r
        | None => k s
        end
      else k s
  | EmptyString => k s
  end.

(** The backtracking matcher, in continuation-passing style: [exec r s
    cap k] matches [r] at the start of [s] and hands what is left of [s],
    with the text captured so far, to [k]; alternatives are tried in the
    order [re] tries them. With IGNORECASE a literal matches a character
    of the same lower-case form; the classes used here (digits, the colon
    and white space) hold no cased character. *)
Fixpoint exec {R : Type} (ignorecase : bool) (r : regex) (s : string)
    (cap : option string) (k : string -> option string -> option R) : option R :=
  match r with
  | Lit c =>
      match s with
      | String x s' =>
          if (if ignorecase
              then Ascii.eqb (Text.lower_char x) (Text.lower_char c)
              else Ascii.eqb x c)
          then k s' cap else None
      | EmptyString => None
      end
  | Class p =>
      match s with
      | String x s' => if p x then k s' cap else None
      | EmptyString => None
      end
  | Cat a b => exec ignorecase a s cap (fun s1 cap1 => exec ignorecase b s1 cap1 k)
  | Alt a b =>
      match exec ignorecase a s cap k with
      | Some res => Some res
      | None => exec ignorecase b s cap k
      end
  | Opt a =>
      match exec ignorecase a s cap k with
      | Some res => Some res
      | None => k s cap
      end
  | Star p => star p s (fun s1 => k s1 cap)
  | Plus p =>
      match s with
      | String x s' => if p x then star p s' (fun s1 => k s1 cap) else None
      | EmptyString => None
      end
  | Group a =>
      exec ignorecase a s cap
        (fun s1 _ => k s1 (Some (Text.take (String.length s - String.length s1) s)))
  end.

(** [re.match]: a match at the start of [s]; the result is [group(1)]. *)
Definition match_here (ignorecase : bool) (r : regex) (s : string)
    : option (option string) :=
  exec ignorecase r s None (fun _ cap => Some cap).

(** [re.search]: the match at the leftmost position that has one. *)
Fixpoint search (ignorecase : bool) (r : regex) (s : string)
    : option (option string) :=
  match match_here ignorecase r s with
  | Some m => Some m
  | None =>
      match s with
      | EmptyString => None
      | String _ s' => search ignorecase r s'
      end
  end.

(** [[0-9]] *)
Definition is_digit (c : ascii) : bool :=
  let n := N_of_ascii c in ((48 <=? n) && (n <=? 57))%N.

(** [\s] on U+0000..U+00FF: tab to carriage return, the four separators
    U+001C..U+001F, the space, U+0085 and the no-break space. *)
Definition is_space (c : ascii) : bool :=
  let n := N_of_ascii c in
  ((9 <=? n) && (n <=? 13) || (28 <=? n) && (n <=? 32)
   || (n =? 133) || (n =? 160))%N.

(** [[:\s]] *)
Definition is_colon_or_space (c : ascii) : bool :=
  Ascii.eqb c ":" || is_space c.

End Re.

(* ================================================================== *)
(** ** MetricsCalculator                                               *)
(* ================================================================== *)

(** The pattern of [_parse_metric_response]: the word score or the word
    rating (not captured), then one or more of [[:\s]], then the group:
    one or more of [[0-9]], an optional point, any number of [[0-9]]. *)
Definition score_pattern : Re.regex :=
  Re.Cat (Re.Alt (Re.word "score") (Re.word "rating"))
    (Re.Cat (Re.Plus Re.is_colon_or_space)
       (Re.Group
          (Re.Cat (Re.Plus Re.is_digit)
             (Re.Cat (Re.Opt (Re.Lit ".")) (Re.Star Re.is_digit))))).

(** Leading decimal digits of [s], folded into [acc]: the number read, how
    many digits it took, and the rest of [s]. *)
Fixpoint read_digits (s : string) (acc : Z) (n : nat) : Z * nat * string :=
  match s with
  | String c s' =>
      if Re.is_digit c
      then read_digits s' (10 * acc + Z.of_N (N_of_ascii c - 48)) (S n)
      else (acc, n, s)
  | EmptyString => (acc, n, s)
  end.

(** A numeral [digits] or [digits.digits] (the fraction may be empty) as
    the integer of all its digits and the number of fraction digits. *)
Definition decimal_of (s : string) : option (Z * nat) :=
  match read_digits s 0 0 with
  | (_, O, _) => None
  | (m1, S _, EmptyString) => Some (m1, O)
  | (m1, S _, String c rest) =>
      if Ascii.eqb c "." then
        match read_digits rest m1 0 with
        | (m2, n2, EmptyString) => Some (m2, n2)
        | _ => None
        end
      else None
  end.

(** The binary64 nearest to [m / 10^n] (ties to even, overflow to
    infinity): the quotient of the two integers, rounded once. *)
Definition nearest_float (m : Z) (n : nat) : float :=
  match m, (10 ^ Z.of_nat n)%Z with
  | Zpos p, Zpos q =>
      SF2Prim (SpecFloat.SFdiv prec emax
                 (SpecFloat.S754_finite false p 0)
                 (SpecFloat.S754_finite false q 0))
  | _, _ => 0%float
  end.

(** [float(s)] on the numerals the pattern's group can capture. Python's
    [float] also reads signs, exponents, blanks and underscores, which the
    group never holds; such strings are the ValueError here. *)
Definition py_float (s : string) : exn + float :=
  match decimal_of s with
  | Some (m, n) => inr (nearest_float m n)
  | None => inl (ValueError ("could not convert string to float: '" ++ s ++ "'"))
  end.

(** [min(a, b)] of two floats: [b] when [b < a], else [a]. *)
Definition py_min (a b : float) : float :=
  if PrimFloat.ltb b a then b else a.

(** The list [insights] after its three conditional appends. *)
Definition insights_of (response : string) : list value :=
  let low := Text.lower response in
  (if Text.contains "improvement" low
   then [VStr "improvement_opportunities_identified"] else [])
  ++ (if Text.contains "excellent" low || Text.contains "high" low
      then [VStr "strong_performance_indicators"] else [])
  ++ (if Text.contains "concern" low || Text.contains "risk" low
      then [VStr "attention_required"] else []).

(** The score computed by the first two statements of
    [_parse_metric_response] on a string. *)
Definition extract_score (response : string) : exn + float :=
  match Re.search true score_pattern response with
  | Some (Some g) => py_float g
  | Some None =>
      inl (TypeError
             "float() argument must be a string or a real number, not 'NoneType'")
  | None => inr 5.0%float
  end.

(** [_parse_metric_response(response, metric_type)]. [re.search] on an
    object that is not a string is a TypeError, whose text names the type
    of the object (the text of Python 3.11 and later). *)
Definition _parse_metric_response (response : value) (metric_type : string)
    : M dict :=
  match response with
  | VStr text =>
      score <- lift (extract_score text) ;;
      calculated_at <- now_isoformat ;;
      ret [("score", VFloat (py_min score 10.0%float));
           ("assessment", VStr (Text.ellipsis 200 text));
           ("insights", VList (insights_of text));
           ("calculated_at", VStr calculated_at);
           ("metric_type", VStr metric_type)]
  | _ =>
      raise (TypeError ("expected string or bytes-like object, got '"
                        ++ type_name response ++ "'"))
  end.

(** [@dataclass PersonaResult] *)
Module PersonaResult.
Record t : Type := mk {
  persona_id : value;
  persona_name : string;
  success : bool;
  output_data : dict;
  confidence : float;
  processing_time : float;
  metadata : dict;
  validated : bool
}.
End PersonaResult.

(** The "classification" entry of [api_context]: four fields of the
    classification, or their defaults when there is none. *)
Definition classification_brief (c : option RequirementClassification) : dict :=
  match c with
  | Some c =>
      [("type", VStr (RequirementType.value (type c)));
       ("priority", VStr (RequirementPriority.value (priority c)));
       ("complexity_score", VFloat (complexity_score c));
       ("risk_score", VFloat (risk_score c))]
  | None =>
      [("type", VStr "unknown"); ("priority", VStr "unknown");
       ("complexity_score", VInt 0); ("risk_score", VInt 0)]
  end.

(** The "classification" entry of the results summary and of the final
    result: all six fields. *)
Definition classification_full (c : option RequirementClassification) : dict :=
  match c with
  | Some c =>
      [("type", VStr (RequirementType.value (type c)));
       ("priority", VStr (RequirementPriority.value (priority c)));
       ("complexity_score", VFloat (complexity_score c));
       ("risk_score", VFloat (risk_score c));
       ("estimated_effort", VStr (estimated_effort c));
       ("confidence", VFloat (confidence c))]
  | None =>
      [("type", VStr "unknown"); ("priority", VStr "unknown");
       ("complexity_score", VInt 0); ("risk_score", VInt 0);
       ("estimated_effort", VStr "unknown"); ("confidence", VInt 0)]
  end.

(** One element of the summary's "results" list. *)
Definition result_brief (r : PersonaResult.t) : value :=
  VDict [("persona", VStr (PersonaResult.persona_name r));
         ("success", VBool (PersonaResult.success r));
         ("confidence", VFloat (PersonaResult.confidence r));
         ("processing_time", VFloat (PersonaResult.processing_time r));
         ("key_outputs", VDict (PersonaResult.output_data r))].

(** [results_summary] of [calculate_all_metrics]. *)
Definition results_summary (workflow_results : list PersonaResult.t)
    (context : WorkflowContext) : dict :=
  [("workflow_id", VStr (workflow_id context));
   ("requirement", VStr (user_input context));
   ("classification", VDict (classification_full (classification context)));
   ("results", VList (map result_brief workflow_results))].

(** The persona endpoint of a metric. *)
Definition metric_persona (metric_type : string) : string :=
  metric_type ++ "_metrics".

(** The request sent for a metric: the prompt's template begins
    "Calculate <metric> metrics for this workflow execution:" and
    interpolates the serialized summary. *)
Definition metric_request (metric_type : string) (summary : dict)
    (context : WorkflowContext) : request :=
  mkRequest (metric_persona metric_type)
    (Fmt ("Calculate " ++ metric_type ++ " metrics for this workflow execution:")
         [Json (VDict summary)])
    [("metric_type", VStr metric_type); ("workflow_id", VStr (workflow_id context))].

(** One of the four blocks of [calculate_all_metrics]: the call, then
    [if result["success"]: metrics[name] = self._parse_metric_response(...)]. *)
Definition metric_block (metric_type : string) (summary : dict)
    (context : WorkflowContext) (metrics : dict) : M dict :=
  let rq := metric_request metric_type summary context in
  result <- call_persona (req_persona rq) (req_query rq) (req_context rq) ;;
  ok <- lift (dict_item "success" result) ;;
  if truthy ok then
    response <- lift (dict_item "response" result) ;;
    parsed <- _parse_metric_response response metric_type ;;
    ret (dict_set metric_type (VDict parsed) metrics)
  else ret metrics.

(** [calculate_all_metrics(workflow_results, context)] *)
Definition calculate_all_metrics (workflow_results : list PersonaResult.t)
    (context : WorkflowContext) : M dict :=
  let summary := results_summary workflow_results context in
  let metrics := [] in
  metrics <- metric_block "functionality" summary context metrics ;;
  metrics <- metric_block "performance" summary context metrics ;;
  metrics <- metric_block "stability" summary context metrics ;;
  metrics <- metric_block "scalability" summary context metrics ;;
  ret metrics.

(* ================================================================== *)
(** ** DynamicWorkflowOrchestrator                                     *)
(* ================================================================== *)

(** [_call_persona_with_validation(persona_name, message, context, phase)].
    The keyword arguments of [PersonaResult(...)] are evaluated in the
    order they are written, [persona_id] first. *)
Definition _call_persona_with_validation (persona_name : string)
    (message : prompt) (context : WorkflowContext) (phase : string)
    : M PersonaResult.t :=
  let api_context :=
    [("workflow_id", VStr (workflow_id context));
     ("phase", VStr phase);
     ("classification", VDict (classification_brief (classification context)))] in
  api_result <-
    (if negb (existsb (String.eqb persona_name) ["interface_validator"; "queue_manager"])
     then validate_and_route_request persona_name message api_context
     else call_persona persona_name message api_context) ;;
  processing_time <- elapsed_seconds ;;
  ok <- lift (dict_item "success" api_result) ;;
  if truthy ok then
    persona_id <- lift (dict_item "persona_id" api_result) ;;
    response <- lift (dict_item "response" api_result) ;;
    ret (PersonaResult.mk persona_id persona_name true
           [("response", response)] 0.8%float processing_time
           [("phase", VStr phase); ("validated", VBool true)] true)
  else
    error <- lift (dict_item "error" api_result) ;;
    ret (PersonaResult.mk
           (dict_get_default "persona_id" (VStr "unknown") api_result)
           persona_name false
           [("error", error)] 0.0%float processing_time
           [("phase", VStr phase); ("validated", VBool false)] false).

(** [_execute_testing_phase] *)
Definition _execute_testing_phase (context : WorkflowContext) : M (list PersonaResult.t) :=
  let results := [] in
  testing_result <-
    _call_persona_with_validation "tester"
      (Fmt "Comprehensive testing strategy for: " [Plain (user_input context)])
      context "quality_assurance" ;;
  ret (results ++ [testing_result]).

(** [_execute_deployment_phase] *)
Definition _execute_deployment_phase (context : WorkflowContext) : M (list PersonaResult.t) :=
  let results := [] in
  infra_result <-
    _call_persona_with_validation "infrastructure_engineer"
      (Fmt "Infrastructure setup and deployment for: " [Plain (user_input context)])
      context "infrastructure_automation" ;;
  let results := results ++ [infra_result] in
  release_result <-
    _call_persona_with_validation "release_engineer"
      (Fmt "Release engineering and CI/CD automation for: " [Plain (user_input context)])
      context "cicd_automation" ;;
  ret (results ++ [release_result]).

(** [_execute_monitoring_phase] *)
Definition _execute_monitoring_phase (context : WorkflowContext) : M (list PersonaResult.t) :=
  let results := [] in
  monitoring_result <-
    _call_persona_with_validation "devops_specialist"
      (Fmt "Monitoring and operational validation for: " [Plain (user_input context)])
      context "monitoring_operations" ;;
  ret (results ++ [monitoring_result]).

(** [_execute_fast_track_workflow] *)
Definition _execute_fast_track_workflow (context : WorkflowContext) : M (list PersonaResult.t) :=
  let results := [] in
  dev_result <-
    _call_persona_with_validation "developer"
      (Fmt "Quick technical assessment for: " [Plain (user_input context)])
      context "fast_track_development" ;;
  let results := results ++ [dev_result] in
  test_result <-
    _call_persona_with_validation "tester"
      (Fmt "Quick test strategy for: " [Plain (user_input context)])
      context "fast_track_testing" ;;
  ret (results ++ [test_result]).

(** [_execute_standard_workflow] *)
Definition _execute_standard_workflow (context : WorkflowContext) : M (list PersonaResult.t) :=
  let results := [] in
  risk_result <-
    _call_persona_with_validation "risk_assessor"
      (Fmt "Risk assessment for: " [Plain (user_input context)])
      context "risk_assessment" ;;
  let results := results ++ [risk_result] in
  team_result <-
    _call_persona_with_validation "team_manager"
      (Fmt "Team capacity and resource assessment for: " [Plain (user_input context)])
      context "team_management" ;;
  let results := results ++ [team_result] in
  dev_result <-
    _call_persona_with_validation "developer"
      (Fmt "Technical implementation plan for: " [Plain (user_input context)])
      context "development" ;;
  let results := results ++ [dev_result] in
  test_result <-
    _call_persona_with_validation "tester"
      (Fmt "Comprehensive test strategy for: " [Plain (user_input context)])
      context "testing" ;;
  let results := results ++ [test_result] in
  ops_result <-
    _call_persona_with_validation "operations"
      (Fmt "Deployment and operational readiness for: " [Plain (user_input context)])
      context "operations" ;;
  ret (results ++ [ops_result]).

(** [_execute_mega_workflow] *)
Definition _execute_mega_workflow (context : WorkflowContext) : M (list PersonaResult.t) :=
  let results := [] in
  program_result <-
    _call_persona_with_validation "program_manager"
      (Fmt "Program coordination and strategic alignment for: " [Plain (user_input context)])
      context "program_management" ;;
  let results := results ++ [program_result] in
  mind_result <-
    _call_persona_with_validation "mind_engine_coordinator"
      (Fmt "Complex problem decomposition for: " [Plain (user_input context)])
      context "mind_engine" ;;
  let results := results ++ [mind_result] in
  standard_results <- _execute_standard_workflow context ;;
  ret (results ++ standard_results).

(** [_execute_research_workflow] *)
Definition _execute_research_workflow (context : WorkflowContext) : M (list PersonaResult.t) :=
  let results := [] in
  dev_result <-
    _call_persona_with_validation "developer"
      (Fmt "Technical research and feasibility analysis for: " [Plain (user_input context)])
      context "research_development" ;;
  let results := results ++ [dev_result] in
  mind_result <-
    _call_persona_with_validation "mind_engine_coordinator"
      (Fmt "Research methodology and approach for: " [Plain (user_input context)])
      context "research_methodology" ;;
  ret (results ++ [mind_result]).

(** [_execute_workflow_with_phases(workflow_channel, context)] *)
Definition _execute_workflow_with_phases (workflow_channel : WorkflowChannel.t)
    (context : WorkflowContext) : M (list PersonaResult.t) :=
  let all_results := [] in
  core_results <-
    match workflow_channel with
    | WorkflowChannel.FAST_TRACK => _execute_fast_track_workflow context
    | WorkflowChannel.STANDARD => _execute_standard_workflow context
    | WorkflowChannel.MEGA => _execute_mega_workflow context
    | WorkflowChannel.RESEARCH => _execute_research_workflow context
    end ;;
  let all_results := all_results ++ core_results in
  testing_results <- _execute_testing_phase context ;;
  let all_results := all_results ++ testing_results in
  deployment_results <- _execute_deployment_phase context ;;
  let all_results := all_results ++ deployment_results in
  monitoring_results <- _execute_monitoring_phase context ;;
  ret (all_results ++ monitoring_results).

(** [_serialize_result] *)
Definition _serialize_result (r : PersonaResult.t) : value :=
  VDict [("persona_id", PersonaResult.persona_id r);
         ("persona_name", VStr (PersonaResult.persona_name r));
         ("success", VBool (PersonaResult.success r));
         ("output_data", VDict (PersonaResult.output_data r));
         ("confidence", VFloat (PersonaResult.confidence r));
         ("processing_time", VFloat (PersonaResult.processing_time r));
         ("metadata", VDict (PersonaResult.metadata r));
         ("validated", VBool (PersonaResult.validated r))].

Definition execution_method : value :=
  VStr "dynamic_workflow_with_complete_personas".

(** [process_requirement(user_input, context)]: the body of the [try]
    block, then the whole method with its [except Exception] exit. *)
Definition process_requirement_body (user_input : string) (context : dict)
    (wid start_time : string) : M dict :=
  let workflow_context :=
    mkContext wid user_input start_time None context new_manager in
  let results := [] in
  let classification := _classify_requirement user_input workflow_context in
  let workflow_context :=
    mkContext wid user_input start_time (Some classification) context new_manager in
  concierge_result <-
    _call_persona_with_validation "requirement_concierge" (Plain user_input)
      workflow_context "requirement_analysis" ;;
  let results := results ++ [concierge_result] in
  let workflow_channel := _select_workflow_channel classification workflow_context in
  workflow_results <- _execute_workflow_with_phases workflow_channel workflow_context ;;
  let results := results ++ workflow_results in
  metrics <- calculate_all_metrics results workflow_context ;;
  total_time <- elapsed_seconds ;;
  let result :=
    [("workflow_id", VStr wid);
     ("input", VStr user_input);
     ("context", VDict context);
     ("classification", VDict (classification_full (Some classification)));
     ("selected_channel", VStr (WorkflowChannel.value workflow_channel));
     ("results", VList (map _serialize_result results));
     ("metrics", VDict metrics);
     ("total_time", VFloat total_time);
     ("success", VBool true);
     ("execution_method", execution_method)] in
  history_append result ;;;
  ret result.

Definition process_requirement (user_input : string) (context : option dict)
    : M dict :=
  fun en =>
    let wid := uuid en in
    let context := match context with Some c => c | None => [] end in
    (start_time <- now_isoformat ;;
     try_except (process_requirement_body user_input context wid start_time)
       (fun e =>
          total_time <- elapsed_seconds ;;
          ret [("workflow_id", VStr wid);
               ("input", VStr user_input);
               ("context", VDict context);
               ("error", VStr (exn_str e));
               ("total_time", VFloat total_time);
               ("success", VBool false);
               ("execution_method", execution_method)]))
      en.

(* ================================================================== *)
(** ** WorkflowContextManager: the enriched context                    *)
(* ================================================================== *)

(** The line feed of the summary's f-strings. *)
Definition newline : string := String "010"%char "".

(** [str.upper] on one code point of U+0000..U+00FF: a-z and the Latin-1
    small letters U+00E0..U+00FE (the division sign U+00F7 apart) move
    down by 32 and the sharp s U+00DF becomes SS. The capitals of the micro
    sign U+00B5 and of y with diaeresis U+00FF lie beyond U+00FF, where
    the embedding has no text: [None]. Every other code point is
    unchanged. *)
Definition upper_char (c : ascii) : option string :=
  let n := N_of_ascii c in
  if ((97 <=? n) && (n <=? 122) || (224 <=? n) && (n <=? 254) && negb (n =? 247))%N
  then Some (String (ascii_of_N (n - 32)) "")
  else if (n =? 223)%N then Some "SS"
  else if ((n =? 181) || (n =? 255))%N then None
  else Some (String c "").

(** [s.upper()], when it stays within U+0000..U+00FF. *)
Fixpoint upper (s : string) : option string :=
  match s with
  | EmptyString => Some EmptyString
  | String c s' =>
      match upper_char c, upper s' with
      | Some u, Some us => Some (u ++ us)%string
      | _, _ => None
      end
  end.

(** [s.replace(a, b)] for one-character [a] and [b]. *)
Fixpoint replace (a b : ascii) (s : string) : string :=
  match s with
  | EmptyString => EmptyString
  | String c s' => String (if Ascii.eqb c a then b else c) (replace a b s')
  end.

(** [persona.upper().replace('-', ' ')] *)
Definition heading (persona : string) : option string :=
  option_map (replace "-" " ") (upper persona).

(** [data["output"]] for an entry as [add_persona_output] stores it, a
    dictionary with a text under "output". *)
Definition output_text (data : value) : option string :=
  match data with
  | VDict d => match dict_get "output" d with
               | Some (VStr output) => Some output
               | _ => None
               end
  | _ => None
  end.

(** [data["output"]] for any entry: a dictionary without the key is a
    KeyError, and an object that is no dictionary a TypeError. *)
Definition entry_item (data : value) : exn + value :=
  match data with
  | VDict d => dict_item "output" d
  | VStr _ => inl (TypeError "string indices must be integers, not 'str'")
  | VList _ => inl (TypeError "list indices must be integers or slices, not str")
  | v => inl (TypeError ("'" ++ type_name v ++ "' object is not subscriptable"))
  end.

(** One turn of the loop of [format_context_summary]: the heading, then
    [data["output"]], then [len(output)] and the output, cut at 400
    characters. It raises when the entry has no output or the output has
    no length (null, a boolean, a number). [None] stands for a block that
    the embedding cannot write: a heading beyond U+00FF, or an output that
    is a list or a dictionary, whose formatting is that of [str]. *)
Definition contribution (persona : string) (data : value) : option (exn + string) :=
  match entry_item data with
  | inl e => Some (inl e)
  | inr (VStr output) =>
      match heading persona with
      | Some name =>
          Some (inr (newline ++ "--- " ++ name ++ " ---" ++ newline
                     ++ (if Nat.ltb 400 (String.length output)
                         then Text.take 400 output ++ "..." ++ newline
                         else output ++ newline))%string)
      | None => None
      end
  | inr (VList _) => None
  | inr (VDict _) => None
  | inr v => Some (inl (TypeError ("object of type '" ++ type_name v
                                   ++ "' has no len()")))
  end.

(** The loop of [format_context_summary] over [persona_outputs.items()]:
    what it appends to the summary, or the exception of the first entry
    that raises. *)
Fixpoint contributions (outputs : dict) : option (exn + string) :=
  match outputs with
  | [] => Some (inr EmptyString)
  | (persona, data) :: rest =>
      match contribution persona data with
      | Some (inl e) => Some (inl e)
      | Some (inr block) =>
          match contributions rest with
          | Some (inr more) => Some (inr (block ++ more)%string)
          | other => other
          end
      | None =>
          match contributions rest with
          | Some (inl e) => Some (inl e)
          | _ => None
          end
      end
  end.

(** [format_context_summary(current_persona)]: the summary, or the
    exception that the loop raises. [None] stands for a summary that the
    embedding cannot write: an upper-case form beyond U+00FF, or an output
    that is a list or a dictionary. *)
Definition format_context_summary (self : WorkflowContextManager)
    (current_persona : string) : option (exn + string) :=
  match persona_outputs self with
  | [] => Some (inr "No previous persona outputs available.")
  | _ :: _ =>
      match contributions (persona_outputs self) with
      | Some (inl e) => Some (inl e)
      | Some (inr body) =>
          match heading current_persona with
          | Some name =>
              Some (inr ("=== WORKFLOW CONTEXT FOR " ++ name ++ " ===" ++ newline
                         ++ newline
                         ++ "Previous Persona Contributions:" ++ newline
                         ++ body
                         ++ newline ++ "=== CURRENT CONTEXT FOR " ++ name ++ " ==="
                         ++ newline)%string)
          | None => None
          end
      | None => None
      end
  end.

(** [get_enriched_context(current_persona, base_context)]: a copy of the
    base context with three keys assigned, or the exception of
    [format_context_summary]. "workflow_history" is the accumulator's
    dictionary itself; the embedding gives its content at the time of the
    call. *)
Definition get_enriched_context (self : WorkflowContextManager)
    (current_persona : string) (base_context : dict) : option (exn + dict) :=
  let enriched_context := base_context in
  let enriched_context :=
    dict_set "workflow_history" (VDict (persona_outputs self)) enriched_context in
  let enriched_context :=
    dict_set "previous_outputs"
      (VList (map VStr (dict_keys (persona_outputs self)))) enriched_context in
  match format_context_summary self current_persona with
  | Some (inr summary) =>
      Some (inr (dict_set "context_summary" (VStr summary) enriched_context))
  | Some (inl e) => Some (inl e)
  | None => None
  end.

(** The two assignments of [add_persona_output], lines 94 to 99, for an
    output of any type: what the manager holds when [len(output)] then
    raises, before the history is appended to. *)
Definition store_output (self : WorkflowContextManager) (persona_name : string)
    (output : value) (metadata : option dict) (now1 : string)
    : WorkflowContextManager :=
  let entry := VDict [("output", output);
                      ("timestamp", VStr now1);
                      ("metadata", VDict (metadata_or_empty metadata))] in
  mkManager
    (dict_set (persona_name ++ "_output") output (workflow_context self))
    (dict_set persona_name entry (persona_outputs self))
    (context_history self).

(* ================================================================== *)
(** ** PersonaAPIClient with a context manager                         *)
(* ================================================================== *)

Module WithContextManager.

(** [call_persona(persona_name, user_message, context, context_manager)].
    The manager is an object that the caller keeps: the call returns the
    dictionary and leaves the manager as the second component gives it.
    The context is enriched before the [try], so that an exception of
    [get_enriched_context] leaves the method. The request carries the
    enriched context. On status 200 with a JSON object the clock is read
    for the metadata and the output is added to the manager: a text is
    added in full; null, a boolean or a number is stored by the two
    assignments, then [len(output)] raises and the [except Exception] exit
    returns the failure. The other exits leave the manager as it was.
    [None] stands for the runs the embedding does not cover: an enriched
    context that it cannot write, or an accepted reply whose "response" is
    a list or a dictionary. *)
Definition call_persona (context_manager : WorkflowContextManager)
    (persona_name : string) (user_message : prompt) (context : dict)
    : M (option (dict * WorkflowContextManager)) :=
  match get_enriched_context context_manager persona_name context with
  | None => ret None
  | Some (inl e) => raise e
  | Some (inr final_context) =>
      r <- http_post (mkRequest persona_name user_message final_context) ;;
      match r with
      | Raised e => ret (Some (failure_result e persona_name, context_manager))
      | Response status json text =>
          if (status =? 200)%N then
            match json with
            | inl e => ret (Some (failure_result e persona_name, context_manager))
            | inr (VDict result) =>
                match dict_get_default "response" (VStr "") result with
                | VStr response_text =>
                    timestamp <- now_isoformat ;;
                    now1 <- now_isoformat ;;
                    now2 <- now_isoformat ;;
                    ret (Some
                      (success_result result persona_name,
                       add_persona_output context_manager persona_name response_text
                         (Some [("execution_time",
                                 dict_get_default "execution_time" (VInt 0) result);
                                ("timestamp", VStr timestamp)])
                         now1 now2))
                | VList _ => ret None
                | VDict _ => ret None
                | response_text =>
                    timestamp <- now_isoformat ;;
                    now1 <- now_isoformat ;;
                    ret (Some
                      (failure_result
                         (exn_str (TypeError
                            ("object of type '" ++ type_name response_text
                             ++ "' has no len()")))
                         persona_name,
                       store_output context_manager persona_name response_text
                         (Some [("execution_time",
                                 dict_get_default "execution_time" (VInt 0) result);
                                ("timestamp", VStr timestamp)])
                         now1))
                end
            | inr v =>
                ret (Some
                  (failure_result
                     (exn_str (AttributeError
                        ("'" ++ type_name v ++ "' object has no attribute 'get'")))
                     persona_name,
                   context_manager))
            end
          else
            match text with
            | inl e => ret (Some (failure_result e persona_name, context_manager))
            | inr error_text =>
                ret (Some (failure_result
                             ("HTTP " ++ decimal status ++ ": " ++ error_text)
                             persona_name,
                           context_manager))
            end
      end
  end.

(** [validate_and_route_request(persona_name, user_message, context,
    context_manager)]: the three calls share the manager. *)
Definition validate_and_route_request (context_manager : WorkflowContextManager)
    (persona_name : string) (user_message : prompt) (context : dict)
    : M (option (dict * WorkflowContextManager)) :=
  validation <-
    call_persona context_manager "interface_validator"
      (Fmt "Please validate this request format for persona communication:"
           [Plain persona_name; user_message; Json (VDict context)])
      [("validation_target", VStr persona_name); ("request_type", VStr "validation")] ;;
  match validation with
  | None => ret None
  | Some (validation_result, context_manager) =>
      success <- lift (dict_item "success" validation_result) ;;
      if negb (truthy success) then ret (Some (validation_result, context_manager))
      else
        routing <-
          call_persona context_manager "queue_manager"
            (Fmt "Please route this validated request to the appropriate persona:"
                 [Plain persona_name; user_message; Json (VDict context);
                  Str (dict_get_default "response" (VStr "") validation_result)])
            [("routing_target", VStr persona_name); ("request_type", VStr "routing")] ;;
        match routing with
        | None => ret None
        | Some (routing_result, context_manager) =>
            call_persona context_manager persona_name user_message context
        end
  end.

End WithContextManager.

(* ================================================================== *)
(** ** Vocabulary of the statements                                    *)
(* ================================================================== *)

(** [w] occurs in [s]: [s] is a text, then [w], then a text. *)
Definition occurs (w s : string) : Prop :=
  exists a b : string, s = (a ++ w ++ b)%string.

(** The lower-cased [text] holds one of [words]. *)
Definition mentions (text : string) (words : list string) : Prop :=
  exists w, In w words /\ occurs w (Text.lower text).

(** [a <= b] on floats, as a proposition. *)
Definition fle (a b : float) : Prop := PrimFloat.leb a b = true.

(** The longest prefix of [s] whose characters all satisfy [p], and what
    follows it. *)
Fixpoint take_while (p : ascii -> bool) (s : string) : string :=
  match s with
  | String c s' => if p c then String c (take_while p s') else EmptyString
  | EmptyString => EmptyString
  end.

Fixpoint drop_while (p : ascii -> bool) (s : string) : string :=
  match s with
  | String c s' => if p c then drop_while p s' else s
  | EmptyString => EmptyString
  end.

(** [s] without a leading [w], the letters compared without regard to
    case. *)
Fixpoint strip_word (w s : string) : option string :=
  match w, s with
  | EmptyString, _ => Some s
  | String _ _, EmptyString => None
  | String a w', String x s' =>
      if Ascii.eqb (Text.lower_char x) (Text.lower_char a)
      then strip_word w' s' else None
  end.

(** The number at the start of [s], read by maximal munch: all the digits
    there are (at least one), then a point if one follows, with all the
    digits after it. *)
Definition number_prefix (s : string) : option string :=
  match take_while Re.is_digit s with
  | EmptyString => None
  | String d ds =>
      match drop_while Re.is_digit s with
      | String c r =>
          if Ascii.eqb c "."
          then Some (String d ds ++ String c (take_while Re.is_digit r))%string
          else Some (String d ds)
      | EmptyString => Some (String d ds)
      end
  end.

(** What must follow the keyword: colons and white space (at least one),
    then a number. *)
Definition after_keyword (s : string) : option string :=
  match take_while Re.is_colon_or_space s with
  | EmptyString => None
  | String _ _ => number_prefix (drop_while Re.is_colon_or_space s)
  end.

(** The number of a match that starts at the first character of [s]. *)
Definition number_at (s : string) : option string :=
  match strip_word "score" s with
  | Some r => after_keyword r
  | None =>
      match strip_word "rating" s with
      | Some r => after_keyword r
      | None => None
      end
  end.

(** The number of the leftmost match in [s]. *)
Fixpoint first_number (s : string) : option string :=
  match number_at s with
  | Some g => Some g
  | None =>
      match s with
      | EmptyString => None
      | String _ s' => first_number s'
      end
  end.

(** The pattern as the specification writes it, [score[:\s]+<number>],
    matched as written (no flag). *)
Definition spec_score_pattern : Re.regex :=
  Re.Cat (Re.word "score")
    (Re.Cat (Re.Plus Re.is_colon_or_space)
       (Re.Group
          (Re.Cat (Re.Plus Re.is_digit)
             (Re.Cat (Re.Opt (Re.Lit ".")) (Re.Star Re.is_digit))))).

(** The score as the specification words it: the first number matching
    that pattern, and 5.0 when there is none. *)
Definition spec_extract_score (response : string) : exn + float :=
  match Re.search false spec_score_pattern response with
  | Some (Some g) => py_float g
  | _ => inr 5.0%float
  end.

(** The value of the digits of [s] up to its first character that is not
    one, after the digits already read into [acc]. *)
Fixpoint digits_value (s : string) (acc : Z) : Z :=
  match s with
  | String c s' =>
      if Re.is_digit c
      then digits_value s' (10 * acc + Z.of_N (N_of_ascii c - 48))
      else acc
  | EmptyString => acc
  end.

(** A context to evaluate the methods on. *)
Definition sample_context : WorkflowContext :=
  mkContext "wf-0001" "Fix mobile checkout button not responding to taps"
    "2025-01-01T00:00:00" None [] new_manager.

(** An environment in which the gateway cannot be reached. *)
Definition offline_env : env :=
  mkEnv (fun _ => Raised "Cannot connect to host localhost:8013")
        (fun _ => "2025-01-01T00:00:00")
        (fun _ => 0.5%float)
        "wf-0001".

(** The value a computation returns, when it returns one. *)
Definition returned {A : Type} (r : (exn + A) * state) : option A :=
  match fst r with inr a => Some a | inl _ => None end.

(** The exception a computation raises, when it raises one. *)
Definition raised {A : Type} (r : (exn + A) * state) : option exn :=
  match fst r with inr _ => None | inl e => Some e end.

(** The "score" entry of the parser's result on a string reply. *)
Definition parsed_score (response : string) : option value :=
  match returned (_parse_metric_response (VStr response) "functionality"
                    offline_env initial_state) with
  | Some d => dict_get "score" d
  | None => None
  end.

(** The state after the requests [rs] are posted. *)
Definition posted (rs : list request) (st : state) : state :=
  mkState (sent st ++ rs) (ticks st) (execution_history st).

(** The state after one clock reading. *)
Definition ticked (st : state) : state :=
  mkState (sent st) (S (ticks st)) (execution_history st).

(** A reply that [call_persona] turns into a success: status 200 with a
    body that decodes to a JSON object. *)
Definition ok_reply (r : http_reply) : bool :=
  match r with
  | Response status (inr (VDict _)) _ => (status =? 200)%N
  | _ => false
  end.

(** [d["success"]] is present and true. *)
Definition is_success (d : dict) : bool :=
  match dict_get "success" d with
  | Some v => truthy v
  | None => false
  end.

(** The three requests of [validate_and_route_request]. *)
Definition validation_request (persona_name : string) (user_message : prompt)
    (context : dict) : request :=
  mkRequest "interface_validator"
    (Fmt "Please validate this request format for persona communication:"
         [Plain persona_name; user_message; Json (VDict context)])
    [("validation_target", VStr persona_name); ("request_type", VStr "validation")].

Definition routing_request (persona_name : string) (user_message : prompt)
    (context : dict) (validation_result : dict) : request :=
  mkRequest "queue_manager"
    (Fmt "Please route this validated request to the appropriate persona:"
         [Plain persona_name; user_message; Json (VDict context);
          Str (dict_get_default "response" (VStr "") validation_result)])
    [("routing_target", VStr persona_name); ("request_type", VStr "routing")].

Definition target_request (persona_name : string) (user_message : prompt)
    (context : dict) : request :=
  mkRequest persona_name user_message context.

(** One persona step of a workflow: the arguments of a call of
    [_call_persona_with_validation]. *)
Record step : Type := mkStep {
  step_persona : string;
  step_message : prompt;
  step_phase : string
}.

Definition run_step (context : WorkflowContext) (s : step) : M PersonaResult.t :=
  _call_persona_with_validation (step_persona s) (step_message s) context
    (step_phase s).

(** Steps run in order, each result appended to those before it. *)
Fixpoint run_steps (context : WorkflowContext) (steps : list step)
    (results : list PersonaResult.t) : M (list PersonaResult.t) :=
  match steps with
  | [] => ret results
  | s :: rest =>
      r <- run_step context s ;;
      run_steps context rest (results ++ [r])
  end.

(** A prompt about the requirement. *)
Definition about (head : string) (context : WorkflowContext) : prompt :=
  Fmt head [Plain (user_input context)].

Definition standard_steps (context : WorkflowContext) : list step :=
  [mkStep "risk_assessor" (about "Risk assessment for: " context) "risk_assessment";
   mkStep "team_manager"
     (about "Team capacity and resource assessment for: " context) "team_management";
   mkStep "developer" (about "Technical implementation plan for: " context) "development";
   mkStep "tester" (about "Comprehensive test strategy for: " context) "testing";
   mkStep "operations"
     (about "Deployment and operational readiness for: " context) "operations"].

(** The steps of a channel's core workflow. *)
Definition core_steps (channel : WorkflowChannel.t) (context : WorkflowContext)
    : list step :=
  match channel with
  | WorkflowChannel.FAST_TRACK =>
      [mkStep "developer" (about "Quick technical assessment for: " context)
         "fast_track_development";
       mkStep "tester" (about "Quick test strategy for: " context)
         "fast_track_testing"]
  | WorkflowChannel.STANDARD => standard_steps context
  | WorkflowChannel.MEGA =>
      [mkStep "program_manager"
         (about "Program coordination and strategic alignment for: " context)
         "program_management";
       mkStep "mind_engine_coordinator"
         (about "Complex problem decomposition for: " context) "mind_engine"]
      ++ standard_steps context
  | WorkflowChannel.RESEARCH =>
      [mkStep "developer"
         (about "Technical research and feasibility analysis for: " context)
         "research_development";
       mkStep "mind_engine_coordinator"
         (about "Research methodology and approach for: " context)
         "research_methodology"]
  end.

(** The steps of the testing, deployment and monitoring phases. *)
Definition phase_steps (context : WorkflowContext) : list step :=
  [mkStep "tester" (about "Comprehensive testing strategy for: " context)
     "quality_assurance";
   mkStep "infrastructure_engineer"
     (about "Infrastructure setup and deployment for: " context)
     "infrastructure_automation";
   mkStep "release_engineer"
     (about "Release engineering and CI/CD automation for: " context)
     "cicd_automation";
   mkStep "devops_specialist"
     (about "Monitoring and operational validation for: " context)
     "monitoring_operations"].

(** Every step of [_execute_workflow_with_phases], in order. *)
Definition workflow_steps (channel : WorkflowChannel.t)
    (context : WorkflowContext) : list step :=
  core_steps channel context ++ phase_steps context.

(** The first step of [process_requirement]. *)
Definition concierge_step (user_input : string) : step :=
  mkStep "requirement_concierge" (Plain user_input) "requirement_analysis".

(** The workflow context of a run of [process_requirement], once the
    classification is set. *)
Definition run_context (user_input : string) (context : dict)
    (wid start_time : string) : WorkflowContext :=
  mkContext wid user_input start_time
    (Some (_classify_requirement user_input
             (mkContext wid user_input start_time None context new_manager)))
    context new_manager.

(** The channel of a run. *)
Definition run_channel (user_input : string) : WorkflowChannel.t :=
  _select_workflow_channel (_classify_requirement user_input sample_context)
    sample_context.

(** Every step of a run of [process_requirement], in order. *)
Definition run_plan (user_input : string) (context : WorkflowContext)
    : list step :=
  concierge_step user_input :: workflow_steps (run_channel user_input) context.

(** The context and the API call of a step: the part of
    [_call_persona_with_validation] before the result is built. *)
Definition api_context (context : WorkflowContext) (phase : string) : dict :=
  [("workflow_id", VStr (workflow_id context));
   ("phase", VStr phase);
   ("classification", VDict (classification_brief (classification context)))].

Definition api_call (context : WorkflowContext) (s : step) : M dict :=
  if negb (existsb (String.eqb (step_persona s))
             ["interface_validator"; "queue_manager"])
  then validate_and_route_request (step_persona s) (step_message s)
         (api_context context (step_phase s))
  else call_persona (step_persona s) (step_message s)
         (api_context context (step_phase s)).

(** The step's API call, made in state [st], comes back with
    [success] true. *)
Definition step_succeeds (context : WorkflowContext) (s : step)
    (en : env) (st : state) : bool :=
  match returned (api_call context s en st) with
  | Some d => is_success d
  | None => false
  end.

(** The record built by the failure branch. *)
Definition failed_result (s : step) (error : string) (processing_time : float)
    : PersonaResult.t :=
  PersonaResult.mk (VStr "unknown") (step_persona s) false
    [("error", VStr error)] 0.0%float processing_time
    [("phase", VStr (step_phase s)); ("validated", VBool false)] false.

(** The dictionary returned by the [except] exit of
    [process_requirement]. *)
Definition error_report (user_input : string) (context : dict) (wid : string)
    (e : exn) (total_time : float) : dict :=
  [("workflow_id", VStr wid);
   ("input", VStr user_input);
   ("context", VDict context);
   ("error", VStr (exn_str e));
   ("total_time", VFloat total_time);
   ("success", VBool false);
   ("execution_method", execution_method)].

(** The dictionary returned at the end of the [try] block. *)
Definition success_report (user_input : string) (context : dict) (wid : string)
    (results : list PersonaResult.t) (metrics : dict) (total_time : float)
    : dict :=
  [("workflow_id", VStr wid);
   ("input", VStr user_input);
   ("context", VDict context);
   ("classification",
    VDict (classification_full
             (Some (_classify_requirement user_input sample_context))));
   ("selected_channel", VStr (WorkflowChannel.value (run_channel user_input)));
   ("results", VList (map _serialize_result results));
   ("metrics", VDict metrics);
   ("total_time", VFloat total_time);
   ("success", VBool true);
   ("execution_method", execution_method)].

(** [context] when it is given, [{}] when it is [None]. *)
Definition context_or_empty (context : option dict) : dict :=
  match context with Some c => c | None => [] end.

(** A healthy reply: status 200 and the object with the one field
    response = ok. *)
Definition ok_body : http_reply :=
  Response 200 (inr (VDict [("response", VStr "ok")])) (inr "ok").

(** A gateway that answers every request with status 200. *)
Definition online_env : env :=
  mkEnv (fun _ => ok_body)
        (fun _ => "2025-01-01T00:00:00")
        (fun _ => 0.5%float)
        "wf-0001".

(** A gateway whose first request fails and which answers every later
    request with status 200. *)
Definition flaky_env : env :=
  mkEnv (fun k => match k with
                  | O => Raised "Cannot connect to host localhost:8013"
                  | S _ => ok_body
                  end)
        (fun _ => "2025-01-01T00:00:00")
        (fun _ => 0.5%float)
        "wf-0001".

(** The four metrics, in the order they are requested. *)
Definition metric_names : list string :=
  ["functionality"; "performance"; "stability"; "scalability"].

(** The "response" that [call_persona] returns for a reply it accepts. *)
Definition reply_response (r : http_reply) : value :=
  match r with
  | Response _ (inr (VDict result)) _ =>
      dict_get_default "response" (VStr "") result
  | _ => VStr ""
  end.

(** The reply keeps to the interface: when it is accepted, its response
    is free text. *)
Definition text_reply (r : http_reply) : Prop :=
  ok_reply r = true -> exists text, reply_response r = VStr text.

(** The score the parser gives a string reply. *)
Definition score_of (text : string) : float :=
  match extract_score text with
  | inr x => py_min x 10.0%float
  | inl _ => 5.0%float
  end.

(** The dictionary the parser returns for a string reply read at time
    [calculated_at]. *)
Definition metric_record (text metric_type calculated_at : string) : dict :=
  [("score", VFloat (score_of text));
   ("assessment", VStr (Text.ellipsis 200 text));
   ("insights", VList (insights_of text));
   ("calculated_at", VStr calculated_at);
   ("metric_type", VStr metric_type)].

(** The metrics map after one block, for a reply that keeps to the
    interface. *)
Definition after_block (metric_type : string) (r : http_reply)
    (calculated_at : string) (metrics : dict) : dict :=
  if ok_reply r then
    match reply_response r with
    | VStr text =>
        dict_set metric_type
          (VDict (metric_record text metric_type calculated_at)) metrics
    | _ => metrics
    end
  else metrics.

(** A gateway that answers the four metric requests in four ways: a score
    in the text, a refused connection, a server error, and a rating above
    the scale. *)
Definition metrics_env : env :=
  mkEnv (fun k =>
           match k with
           | 0 => Response 200 (inr (VDict [("response", VStr "Overall score: 8.5")]))
                    (inr "ok")
           | 1 => Raised "Cannot connect to host localhost:8013"
           | 2 => Response 500 (inl "Attempt to decode JSON with unexpected mimetype")
                    (inr "Internal Server Error")
           | _ => Response 200 (inr (VDict [("response", VStr "Rating: 12")])) (inr "ok")
           end)
        (fun _ => "2025-01-01T00:00:00")
        (fun _ => 0.5%float)
        "wf-0001".

(** The keys of a dictionary after [k] is assigned to. *)
Definition add_key (k : string) (keys : list string) : list string :=
  if existsb (String.eqb k) keys then keys else keys ++ [k].

(** The distinct names of a list, each where it first occurs. *)
Definition first_occurrences (names : list string) : list string :=
  fold_left (fun keys k => add_key k keys) names [].

(** The entry that a call stores under its persona name. *)
Definition entry_of (c : output_call) : value :=
  VDict [("output", VStr (call_output c));
         ("timestamp", VStr (call_now1 c));
         ("metadata", VDict (metadata_or_empty (call_metadata c)))].

(** The output held by an entry of [persona_outputs]. *)
Definition entry_output (entry : value) : option value :=
  match entry with
  | VDict d => dict_get "output" d
  | _ => None
  end.

(** [context] mirrors [outputs]: entry by entry, in the same order, the key
    is the persona name followed by _output and the value is the output
    of the persona's entry. *)
Definition mirrors (outputs context : dict) : Prop :=
  Forall2 (fun o c => fst c = (fst o ++ "_output")%string
                      /\ entry_output (snd o) = Some (snd c))
          outputs context.

(** The entries are what [add_persona_output] stores, a text under
    "output", under names whose upper-case form stays within
    U+0000..U+00FF. *)
Definition well_kept (outputs : dict) : Prop :=
  Forall (fun e => heading (fst e) <> None /\ output_text (snd e) <> None) outputs.







(** A gateway that answers the first metric request with a score in the
    text and every later request with a status 200 whose response is
    null. *)
Definition null_metric_env : env :=
  mkEnv (fun k =>
           match k with
           | 0 => Response 200 (inr (VDict [("response", VStr "Overall score: 8.5")]))
                    (inr "ok")
           | _ => Response 200 (inr (VDict [("response", VNone)])) (inr "ok")
           end)
        (fun _ => "2025-01-01T00:00:00")
        (fun _ => 0.5%float)
        "wf-0001".

(** A gateway that answers every request with a status 200 and a JSON
    array. *)
Definition array_env : env :=
  mkEnv (fun _ => Response 200 (inr (VList [])) (inr "[]"))
        (fun _ => "2025-01-01T00:00:00")
        (fun _ => 0.5%float)
        "wf-0001".

(** A gateway that accepts every request but each third one, which it
    answers with a status 500: in a run of routed steps the validator and
    the router are accepted and the target persona is refused. *)
Definition refused_targets_env : env :=
  mkEnv (fun k =>
           if Nat.eqb (Nat.modulo k 3) 2
           then Response 500 (inl "Attempt to decode JSON with unexpected mimetype")
                  (inr "Internal Server Error")
           else ok_body)
        (fun _ => "2025-01-01T00:00:00")
        (fun _ => 0.5%float)
        "wf-0001".


(** The TypeError that [re.search] raises on an object that is not a
    string. *)
Definition not_text_error (v : value) : exn :=
  TypeError ("expected string or bytes-like object, got '" ++ type_name v ++ "'").

(** A persona result as the failure branch builds it. *)
Definition recorded_as_failed (r : PersonaResult.t) : Prop :=
  PersonaResult.success r = false
  /\ PersonaResult.validated r = false
  /\ PersonaResult.persona_id r = VStr "unknown"
  /\ exists e, PersonaResult.output_data r = [("error", VStr e)].

(** The four metric requests, in the order they are posted. *)
Definition metric_requests (workflow_results : list PersonaResult.t)
    (context : WorkflowContext) : list request :=
  map (fun k => metric_request k (results_summary workflow_results context) context)
      metric_names.

(* ================================================================== *)
(** * Properties                                                       *)
(* ================================================================== *)

(** ** Text *)

Lemma startswith_app (w b : string) : Text.startswith w (w ++ b)%string = true.
Proof.
  induction w as [|c w IH]; simpl; [reflexivity|].
  now rewrite Ascii.eqb_refl, IH.
Qed.

Lemma startswith_inv (w s : string) :
  Text.startswith w s = true -> exists b : string, s = (w ++ b)%string.
Proof.
  revert s; induction w as [|c w IH]; intros s H.
  - now exists s.
  - destruct s as [|x s]; simpl in H; [discriminate|].
    apply andb_true_iff in H as [Hc Hw].
    apply Ascii.eqb_eq in Hc; subst x.
    destruct (IH _ Hw) as [b ->].
    now exists b.
Qed.

Lemma contains_occurs (w s : string) :
  Text.contains w s = true <-> occurs w s.
Proof.
  split.
  - induction s as [|x s IH]; simpl; intros H.
    + rewrite orb_false_r in H.
      destruct (startswith_inv _ _ H) as [b Hb].
      now exists EmptyString, b.
    + apply orb_true_iff in H as [H|H].
      * destruct (startswith_inv _ _ H) as [b Hb].
        now exists EmptyString, b.
      * destruct (IH H) as (a & b & ->).
        now exists (String x a), b.
  - intros (a & b & ->).
    induction a as [|x a IH]; simpl.
    + assert (U : forall t, Text.startswith w t = true -> Text.contains w t = true)
        by (intros [|y t] Ht; simpl; rewrite Ht; reflexivity).
      apply U, startswith_app.
    + rewrite IH. apply orb_true_r.
Qed.

Lemma any_in_occurs (words : list string) (s : string) :
  Text.any_in words s = true <-> exists w, In w words /\ occurs w s.
Proof.
  unfold Text.any_in. rewrite existsb_exists.
  split; intros (w & Hin & H); exists w; split; trivial;
    now apply contains_occurs.
Qed.

Lemma mentions_reflect (text : string) (words : list string) :
  reflect (mentions text words) (Text.any_in words (Text.lower text)).
Proof.
  apply iff_reflect. symmetry. apply any_in_occurs.
Qed.

Lemma no_keyword (text : string) (words : list string) :
  Text.any_in words (Text.lower text) = false -> ~ mentions text words.
Proof.
  intros H M. destruct (mentions_reflect text words); [discriminate|auto].
Qed.

Lemma type_eqb_reflect (x y : RequirementType.t) :
  reflect (x = y) (RequirementType.eqb x y).
Proof.
  destruct x, y; simpl; constructor; congruence.
Qed.

(** Split a conjunction into its conjuncts, leaving implications alone. *)
Ltac conjuncts := repeat match goal with |- _ /\ _ => split end.

(** Case analysis on every keyword test of a goal. *)
Ltac split_keywords text :=
  repeat match goal with
  | |- context [Text.any_in ?ws (Text.lower text)] =>
      destruct (mentions_reflect text ws)
  end.

(** ** The channel selector *)

(** C1. For every classification, channel selection follows the decision
    table in priority order: a research type gives the research channel;
    otherwise complexity <= 3.0, risk <= 3.0 and type bug_fix give
    fast_track; otherwise complexity >= 7.0 or a type among migration and
    infrastructure give mega; otherwise the channel is standard. In
    particular complexity 9 with type migration gives "mega", and
    complexity 2, risk 2 with type bug_fix gives "fast_track". *)
Theorem channel_selection_follows_decision_table
    (c : RequirementClassification) (context : WorkflowContext) :
  let research := type c = RequirementType.RESEARCH in
  let fast :=
    fle (complexity_score c) 3.0 /\ fle (risk_score c) 3.0
    /\ type c = RequirementType.BUG_FIX in
  let mega :=
    fle 7.0 (complexity_score c) \/ type c = RequirementType.MIGRATION
    \/ type c = RequirementType.INFRASTRUCTURE in
  (research -> _select_workflow_channel c context = WorkflowChannel.RESEARCH)
  /\ (~ research -> fast ->
      _select_workflow_channel c context = WorkflowChannel.FAST_TRACK)
  /\ (~ research -> ~ fast -> mega ->
      _select_workflow_channel c context = WorkflowChannel.MEGA)
  /\ (~ research -> ~ fast -> ~ mega ->
      _select_workflow_channel c context = WorkflowChannel.STANDARD)
  /\ (complexity_score c = 9.0%float -> type c = RequirementType.MIGRATION ->
      WorkflowChannel.value (_select_workflow_channel c context) = "mega")
  /\ (complexity_score c = 2.0%float -> risk_score c = 2.0%float ->
      type c = RequirementType.BUG_FIX ->
      WorkflowChannel.value (_select_workflow_channel c context) = "fast_track").
Proof.
  unfold _select_workflow_channel, fle; simpl existsb.
  repeat split.
  - intros ->. reflexivity.
  - intros NR (Hc & Hr & Ht). rewrite Hc, Hr, Ht. reflexivity.
  - intros NR NF HM.
    destruct (type_eqb_reflect (type c) RequirementType.RESEARCH) as [E|_];
      [contradiction|].
    destruct (PrimFloat.leb (complexity_score c) 3.0) eqn:Hc;
    destruct (PrimFloat.leb (risk_score c) 3.0) eqn:Hr;
    destruct (type_eqb_reflect (type c) RequirementType.BUG_FIX) as [Ht|Ht];
      simpl; try (exfalso; apply NF; auto; fail);
      destruct HM as [-> | [-> | ->]]; simpl; try reflexivity;
      rewrite ?orb_true_r; reflexivity.
  - intros NR NF NM.
    destruct (type_eqb_reflect (type c) RequirementType.RESEARCH) as [E|_];
      [contradiction|].
    destruct (PrimFloat.leb 7.0 (complexity_score c)) eqn:H7;
      [exfalso; apply NM; auto|].
    destruct (type_eqb_reflect (type c) RequirementType.MIGRATION) as [E|_];
      [exfalso; apply NM; auto|].
    destruct (type_eqb_reflect (type c) RequirementType.INFRASTRUCTURE) as [E|_];
      [exfalso; apply NM; auto|].
    destruct (PrimFloat.leb (complexity_score c) 3.0) eqn:Hc;
    destruct (PrimFloat.leb (risk_score c) 3.0) eqn:Hr;
    destruct (type_eqb_reflect (type c) RequirementType.BUG_FIX) as [Ht|Ht];
      simpl; try reflexivity.
    exfalso; apply NF; auto.
  - intros -> ->. reflexivity.
  - intros -> -> ->. reflexivity.
Qed.

(** A migration of complexity 9.0 and risk 3.0 is neither research nor
    fast-track, so the third row of the table sends it to mega. *)
Lemma channel_selection_migration_example :
  let c := mkClassification RequirementType.MIGRATION RequirementPriority.HIGH
             9.0%float 3.0%float "auto-calculated" 0.8%float in
  fle 7.0 (complexity_score c)
  /\ _select_workflow_channel c sample_context = WorkflowChannel.MEGA.
Proof.
  split; [reflexivity|].
  apply (proj1 (proj2 (proj2
    (channel_selection_follows_decision_table
       (mkClassification RequirementType.MIGRATION RequirementPriority.HIGH
          9.0%float 3.0%float "auto-calculated" 0.8%float) sample_context)))).
  - discriminate.
  - intros (_ & _ & H). discriminate H.
  - left. reflexivity.
Defined.

(** A comparison with a NaN is false on both sides, so a classification
    whose complexity is not a number falls through to standard. *)
Example channel_of_nan_complexity :
  _select_workflow_channel
    (mkClassification RequirementType.FEATURE_REQUEST RequirementPriority.LOW
       nan 3.0%float "auto-calculated" 0.8%float) sample_context
  = WorkflowChannel.STANDARD.
Proof. reflexivity. Qed.

(** ** The classifier *)

Lemma lower_app (a b : string) :
  Text.lower (a ++ b) = (Text.lower a ++ Text.lower b)%string.
Proof.
  induction a as [|c a IH]; simpl; [reflexivity | now rewrite IH].
Qed.

Lemma string_app_assoc (a b c : string) :
  ((a ++ b) ++ c)%string = (a ++ b ++ c)%string.
Proof.
  induction a as [|x a IH]; simpl; [reflexivity | now rewrite IH].
Qed.

(** A keyword found in a text is found in every text that contains it. *)
Lemma mentions_embedded (text pre post : string) (words : list string) :
  mentions text words -> mentions (pre ++ text ++ post) words.
Proof.
  intros (w & Hin & a & b & E). exists w. split; [exact Hin|].
  exists (Text.lower pre ++ a)%string, (b ++ Text.lower post)%string.
  rewrite !lower_app, E, !string_app_assoc. reflexivity.
Qed.

(** C2. For every input string the classifier lower-cases the text and
    assigns the type of the first keyword category that matches, tested in
    the order bug-fix, compliance, migration, infrastructure, research;
    when no keyword list matches, the type is feature_request, the
    priority is medium and the scores are the constant defaults. The
    lower-casing is that of the letters: a text that holds FIX in
    capitals, wherever it stands, is a bug fix. The classifier is a total
    function: it returns on every input and has no error exit. *)
Theorem classifier_first_matching_category
    (user_input : string) (context : WorkflowContext) :
  let c := _classify_requirement user_input context in
  let bug := mentions user_input ["fix"; "bug"; "error"; "broken"] in
  let compliance := mentions user_input ["compliance"; "hipaa"; "gdpr"; "audit"] in
  let migration := mentions user_input ["migrate"; "migration"; "upgrade"] in
  let infrastructure :=
    mentions user_input ["infrastructure"; "deployment"; "server"] in
  let research := mentions user_input ["research"; "poc"; "investigate"] in
  let urgency :=
    mentions user_input ["critical"; "urgent"; "emergency"]
    \/ mentions user_input ["high"; "important"; "soon"]
    \/ mentions user_input ["low"; "nice"; "future"] in
  let size :=
    mentions user_input ["simple"; "quick"; "small"]
    \/ mentions user_input ["complex"; "large"; "enterprise"; "platform"]
    \/ mentions user_input ["microservices"; "migration"; "architecture"] in
  let domain := mentions user_input ["patient"; "financial"; "security"] in
  (bug -> type c = RequirementType.BUG_FIX)
  /\ (~ bug -> compliance -> type c = RequirementType.COMPLIANCE)
  /\ (~ bug -> ~ compliance -> migration -> type c = RequirementType.MIGRATION)
  /\ (~ bug -> ~ compliance -> ~ migration -> infrastructure ->
      type c = RequirementType.INFRASTRUCTURE)
  /\ (~ bug -> ~ compliance -> ~ migration -> ~ infrastructure -> research ->
      type c = RequirementType.RESEARCH)
  /\ (~ bug -> ~ compliance -> ~ migration -> ~ infrastructure -> ~ research ->
      type c = RequirementType.FEATURE_REQUEST)
  /\ (~ urgency -> priority c = RequirementPriority.MEDIUM)
  /\ (~ bug -> ~ compliance -> ~ migration -> ~ infrastructure -> ~ research ->
      ~ urgency -> ~ size -> ~ domain ->
      c = mkClassification RequirementType.FEATURE_REQUEST
            RequirementPriority.MEDIUM 3.0%float 3.0%float
            "auto-calculated" 0.8%float)
  /\ (forall before after : string,
        type (_classify_requirement (before ++ "FIX" ++ after) context)
        = RequirementType.BUG_FIX).
Proof.
  assert (Rows : forall text,
            mentions text ["fix"; "bug"; "error"; "broken"] ->
            type (_classify_requirement text context) = RequirementType.BUG_FIX).
  { intros text B.
    unfold _classify_requirement, classify_type, bug_fix_words.
    cbn [type]. split_keywords text; cbv beta iota;
      solve [reflexivity | contradiction]. }
  unfold _classify_requirement, classify_type, classify_priority,
    classify_complexity, classify_risk,
    bug_fix_words, compliance_words, migration_words, infrastructure_words,
    research_words, critical_words, high_words, low_words, simple_words,
    complex_words, architecture_words, domain_words.
  cbv zeta.
  cbn [type priority complexity_score risk_score].
  repeat split; intros;
    try (split_keywords user_input; cbv beta iota;
         solve [ reflexivity | contradiction | exfalso; tauto ]).
  apply (Rows (before ++ "FIX" ++ after)%string).
  apply mentions_embedded.
  exists "fix". split; [simpl; auto|]. now exists "", "".
Qed.

(** A text in capitals that holds a bug-fix word and a migration word:
    FIX is read as fix, and the first category wins. The requirement of
    the second demonstration scenario holds no keyword of any list, and
    gets the default classification. *)
Lemma classifier_first_match_example :
  mentions "FIX the login ERROR after the Migration"
    ["fix"; "bug"; "error"; "broken"]
  /\ mentions "FIX the login ERROR after the Migration"
       ["migrate"; "migration"; "upgrade"]
  /\ type (_classify_requirement "FIX the login ERROR after the Migration"
             sample_context)
     = RequirementType.BUG_FIX
  /\ _classify_requirement
       "Add user preference dashboard with notification settings" sample_context
     = mkClassification RequirementType.FEATURE_REQUEST RequirementPriority.MEDIUM
         3.0%float 3.0%float "auto-calculated" 0.8%float.
Proof.
  assert (B : mentions "FIX the login ERROR after the Migration"
                ["fix"; "bug"; "error"; "broken"]).
  { exists "fix". split; [simpl; auto|].
    now exists "", " the login error after the migration". }
  split; [exact B|]. split.
  { exists "migration". split; [simpl; auto|].
    now exists "fix the login error after the ", "". }
  split.
  - exact (proj1 (classifier_first_matching_category
                    "FIX the login ERROR after the Migration" sample_context) B).
  - apply (proj1 (proj2 (proj2 (proj2 (proj2 (proj2 (proj2 (proj2
      (classifier_first_matching_category
         "Add user preference dashboard with notification settings"
         sample_context)))))))));
      repeat (intros [H|H]; revert H); apply no_keyword; reflexivity.
Defined.

(** The text is lower-cased before the lists are tested, and the first
    matching category wins: an upper-case FIX is a bug-fix word, and a
    text with both a bug-fix word and a migration word is a bug fix. *)
Example classifier_ignores_case :
  type (_classify_requirement "FIX the login ERROR after the Migration"
          sample_context)
  = RequirementType.BUG_FIX.
Proof. reflexivity. Qed.

(** The four demonstration scenarios of the module's [main]. *)
Example demonstration_scenarios :
  let classify text := _classify_requirement text sample_context in
  let channel text := _select_workflow_channel (classify text) sample_context in
  classify "Fix mobile checkout button not responding to taps"
  = mkClassification RequirementType.BUG_FIX RequirementPriority.MEDIUM
      3.0%float 2.0%float "auto-calculated" 0.8%float
  /\ channel "Fix mobile checkout button not responding to taps"
     = WorkflowChannel.FAST_TRACK
  /\ channel "Add user preference dashboard with notification settings"
     = WorkflowChannel.STANDARD
  /\ classify "Migrate monolithic platform to microservices with event-driven architecture across 12 services"
     = mkClassification RequirementType.MIGRATION RequirementPriority.MEDIUM
         8.0%float 3.0%float "auto-calculated" 0.8%float
  /\ channel "Migrate monolithic platform to microservices with event-driven architecture across 12 services"
     = WorkflowChannel.MEGA
  /\ classify "Implement HIPAA-compliant patient data export with audit logging"
     = mkClassification RequirementType.COMPLIANCE RequirementPriority.MEDIUM
         3.0%float 8.0%float "auto-calculated" 0.8%float
  /\ channel "Implement HIPAA-compliant patient data export with audit logging"
     = WorkflowChannel.STANDARD.
Proof. cbv zeta. conjuncts; reflexivity. Qed.

(** C7. Classification is a deterministic function of the input text
    alone: two runs on the same text give the same tuple of type, priority,
    complexity score, risk score, estimated effort and confidence, whatever
    the workflow contexts they are run in. *)
Theorem classification_depends_on_text_only
    (user_input : string) (context1 context2 : WorkflowContext) :
  let c1 := _classify_requirement user_input context1 in
  let c2 := _classify_requirement user_input context2 in
  c1 = c2
  /\ (type c1, priority c1, complexity_score c1, risk_score c1,
      estimated_effort c1, confidence c1)
     = (type c2, priority c2, complexity_score c2, risk_score c2,
        estimated_effort c2, confidence c2).
Proof.
  split; reflexivity.
Qed.

(** C8. Complexity and risk are assigned by literal keyword thresholds,
    tested in this order: complexity is 2.0 when a word of
    simple/quick/small is present, else 8.0 for
    complex/large/enterprise/platform, else 9.0 for
    microservices/migration/architecture, else 3.0; risk is 8.0 for a
    compliance-typed requirement, else 7.0 when a word of
    patient/financial/security is present, else 2.0 for a bug-fix-typed
    requirement, else 3.0. Every score is one of these literals. *)
Theorem scores_are_literal_thresholds
    (user_input : string) (context : WorkflowContext) :
  let c := _classify_requirement user_input context in
  let simple := mentions user_input ["simple"; "quick"; "small"] in
  let complex :=
    mentions user_input ["complex"; "large"; "enterprise"; "platform"] in
  let architecture :=
    mentions user_input ["microservices"; "migration"; "architecture"] in
  let domain := mentions user_input ["patient"; "financial"; "security"] in
  (simple -> complexity_score c = 2.0%float)
  /\ (~ simple -> complex -> complexity_score c = 8.0%float)
  /\ (~ simple -> ~ complex -> architecture -> complexity_score c = 9.0%float)
  /\ (~ simple -> ~ complex -> ~ architecture -> complexity_score c = 3.0%float)
  /\ (type c = RequirementType.COMPLIANCE -> risk_score c = 8.0%float)
  /\ (type c <> RequirementType.COMPLIANCE -> domain -> risk_score c = 7.0%float)
  /\ (type c <> RequirementType.COMPLIANCE -> ~ domain ->
      type c = RequirementType.BUG_FIX -> risk_score c = 2.0%float)
  /\ (type c <> RequirementType.COMPLIANCE -> ~ domain ->
      type c <> RequirementType.BUG_FIX -> risk_score c = 3.0%float)
  /\ In (complexity_score c) [2.0%float; 8.0%float; 9.0%float; 3.0%float]
  /\ In (risk_score c) [8.0%float; 7.0%float; 2.0%float; 3.0%float].
Proof.
  unfold _classify_requirement, classify_complexity, classify_risk,
    simple_words, complex_words, architecture_words, domain_words.
  cbv zeta. cbn [type complexity_score risk_score].
  set (t := classify_type (Text.lower user_input)).
  repeat split; intros;
    try (destruct (type_eqb_reflect t RequirementType.COMPLIANCE));
    try (destruct (type_eqb_reflect t RequirementType.BUG_FIX));
    split_keywords user_input; cbv beta iota;
    solve [ reflexivity | contradiction | congruence | tauto
          | cbn [In]; tauto ].
Qed.

(** The requirement of the first demonstration scenario holds a bug-fix
    word and no size word: complexity 3.0. *)
Lemma scores_example :
  complexity_score
    (_classify_requirement "Fix mobile checkout button not responding to taps"
       sample_context) = 3.0%float.
Proof.
  apply (proj1 (proj2 (proj2 (proj2
    (scores_are_literal_thresholds
       "Fix mobile checkout button not responding to taps" sample_context)))));
    apply no_keyword; reflexivity.
Defined.

(** ** Dictionaries *)

Lemma dict_get_set_same (k : string) (v : value) (d : dict) :
  dict_get k (dict_set k v d) = Some v.
Proof.
  induction d as [|[k' v'] d IH]; simpl.
  - now rewrite String.eqb_refl.
  - destruct (String.eqb k k') eqn:E; simpl; rewrite E; auto.
Qed.

Lemma dict_get_set_other (k k' : string) (v : value) (d : dict) :
  k' <> k -> dict_get k' (dict_set k v d) = dict_get k' d.
Proof.
  intros N.
  induction d as [|[k0 v0] d IH]; simpl.
  - destruct (String.eqb_spec k' k); [contradiction|reflexivity].
  - destruct (String.eqb_spec k k0) as [->|N0]; simpl.
    + destruct (String.eqb_spec k' k0); [contradiction|reflexivity].
    + now rewrite IH.
Qed.

Lemma dict_keys_set (k : string) (v : value) (d : dict) :
  dict_keys (dict_set k v d) = add_key k (dict_keys d).
Proof.
  unfold add_key, dict_keys.
  induction d as [|[k0 v0] d IH]; simpl; [reflexivity|].
  destruct (String.eqb k k0) eqn:E; simpl; [reflexivity|].
  rewrite IH.
  destruct (existsb (String.eqb k) (map fst d)); reflexivity.
Qed.

Lemma existsb_eqb_In (k : string) (l : list string) :
  existsb (String.eqb k) l = true <-> In k l.
Proof.
  rewrite existsb_exists. split.
  - intros (x & Hx & E). apply String.eqb_eq in E. now subst.
  - intros H. exists k. split; [assumption|apply String.eqb_refl].
Qed.


(** ** The context accumulator *)

Lemma persona_outputs_apply_call (m : WorkflowContextManager) (c : output_call) :
  persona_outputs (apply_call m c)
  = dict_set (call_persona_name c) (entry_of c) (persona_outputs m).
Proof. reflexivity. Qed.

Lemma accumulated_keys (cs : list output_call) (m : WorkflowContextManager) :
  dict_keys (persona_outputs (apply_calls m cs))
  = fold_left (fun keys k => add_key k keys) (map call_persona_name cs)
      (dict_keys (persona_outputs m)).
Proof.
  unfold apply_calls.
  revert m; induction cs as [|c cs IH]; intros m; simpl; [reflexivity|].
  rewrite IH.
  now rewrite persona_outputs_apply_call, dict_keys_set.
Qed.

Lemma accumulated_entry_kept (later : list output_call)
    (m : WorkflowContextManager) (p : string) :
  ~ In p (map call_persona_name later) ->
  dict_get p (persona_outputs (apply_calls m later))
  = dict_get p (persona_outputs m).
Proof.
  unfold apply_calls.
  revert m; induction later as [|c later IH]; intros m NI; simpl; [reflexivity|].
  simpl in NI. rewrite IH by tauto.
  rewrite persona_outputs_apply_call.
  apply dict_get_set_other. intros ->. tauto.
Qed.





(** ** The pattern matcher *)

Lemma take_drop_while (p : ascii -> bool) (s : string) :
  s = (take_while p s ++ drop_while p s)%string.
Proof.
  induction s as [|c s IH]; simpl; [reflexivity|].
  destruct (p c); simpl; [now rewrite <- IH | reflexivity].
Qed.

Lemma drop_while_stops (p : ascii -> bool) (s : string) :
  drop_while p (drop_while p s) = drop_while p s.
Proof.
  induction s as [|c s IH]; simpl; [reflexivity|].
  destruct (p c) eqn:E; [assumption|]. simpl. now rewrite E.
Qed.

Lemma take_while_idem (p : ascii -> bool) (s : string) :
  take_while p (take_while p s) = take_while p s
  /\ drop_while p (take_while p s) = EmptyString.
Proof.
  induction s as [|c s [IH1 IH2]]; simpl; [auto|].
  destruct (p c) eqn:E; simpl; [rewrite E, IH1, IH2|]; auto.
Qed.

Lemma take_while_stop (p : ascii -> bool) (s b : string) (c : ascii) :
  p c = false ->
  take_while p (take_while p s ++ String c b) = take_while p s
  /\ drop_while p (take_while p s ++ String c b) = String c b.
Proof.
  intros F.
  induction s as [|x s [IH1 IH2]]; simpl.
  - now rewrite F.
  - destruct (p x) eqn:E; simpl; [rewrite E, IH1, IH2 | rewrite F]; auto.
Qed.

Lemma take_app_length (a b : string) :
  Text.take (String.length (a ++ b) - String.length b) (a ++ b)%string = a.
Proof.
  assert (L : forall a b : string,
             String.length (a ++ b) - String.length b = String.length a).
  { clear. intros a b.
    assert (E : String.length (a ++ b) = String.length a + String.length b)
      by (induction a as [|c a IH]; simpl; [reflexivity | now rewrite IH]).
    rewrite E. lia. }
  rewrite L. clear L.
  induction a as [|c a IH]; simpl; [reflexivity|]. now rewrite IH.
Qed.

Lemma star_first {R : Type} (p : ascii -> bool) (s : string)
    (k : string -> option R) (r : R) :
  k (drop_while p s) = Some r -> Re.star p s k = Some r.
Proof.
  induction s as [|c s IH]; simpl; intros H; [assumption|].
  destruct (p c); [now rewrite IH | assumption].
Qed.

Lemma star_strict {R : Type} (p : ascii -> bool) (s : string)
    (k : string -> option R) :
  (forall c t, p c = true -> k (String c t) = None) ->
  Re.star p s k = k (drop_while p s).
Proof.
  intros H.
  induction s as [|c s IH]; simpl; [reflexivity|].
  destruct (p c) eqn:E; [|reflexivity].
  rewrite IH, (H c s E). now destruct (k (drop_while p s)).
Qed.

Lemma exec_word {R : Type} (w s : string) (cap : option string)
    (k : string -> option string -> option R) :
  Re.exec true (Re.word w) s cap k
  = match strip_word w s with Some r => k r cap | None => None end.
Proof.
  revert s; induction w as [|c w IH]; intros s.
  - simpl. now destruct s.
  - destruct w as [|c' w].
    + destruct s as [|x s]; simpl; [reflexivity|].
      now destruct (Ascii.eqb (Text.lower_char x) (Text.lower_char c)).
    + change (Re.word (String c (String c' w)))
        with (Re.Cat (Re.Lit c) (Re.word (String c' w))).
      destruct s as [|x s]; [reflexivity|].
      cbn [Re.exec strip_word].
      destruct (Ascii.eqb (Text.lower_char x) (Text.lower_char c));
        [apply IH | reflexivity].
Qed.

Lemma colon_or_space_not_digit (c : ascii) :
  Re.is_colon_or_space c = true -> Re.is_digit c = false.
Proof.
  destruct c as [[] [] [] [] [] [] [] []]; vm_compute; congruence.
Qed.

Lemma lower_char_point (c : ascii) :
  Ascii.eqb (Text.lower_char c) (Text.lower_char ".") = Ascii.eqb c ".".
Proof.
  destruct c as [[] [] [] [] [] [] [] []]; reflexivity.
Qed.

(** The number group of the pattern, matched at [s] with nothing to
    follow it, captures [number_prefix s]. *)
Lemma exec_number_group (s : string) (cap : option string) :
  Re.exec true
    (Re.Group (Re.Cat (Re.Plus Re.is_digit)
                 (Re.Cat (Re.Opt (Re.Lit ".")) (Re.Star Re.is_digit))))
    s cap (fun _ c => Some c)
  = match number_prefix s with Some g => Some (Some g) | None => None end.
Proof.
  unfold number_prefix. cbn [Re.exec].
  destruct s as [|x s]; [reflexivity|].
  cbn [take_while drop_while].
  destruct (Re.is_digit x) eqn:Dx; [|reflexivity].
  set (whole := String x s).
  assert (W : whole
              = (String x (take_while Re.is_digit s) ++ drop_while Re.is_digit s)%string).
  { unfold whole. simpl. now rewrite <- take_drop_while. }
  destruct (drop_while Re.is_digit s) as [|c r] eqn:Dr.
  - (* the digits run to the end of the text *)
    apply star_first. rewrite Dr.
    cbn [Re.exec Re.star]. f_equal. f_equal.
    rewrite W. apply take_app_length.
  - assert (Dc : Re.is_digit c = false).
    { pose proof (drop_while_stops Re.is_digit s) as St.
      rewrite Dr in St. simpl in St.
      destruct (Re.is_digit c); [|reflexivity].
      exfalso. clear -St.
      assert (L : String.length (drop_while Re.is_digit r) <= String.length r).
      { clear. induction r as [|y r IH]; simpl; [lia|].
        destruct (Re.is_digit y); simpl; lia. }
      rewrite St in L. simpl in L. lia. }
    destruct (Ascii.eqb c ".") eqn:Pt.
    + (* a point follows: it is taken, with the digits after it *)
      apply Ascii.eqb_eq in Pt; subst c.
      apply star_first. rewrite Dr.
      cbn [Re.exec]. rewrite lower_char_point, Ascii.eqb_refl.
      rewrite (star_first Re.is_digit r _
                 (Some (Text.take (String.length whole
                                   - String.length (drop_while Re.is_digit r)) whole)))
        by reflexivity.
      f_equal. f_equal.
      pose proof (take_drop_while Re.is_digit r) as Er.
      set (tr := take_while Re.is_digit r) in *.
      set (dr := drop_while Re.is_digit r) in *.
      clearbody tr dr. rewrite W, Er.
      replace (String x (take_while Re.is_digit s) ++ String "." (tr ++ dr))%string
        with ((String x (take_while Re.is_digit s) ++ String "." tr) ++ dr)%string.
      * apply take_app_length.
      * clear. simpl. f_equal.
        induction (take_while Re.is_digit s) as [|y t IH]; simpl;
          [reflexivity | now rewrite IH].
    + (* no point: the group is the digits *)
      apply star_first. rewrite Dr.
      cbn [Re.exec]. rewrite lower_char_point, Pt.
      cbn [Re.star]. rewrite Dc.
      f_equal. f_equal. rewrite W. apply take_app_length.
Qed.

Lemma number_prefix_needs_digit (c : ascii) (t : string) :
  Re.is_digit c = false -> number_prefix (String c t) = None.
Proof.
  intros H. unfold number_prefix. simpl. now rewrite H.
Qed.

(** After the keyword: the pattern's tail captures [after_keyword s]. The
    run of colons and blanks is never given back, since what follows it
    must be a digit. *)
Lemma exec_after_keyword (s : string) (cap : option string) :
  Re.exec true
    (Re.Cat (Re.Plus Re.is_colon_or_space)
       (Re.Group (Re.Cat (Re.Plus Re.is_digit)
                    (Re.Cat (Re.Opt (Re.Lit ".")) (Re.Star Re.is_digit)))))
    s cap (fun _ c => Some c)
  = match after_keyword s with Some g => Some (Some g) | None => None end.
Proof.
  unfold after_keyword.
  pose proof exec_number_group as G.
  set (number := Re.Group _) in *. clearbody number.
  destruct s as [|x s]; [reflexivity|].
  cbn [Re.exec take_while drop_while].
  destruct (Re.is_colon_or_space x) eqn:Sx; [|reflexivity].
  rewrite star_strict.
  - apply G.
  - intros c t Hc. rewrite G.
    now rewrite number_prefix_needs_digit
      by now apply colon_or_space_not_digit.
Qed.

Lemma strip_score_not_rating (s r : string) :
  strip_word "score" s = Some r -> strip_word "rating" s = None.
Proof.
  destruct s as [|x s]; [discriminate|].
  cbn [strip_word].
  destruct x as [[] [] [] [] [] [] [] []]; vm_compute; congruence.
Qed.

Lemma match_here_number_at (s : string) :
  Re.match_here true score_pattern s
  = match number_at s with Some g => Some (Some g) | None => None end.
Proof.
  unfold Re.match_here, score_pattern, number_at.
  pose proof exec_after_keyword as T.
  set (tail := Re.Cat (Re.Plus _) _) in *. clearbody tail.
  set (score := Re.word "score"). set (rating := Re.word "rating").
  cbn [Re.exec]. unfold score, rating. rewrite !exec_word.
  destruct (strip_word "score" s) as [r|] eqn:Sc.
  - rewrite (strip_score_not_rating _ _ Sc), T.
    now destruct (after_keyword r).
  - destruct (strip_word "rating" s) as [r|]; [|reflexivity].
    apply T.
Qed.

(** [re.search] with the parser's pattern finds the number of the leftmost
    match, read by maximal munch. *)
Lemma search_first_number (s : string) :
  Re.search true score_pattern s
  = match first_number s with Some g => Some (Some g) | None => None end.
Proof.
  induction s as [|c s IH]; cbn [Re.search first_number];
    rewrite match_here_number_at.
  - now destruct (number_at "").
  - destruct (number_at (String c s)); [reflexivity|exact IH].
Qed.

(** ** Numerals *)

Lemma read_digits_spec (s : string) (acc : Z) (n : nat) :
  read_digits s acc n
  = (digits_value s acc,
     n + String.length (take_while Re.is_digit s),
     drop_while Re.is_digit s).
Proof.
  revert acc n; induction s as [|c s IH]; intros acc n; simpl.
  - now rewrite Nat.add_0_r.
  - destruct (Re.is_digit c); simpl.
    + rewrite IH. now rewrite Nat.add_succ_r.
    + now rewrite Nat.add_0_r.
Qed.

(** Every number the scanner reads is a numeral that [float] accepts. *)
Lemma number_prefix_is_numeral (s g : string) :
  number_prefix s = Some g -> exists m n, decimal_of g = Some (m, n).
Proof.
  unfold number_prefix, decimal_of.
  destruct (take_while Re.is_digit s) as [|d ds] eqn:T; [discriminate|].
  destruct (take_while_idem Re.is_digit s) as [I1 I2].
  rewrite T in I1, I2.
  destruct (drop_while Re.is_digit s) as [|c r] eqn:Dr.
  - intros [= <-]. rewrite read_digits_spec, I1, I2. simpl. eauto.
  - destruct (Ascii.eqb c ".") eqn:Pt.
    + apply Ascii.eqb_eq in Pt; subst c. intros [= <-].
      rewrite read_digits_spec.
      destruct (take_while_stop Re.is_digit s (take_while Re.is_digit r) "."
                  eq_refl) as [S1 S2].
      rewrite T in S1, S2. cbn [append] in S1, S2.
      rewrite S1, S2. cbn [String.length Nat.add].
      rewrite Ascii.eqb_refl, read_digits_spec.
      destruct (take_while_idem Re.is_digit r) as [_ J2]. rewrite J2. eauto.
    + intros [= <-]. rewrite read_digits_spec, I1, I2. simpl. eauto.
Qed.

Lemma first_number_is_numeral (s g : string) :
  first_number s = Some g -> exists m n, decimal_of g = Some (m, n).
Proof.
  assert (A : forall t, number_at t = Some g ->
                        exists m n, decimal_of g = Some (m, n)).
  { intros t. unfold number_at, after_keyword.
    destruct (strip_word "score" t) as [r|].
    - destruct (take_while Re.is_colon_or_space r); [discriminate|].
      apply number_prefix_is_numeral.
    - destruct (strip_word "rating" t) as [r|]; [|discriminate].
      destruct (take_while Re.is_colon_or_space r); [discriminate|].
      apply number_prefix_is_numeral. }
  induction s as [|c s IH]; cbn [first_number].
  - destruct (number_at "") eqn:E; [|discriminate].
    intros [= <-]. eapply A; eassumption.
  - destruct (number_at (String c s)) eqn:E; [|exact IH].
    intros [= <-]. eapply A; eassumption.
Qed.

(** The first two statements of the parser, on every string: the float of
    the leftmost number, or 5.0; no exception is possible. *)
Lemma extract_score_first_number (response : string) :
  (first_number response = None /\ extract_score response = inr 5.0%float)
  \/ (exists g m n,
        first_number response = Some g
        /\ decimal_of g = Some (m, n)
        /\ extract_score response = inr (nearest_float m n)).
Proof.
  unfold extract_score. rewrite search_first_number.
  destruct (first_number response) as [g|] eqn:F; [right|left; auto].
  destruct (first_number_is_numeral _ _ F) as (m & n & D).
  exists g, m, n. unfold py_float. rewrite D. auto.
Qed.

(** ** The metric parser *)

Lemma py_min_capped (x : float) :
  PrimFloat.ltb 10.0 (py_min x 10.0) = false.
Proof.
  unfold py_min. destruct (PrimFloat.ltb 10.0 x) eqn:E; [reflexivity|exact E].
Qed.

(** C5, as the code has it. For every string reply the parser takes the
    leftmost match of the word score or rating (in any case), followed by
    colons or white space and a number (digits, then optionally a point
    and digits); the metric's score is the float of that number capped at
    10.0, and it is the literal default 5.0 when there is no such match.
    The parser returns on every string; the score never exceeds 10.0. *)
Theorem metric_score_of_first_number
    (text metric_type : string) (en : env) (st : state) :
  exists (score : float) (d : dict),
    _parse_metric_response (VStr text) metric_type en st = (inr d, ticked st)
    /\ dict_get "score" d = Some (VFloat score)
    /\ (first_number text = None -> score = 5.0%float)
    /\ (forall g, first_number text = Some g ->
          exists m n, decimal_of g = Some (m, n)
                      /\ score = py_min (nearest_float m n) 10.0)
    /\ PrimFloat.ltb 10.0 score = false.
Proof.
  unfold _parse_metric_response, bind, lift.
  destruct (extract_score_first_number text)
    as [[F E] | (g & m & n & F & D & E)]; rewrite E.
  - exists (py_min 5.0 10.0). eexists. conjuncts; try reflexivity.
    + rewrite F. discriminate.
  - exists (py_min (nearest_float m n) 10.0). eexists.
    conjuncts; try reflexivity.
    + rewrite F. discriminate.
    + intros g' G. rewrite F in G. injection G as <-. eauto.
    + apply py_min_capped.
Qed.

(** A reply that rates 8.5 out of 10. *)
Lemma metric_score_example :
  first_number "Overall Score: 8.5/10" = Some "8.5"
  /\ parsed_score "Overall Score: 8.5/10" = Some (VFloat 8.5).
Proof.
  split; [reflexivity|].
  destruct (metric_score_of_first_number "Overall Score: 8.5/10"
              "functionality" offline_env initial_state)
    as (score & d & R & S & _ & N & _).
  unfold parsed_score, returned. rewrite R. cbn [fst]. rewrite S.
  destruct (N "8.5" eq_refl) as (m & n & D & ->).
  injection D as <- <-. reflexivity.
Defined.

(** C5, as the specification words it, fails on two counts. The score is
    capped: in "score: 85" the first number matching the pattern is 85,
    and the parser's score is 10.0. The pattern also accepts the word
    rating: "rating: 7" holds no match of score followed by a number, and
    the parser's score is 7.0, not the default 5.0. *)
Lemma metric_score_capped_and_rating :
  spec_extract_score "score: 85" = inr 85.0%float
  /\ parsed_score "score: 85" = Some (VFloat 10.0)
  /\ VFloat 10.0 <> VFloat 85.0
  /\ Re.search false spec_score_pattern "rating: 7" = None
  /\ spec_extract_score "rating: 7" = inr 5.0%float
  /\ parsed_score "rating: 7" = Some (VFloat 7.0)
  /\ VFloat 7.0 <> VFloat 5.0.
Proof.
  conjuncts; try reflexivity.
  - intros H.
    apply (f_equal (fun v => match v with
                             | VFloat x => PrimFloat.ltb x 50.0
                             | _ => false
                             end)) in H.
    vm_compute in H. discriminate H.
  - intros H.
    apply (f_equal (fun v => match v with
                             | VFloat x => PrimFloat.ltb x 6.0
                             | _ => false
                             end)) in H.
    vm_compute in H. discriminate H.
Qed.

(** ** The persona client *)

Lemma call_persona_run (persona_name : string) (user_message : prompt)
    (context : dict) (en : env) (st : state) :
  call_persona persona_name user_message context en st
  = (inr (result_of_reply persona_name (reply en (List.length (sent st)))),
     posted [mkRequest persona_name user_message context] st).
Proof. reflexivity. Qed.

(** The dictionaries [call_persona] can return. *)
Lemma result_of_reply_cases (persona_name : string) (r : http_reply) :
  (ok_reply r = true
   /\ exists result, result_of_reply persona_name r = success_result result persona_name)
  \/ (ok_reply r = false
      /\ exists e, result_of_reply persona_name r = failure_result e persona_name).
Proof.
  destruct r as [status [e|v] [t|t] | e]; simpl.
  - destruct (status =? 200)%N; right; eauto.
  - destruct (status =? 200)%N; right; eauto.
  - destruct v; destruct (status =? 200)%N; simpl; eauto.
  - destruct v; destruct (status =? 200)%N; simpl; eauto.
  - right; eauto.
Qed.

Lemma is_success_result_of_reply (persona_name : string) (r : http_reply) :
  is_success (result_of_reply persona_name r) = ok_reply r.
Proof.
  destruct (result_of_reply_cases persona_name r) as [[-> [d ->]] | [-> [e ->]]];
    reflexivity.
Qed.

Lemma posted_posted (a b : list request) (st : state) :
  posted b (posted a st) = posted (a ++ b) st.
Proof.
  unfold posted; simpl. now rewrite <- app_assoc.
Qed.

Lemma sent_posted_length (rs : list request) (st : state) :
  List.length (sent (posted rs st)) = List.length (sent st) + List.length rs.
Proof. unfold posted; simpl. apply length_app. Qed.

(** What [validate_and_route_request] does, by the validator's reply. *)
Lemma validate_and_route_run (persona_name : string) (user_message : prompt)
    (context : dict) (en : env) (st : state) :
  let n := List.length (sent st) in
  let validation := result_of_reply "interface_validator" (reply en n) in
  validate_and_route_request persona_name user_message context en st
  = if ok_reply (reply en n)
    then (inr (result_of_reply persona_name (reply en (n + 2))),
          posted [validation_request persona_name user_message context;
                  routing_request persona_name user_message context validation;
                  target_request persona_name user_message context] st)
    else (inr validation,
          posted [validation_request persona_name user_message context] st).
Proof.
  cbv zeta. unfold validate_and_route_request.
  unfold bind at 1. rewrite call_persona_run.
  destruct (result_of_reply_cases "interface_validator"
              (reply en (List.length (sent st))))
    as [[-> [d E]] | [-> [e E]]]; rewrite E.
  - unfold bind, lift, ret. cbn [dict_item dict_get success_result String.eqb
      Ascii.eqb Bool.eqb truthy negb].
    rewrite !call_persona_run, !posted_posted, !sent_posted_length.
    cbn [List.length app].
    replace (List.length (sent st) + 1 + 1) with (List.length (sent st) + 2)
      by lia.
    reflexivity.
  - reflexivity.
Qed.




(** ** Workflow steps *)

(** The API call of a step does not raise; it returns one of the two
    dictionaries of [call_persona] and reads no clock. *)
Lemma api_call_cases (context : WorkflowContext) (s : step) (en : env) (st : state) :
  exists d rs,
    api_call context s en st = (inr d, posted rs st)
    /\ ((is_success d = true /\ exists result p, d = success_result result p)
        \/ (is_success d = false /\ exists e p, d = failure_result e p)).
Proof.
  unfold api_call.
  destruct (negb (existsb (String.eqb (step_persona s))
                    ["interface_validator"; "queue_manager"])).
  - rewrite validate_and_route_run.
    destruct (ok_reply (reply en (List.length (sent st)))) eqn:V.
    + eexists _, _. split; [reflexivity|].
      rewrite is_success_result_of_reply.
      destruct (result_of_reply_cases (step_persona s)
                  (reply en (List.length (sent st) + 2)))
        as [[-> [d ->]] | [-> [e ->]]]; eauto 6.
    + eexists _, _. split; [reflexivity|].
      rewrite is_success_result_of_reply, V.
      destruct (result_of_reply_cases "interface_validator"
                  (reply en (List.length (sent st))))
        as [[E _] | [_ [e ->]]]; [congruence | eauto 6].
  - rewrite call_persona_run.
    eexists _, _. split; [reflexivity|].
    rewrite is_success_result_of_reply.
    destruct (result_of_reply_cases (step_persona s)
                (reply en (List.length (sent st))))
      as [[-> [d ->]] | [-> [e ->]]]; eauto 6.
Qed.

(** A step whose API call succeeds raises KeyError('persona_id'); a step
    whose call fails returns a result marked failed. *)
Lemma run_step_cases (context : WorkflowContext) (s : step) (en : env) (st : state) :
  exists d rs,
    api_call context s en st = (inr d, posted rs st)
    /\ ((is_success d = true
         /\ run_step context s en st
            = (inl (KeyError "persona_id"), ticked (posted rs st)))
        \/ (is_success d = false
            /\ exists e,
                 run_step context s en st
                 = (inr (failed_result s e (seconds en (ticks st))),
                    ticked (posted rs st)))).
Proof.
  destruct (api_call_cases context s en st)
    as (d & rs & A & [[S (result & p & ->)] | [S (e & p & ->)]]);
    eexists; exists rs; (split; [exact A|]).
  - left. split; [exact S|].
    unfold run_step, _call_persona_with_validation.
    fold (api_context context (step_phase s)).
    change (if negb (existsb (String.eqb (step_persona s))
                       ["interface_validator"; "queue_manager"])
            then validate_and_route_request (step_persona s) (step_message s)
                   (api_context context (step_phase s))
            else call_persona (step_persona s) (step_message s)
                   (api_context context (step_phase s)))
      with (api_call context s).
    unfold bind at 1. rewrite A. reflexivity.
  - right. split; [exact S|]. exists e.
    unfold run_step, _call_persona_with_validation.
    fold (api_context context (step_phase s)).
    change (if negb (existsb (String.eqb (step_persona s))
                       ["interface_validator"; "queue_manager"])
            then validate_and_route_request (step_persona s) (step_message s)
                   (api_context context (step_phase s))
            else call_persona (step_persona s) (step_message s)
                   (api_context context (step_phase s)))
      with (api_call context s).
    unfold bind at 1. rewrite A. reflexivity.
Qed.

Lemma step_succeeds_raises (context : WorkflowContext) (s : step)
    (en : env) (st : state) :
  step_succeeds context s en st = true ->
  exists st', run_step context s en st = (inl (KeyError "persona_id"), st').
Proof.
  unfold step_succeeds, returned.
  destruct (run_step_cases context s en st)
    as (d & rs & A & [[S R] | [S (e & R)]]); rewrite A; cbn [fst]; intros H.
  - eauto.
  - congruence.
Qed.

Lemma step_fails_recorded (context : WorkflowContext) (s : step)
    (en : env) (st : state) :
  step_succeeds context s en st = false ->
  exists e st',
    run_step context s en st
    = (inr (failed_result s e (seconds en (ticks st))), st').
Proof.
  unfold step_succeeds, returned.
  destruct (run_step_cases context s en st)
    as (d & rs & A & [[S R] | [S (e & R)]]); rewrite A; cbn [fst]; intros H.
  - congruence.
  - eauto.
Qed.

Lemma run_steps_cons (context : WorkflowContext) (s : step) (rest : list step)
    (acc : list PersonaResult.t) (en : env) (st : state) :
  run_steps context (s :: rest) acc en st
  = match run_step context s en st with
    | (inl e, st1) => (inl e, st1)
    | (inr r, st1) => run_steps context rest (acc ++ [r]) en st1
    end.
Proof. reflexivity. Qed.

(** Running [a] then [b] is running [a], then [b] from where [a] ends. *)
Lemma run_steps_app (context : WorkflowContext) (a b : list step)
    (acc : list PersonaResult.t) (en : env) (st : state) :
  run_steps context (a ++ b) acc en st
  = match run_steps context a [] en st with
    | (inl e, st1) => (inl e, st1)
    | (inr rs, st1) => run_steps context b (acc ++ rs) en st1
    end.
Proof.
  revert b acc st; induction a as [|s a IH]; intros b acc st.
  - simpl. now rewrite app_nil_r.
  - cbn [app run_steps]. unfold bind.
    destruct (run_step context s en st) as [[e|r] st1]; [reflexivity|].
    rewrite IH.
    rewrite <- (app_nil_r a) at 2. rewrite (IH [] ([] ++ [r])).
    destruct (run_steps context a [] en st1) as [[e|rs] st2]; [reflexivity|].
    cbn [run_steps]. unfold ret. now rewrite <- app_assoc.
Qed.

Lemma run_steps_from (context : WorkflowContext) (a : list step)
    (acc : list PersonaResult.t) (en : env) (st : state) :
  run_steps context a acc en st
  = match run_steps context a [] en st with
    | (inl e, st1) => (inl e, st1)
    | (inr rs, st1) => (inr (acc ++ rs), st1)
    end.
Proof.
  rewrite <- (app_nil_r a) at 1. rewrite run_steps_app.
  now destruct (run_steps context a [] en st) as [[e|rs] st1].
Qed.

Lemma core_workflow_steps (channel : WorkflowChannel.t)
    (context : WorkflowContext) (en : env) (st : state) :
  match channel with
  | WorkflowChannel.FAST_TRACK => _execute_fast_track_workflow context
  | WorkflowChannel.STANDARD => _execute_standard_workflow context
  | WorkflowChannel.MEGA => _execute_mega_workflow context
  | WorkflowChannel.RESEARCH => _execute_research_workflow context
  end en st
  = run_steps context (core_steps channel context) [] en st.
Proof.
  destruct channel; try reflexivity.
  cbn [core_steps]. rewrite run_steps_app.
  unfold _execute_mega_workflow.
  change (_execute_standard_workflow context)
    with (run_steps context (standard_steps context) []).
  cbn [run_steps]. unfold bind, ret, run_step, about.
  cbn [step_persona step_message step_phase].
  destruct (_call_persona_with_validation "program_manager" _ _ _ en st)
    as [[e|r1] st1]; [reflexivity|].
  destruct (_call_persona_with_validation "mind_engine_coordinator" _ _ _ en st1)
    as [[e|r2] st2]; [reflexivity|].
  rewrite (run_steps_from context (standard_steps context) ([] ++ ([] ++ [r1]) ++ [r2])).
  destruct (run_steps context (standard_steps context) [] en st2)
    as [[e|rs] st3]; reflexivity.
Qed.

(** [_execute_workflow_with_phases] runs the steps of [workflow_steps], in
    order, and stops at the first one that raises. *)
Lemma execute_workflow_steps (channel : WorkflowChannel.t)
    (context : WorkflowContext) (en : env) (st : state) :
  _execute_workflow_with_phases channel context en st
  = run_steps context (workflow_steps channel context) [] en st.
Proof.
  unfold _execute_workflow_with_phases, workflow_steps.
  rewrite run_steps_app. unfold bind at 1.
  rewrite core_workflow_steps.
  destruct (run_steps context (core_steps channel context) [] en st)
    as [[e|core] st1]; [reflexivity|].
  unfold _execute_testing_phase, _execute_deployment_phase,
    _execute_monitoring_phase, phase_steps.
  cbn [run_steps]. unfold bind, ret, run_step, about.
  cbn [step_persona step_message step_phase].
  destruct (_call_persona_with_validation "tester" _ _ _ en st1)
    as [[e|r1] st2] eqn:E1; [reflexivity|].
  destruct (_call_persona_with_validation "infrastructure_engineer" _ _ _ en st2)
    as [[e|r2] st3] eqn:E2; [reflexivity|].
  destruct (_call_persona_with_validation "release_engineer" _ _ _ en st3)
    as [[e|r3] st4] eqn:E3; [reflexivity|].
  destruct (_call_persona_with_validation "devops_specialist" _ _ _ en st4)
    as [[e|r4] st5] eqn:E4; [reflexivity|].
  cbn [app]. now rewrite <- !app_assoc.
Qed.

(** ** process_requirement *)

(** The [try] block runs the steps of the plan and then the metrics. *)
Lemma process_requirement_body_steps (user_input : string) (context : dict)
    (wid start_time : string) (en : env) (st : state) :
  let wc := run_context user_input context wid start_time in
  process_requirement_body user_input context wid start_time en st
  = match run_steps wc (run_plan user_input wc) [] en st with
    | (inl e, st1) => (inl e, st1)
    | (inr results, st1) =>
        match calculate_all_metrics results wc en st1 with
        | (inl e, st2) => (inl e, st2)
        | (inr metrics, st2) =>
            (inr (success_report user_input context wid results metrics
                    (seconds en (ticks st2))),
             mkState (sent st2) (S (ticks st2))
               (execution_history st2
                ++ [success_report user_input context wid results metrics
                      (seconds en (ticks st2))]))
        end
    end.
Proof.
  cbv zeta. unfold process_requirement_body, run_plan.
  fold (run_context user_input context wid start_time).
  set (wc := run_context user_input context wid start_time).
  change (_select_workflow_channel _ wc) with (run_channel user_input).
  rewrite run_steps_cons. unfold bind at 1.
  change (run_step wc (concierge_step user_input))
    with (_call_persona_with_validation "requirement_concierge"
            (Plain user_input) wc "requirement_analysis").
  destruct (_call_persona_with_validation "requirement_concierge" _ wc _ en st)
    as [[e|c] st1]; [reflexivity|].
  unfold bind at 1. rewrite execute_workflow_steps.
  rewrite (run_steps_from wc _ ([] ++ [c])).
  destruct (run_steps wc (workflow_steps (run_channel user_input) wc) [] en st1)
    as [[e|ws] st2]; [reflexivity|].
  unfold bind at 1.
  destruct (calculate_all_metrics _ wc en st2) as [[e|metrics] st3];
    reflexivity.
Qed.

(** When a step of the plan raises, [process_requirement] returns the
    error report, with success false. *)
Lemma process_requirement_on_exception (user_input : string)
    (context : option dict) (en : env) (st : state) (e : exn) (st1 : state) :
  let wc := run_context user_input (context_or_empty context) (uuid en)
              (isotime en (ticks st)) in
  run_steps wc (run_plan user_input wc) [] en (ticked st) = (inl e, st1) ->
  process_requirement user_input context en st
  = (inr (error_report user_input (context_or_empty context) (uuid en) e
            (seconds en (ticks st1))),
     ticked st1).
Proof.
  cbv zeta. intros R.
  unfold process_requirement, bind at 1, now_isoformat, try_except.
  fold (context_or_empty context). fold (ticked st).
  rewrite process_requirement_body_steps. cbv zeta. rewrite R.
  reflexivity.
Qed.

Lemma step_succeeds_needs_ok_reply (context : WorkflowContext) (s : step)
    (en : env) (st : state) :
  step_succeeds context s en st = true ->
  exists k, ok_reply (reply en k) = true.
Proof.
  unfold step_succeeds, returned, api_call.
  destruct (negb (existsb (String.eqb (step_persona s))
                    ["interface_validator"; "queue_manager"])).
  - rewrite validate_and_route_run.
    destruct (ok_reply (reply en (List.length (sent st)))) eqn:V; eauto.
    cbn [fst]. rewrite is_success_result_of_reply. congruence.
  - rewrite call_persona_run. cbn [fst].
    rewrite is_success_result_of_reply. eauto.
Qed.

(** When a workflow step goes through validation and routing, its API call
    succeeds exactly when the validator and the target persona both get a
    status 200 with a JSON object. *)
Lemma step_succeeds_routed (context : WorkflowContext) (s : step)
    (en : env) (st : state) :
  existsb (String.eqb (step_persona s)) ["interface_validator"; "queue_manager"]
  = false ->
  step_succeeds context s en st
  = ok_reply (reply en (List.length (sent st)))
    && ok_reply (reply en (List.length (sent st) + 2)).
Proof.
  intros N. unfold step_succeeds, returned, api_call. rewrite N. cbn [negb].
  rewrite validate_and_route_run.
  destruct (ok_reply (reply en (List.length (sent st)))) eqn:V; cbn [fst andb];
    rewrite is_success_result_of_reply; [reflexivity | exact V].
Qed.

(** When every call fails, every step is run and recorded as failed. *)
Lemma failed_steps_all_recorded (context : WorkflowContext) (steps : list step)
    (en : env) (st : state) :
  (forall k, ok_reply (reply en k) = false) ->
  exists rs st1,
    run_steps context steps [] en st = (inr rs, st1)
    /\ map PersonaResult.persona_name rs = map step_persona steps
    /\ Forall (fun r => PersonaResult.success r = false) rs.
Proof.
  intros Down. revert st; induction steps as [|s steps IH]; intros st.
  - exists [], st. repeat split. constructor.
  - rewrite run_steps_cons.
    assert (F : step_succeeds context s en st = false).
    { destruct (step_succeeds context s en st) eqn:E; [|reflexivity].
      destruct (step_succeeds_needs_ok_reply _ _ _ _ E) as [k K].
      rewrite Down in K. discriminate. }
    destruct (step_fails_recorded _ _ _ _ F) as (e & st' & ->).
    rewrite run_steps_from.
    destruct (IH st') as (rs & st1 & -> & Names & Failed).
    exists (failed_result s e (seconds en (ticks st)) :: rs), st1.
    repeat split.
    + simpl. now rewrite Names.
    + constructor; [reflexivity | exact Failed].
Qed.

(** C9, as the code has it. On the success branch of
    _call_persona_with_validation the construction of the PersonaResult
    raises KeyError: the dictionary that call_persona returns for a status
    200 with a JSON object holds the key "persona" and not the key
    "persona_id". A workflow step whose API result has success true
    therefore raises KeyError('persona_id'), and process_requirement,
    which catches it, returns a result with success false for every run in
    which a step of the plan comes to that. For a step that goes through
    validation and routing the API result has success true exactly when
    the validator and the target persona are both answered with a status
    200 and a JSON object: a status 200 alone, or accepted calls of the
    validator and the router alone, do not suffice. *)
Theorem success_branch_raises_key_error :
  (forall persona_name r,
     ok_reply r = true ->
     let d := result_of_reply persona_name r in
     is_success d = true
     /\ dict_has "persona" d = true
     /\ dict_has "persona_id" d = false
     /\ dict_item "persona_id" d = inl (KeyError "persona_id"))
  /\ (forall context s en st,
        step_succeeds context s en st = true ->
        raised (run_step context s en st) = Some (KeyError "persona_id"))
  /\ (forall user_input context en st earlier s later rs st1,
        let wc := run_context user_input (context_or_empty context) (uuid en)
                    (isotime en (ticks st)) in
        run_plan user_input wc = earlier ++ s :: later ->
        run_steps wc earlier [] en (ticked st) = (inr rs, st1) ->
        step_succeeds wc s en st1 = true ->
        exists d,
          returned (process_requirement user_input context en st) = Some d
          /\ dict_get "success" d = Some (VBool false)
          /\ dict_get "error" d = Some (VStr "'persona_id'"))
  /\ (forall context s en st,
        existsb (String.eqb (step_persona s))
          ["interface_validator"; "queue_manager"] = false ->
        step_succeeds context s en st
        = ok_reply (reply en (List.length (sent st)))
          && ok_reply (reply en (List.length (sent st) + 2))).
Proof.
  conjuncts; [| | |exact step_succeeds_routed].
  - intros p r OK. cbv zeta.
    destruct (result_of_reply_cases p r) as [[_ [d ->]] | [E _]];
      [|congruence].
    repeat split.
  - intros context s en st OK.
    destruct (step_succeeds_raises _ _ _ _ OK) as [st' ->]. reflexivity.
  - intros user_input context en st earlier s later rs st1 wc Plan Run OK.
    destruct (step_succeeds_raises _ _ _ _ OK) as [st2 R].
    assert (X : run_steps wc (run_plan user_input wc) [] en (ticked st)
                = (inl (KeyError "persona_id"), st2)).
    { rewrite Plan, run_steps_app, Run, run_steps_cons, R. reflexivity. }
    eexists. unfold returned.
    rewrite (process_requirement_on_exception user_input context en st _ _ X).
    repeat split.
Qed.

(** With a gateway that answers every request with status 200, the first
    step of the plan succeeds at the HTTP level, and the run is reported
    as failed. *)
Lemma healthy_gateway_run_fails :
  exists d,
    returned (process_requirement
                "Fix mobile checkout button not responding to taps" None
                online_env initial_state) = Some d
    /\ dict_get "success" d = Some (VBool false)
    /\ dict_get "error" d = Some (VStr "'persona_id'").
Proof.
  apply (proj1 (proj2 (proj2 success_branch_raises_key_error))
           "Fix mobile checkout button not responding to taps" None
           online_env initial_state []
           (concierge_step "Fix mobile checkout button not responding to taps")
           (workflow_steps
              (run_channel "Fix mobile checkout button not responding to taps")
              (run_context "Fix mobile checkout button not responding to taps"
                 [] "wf-0001" "2025-01-01T00:00:00"))
           [] (ticked initial_state)); reflexivity.
Defined.

(** C9, as the specification words it, fails. With a gateway that answers
    every request with a status 200 and a JSON array, every persona call
    gets its HTTP 200 and none reaches the success branch: the run is
    reported with success true. With a gateway that accepts the validator,
    the router and the metric endpoints and refuses every target persona
    with a status 500, 23 of the 34 calls succeed and the run is reported
    with success true as well. *)
Lemma http_200_without_key_error :
  let text := "Add user preference dashboard with notification settings" in
  let run1 := process_requirement text None array_env initial_state in
  let run2 := process_requirement text None refused_targets_env initial_state in
  (forall k, reply array_env k = Response 200 (inr (VList [])) (inr "[]"))
  /\ List.length (sent (snd run1)) = 14
  /\ option_map (dict_get "success") (returned run1) = Some (Some (VBool true))
  /\ option_map (dict_has "error") (returned run1) = Some false
  /\ List.length (sent (snd run2)) = 34
  /\ List.length (filter ok_reply (map (reply refused_targets_env) (seq 0 34))) = 23
  /\ option_map (dict_get "success") (returned run2) = Some (Some (VBool true))
  /\ option_map (dict_has "error") (returned run2) = Some false.
Proof.
  cbv zeta. conjuncts; try (intros k); vm_compute; reflexivity.
Qed.

(** C3 on the code. The gateway refuses the first request and answers
    every later one with status 200. The requirement is routed to the
    standard channel, whose plan has ten steps. The first step fails and
    is recorded as failed; the second step's call succeeds, its
    success branch raises KeyError('persona_id'), the exception leaves
    _execute_workflow_with_phases, and none of the remaining phases is
    executed or recorded: four requests are posted in all. *)
Lemma failed_call_then_success_aborts :
  let text := "Add user preference dashboard with notification settings" in
  let wc := run_context text [] "wf-0001" "2025-01-01T00:00:00" in
  let first := run_step wc (concierge_step text) flaky_env (ticked initial_state) in
  let run := process_requirement text None flaky_env initial_state in
  run_channel text = WorkflowChannel.STANDARD
  /\ List.length (run_plan text wc) = 10
  /\ option_map PersonaResult.success (returned first) = Some false
  /\ raised (_execute_workflow_with_phases WorkflowChannel.STANDARD wc
               flaky_env (snd first))
     = Some (KeyError "persona_id")
  /\ map req_persona (sent (snd run))
     = ["interface_validator"; "interface_validator"; "queue_manager";
        "risk_assessor"]
  /\ option_map (dict_get "success") (returned run) = Some (Some (VBool false))
  /\ option_map (dict_get "error") (returned run)
     = Some (Some (VStr "'persona_id'"))
  /\ option_map (dict_get "results") (returned run) = Some None.
Proof.
  cbv zeta. conjuncts; vm_compute; reflexivity.
Qed.

(** ** The metrics requester *)

Lemma parse_string_run (text metric_type : string) (en : env) (st : state) :
  _parse_metric_response (VStr text) metric_type en st
  = (inr (metric_record text metric_type (isotime en (ticks st))), ticked st).
Proof.
  unfold _parse_metric_response, metric_record, score_of, bind, lift.
  destruct (extract_score_first_number text)
    as [[_ E] | (g & m & n & _ & _ & E)]; rewrite E; reflexivity.
Qed.

Lemma metric_block_run (metric_type : string) (summary : dict)
    (context : WorkflowContext) (metrics : dict) (en : env) (st : state) :
  let r := reply en (List.length (sent st)) in
  text_reply r ->
  exists st1,
    metric_block metric_type summary context metrics en st
    = (inr (after_block metric_type r (isotime en (ticks st)) metrics), st1)
    /\ sent st1 = sent st ++ [metric_request metric_type summary context].
Proof.
  cbv zeta. intros T.
  unfold metric_block, after_block. unfold bind at 1.
  rewrite call_persona_run. cbn [metric_request req_persona req_query req_context].
  destruct (reply en (List.length (sent st))) as [status [e|v] [t|t] | e] eqn:R;
    try solve [eexists; cbn [result_of_reply ok_reply];
               destruct (status =? 200)%N; split; reflexivity];
    try solve [eexists; split; reflexivity].
  all: destruct v as [| | | | |l|d];
    try solve [eexists; cbn [result_of_reply ok_reply];
               destruct (status =? 200)%N; split; reflexivity];
    cbn [result_of_reply ok_reply]; unfold text_reply in T; cbn [ok_reply] in T;
    (destruct (status =? 200)%N; [|eexists; split; reflexivity]);
    destruct (T eq_refl) as [txt Tx]; cbn [reply_response] in Tx |- *;
    unfold bind, lift, ret, success_result;
    cbn [dict_item dict_get String.eqb Ascii.eqb Bool.eqb truthy];
    rewrite Tx, parse_string_run;
    eexists; split; reflexivity.
Qed.

(** The four blocks in a row. *)
Lemma calculate_all_metrics_run (workflow_results : list PersonaResult.t)
    (context : WorkflowContext) (en : env) (st : state) :
  let n := List.length (sent st) in
  let summary := results_summary workflow_results context in
  (forall i, i < 4 -> text_reply (reply en (n + i))) ->
  exists t0 t1 t2 t3 st',
    calculate_all_metrics workflow_results context en st
    = (inr (after_block "scalability" (reply en (n + 3)) t3
              (after_block "stability" (reply en (n + 2)) t2
                 (after_block "performance" (reply en (n + 1)) t1
                    (after_block "functionality" (reply en (n + 0)) t0 [])))),
       st')
    /\ sent st'
       = sent st ++ map (fun k => metric_request k summary context) metric_names.
Proof.
  cbv zeta. intros T.
  unfold calculate_all_metrics.
  assert (T0 := T 0 ltac:(lia)). assert (T1 := T 1 ltac:(lia)).
  assert (T2 := T 2 ltac:(lia)). assert (T3 := T 3 ltac:(lia)).
  rewrite Nat.add_0_r in T0 |- *.
  destruct (metric_block_run "functionality"
              (results_summary workflow_results context) context [] en st T0)
    as (st1 & R1 & S1).
  assert (L1 : List.length (sent st1) = List.length (sent st) + 1)
    by (rewrite S1, length_app; reflexivity).
  rewrite <- L1 in T1.
  destruct (metric_block_run "performance"
              (results_summary workflow_results context) context
              (after_block "functionality" (reply en (List.length (sent st)))
                 (isotime en (ticks st)) []) en st1 T1)
    as (st2 & R2 & S2).
  assert (L2 : List.length (sent st2) = List.length (sent st) + 2)
    by (rewrite S2, length_app, L1; simpl; lia).
  rewrite <- L2 in T2.
  destruct (metric_block_run "stability"
              (results_summary workflow_results context) context
              (after_block "performance" (reply en (List.length (sent st1)))
                 (isotime en (ticks st1))
                 (after_block "functionality" (reply en (List.length (sent st)))
                    (isotime en (ticks st)) [])) en st2 T2)
    as (st3 & R3 & S3).
  assert (L3 : List.length (sent st3) = List.length (sent st) + 3)
    by (rewrite S3, length_app, L2; simpl; lia).
  rewrite <- L3 in T3.
  destruct (metric_block_run "scalability"
              (results_summary workflow_results context) context
              (after_block "stability" (reply en (List.length (sent st2)))
                 (isotime en (ticks st2))
                 (after_block "performance" (reply en (List.length (sent st1)))
                    (isotime en (ticks st1))
                    (after_block "functionality" (reply en (List.length (sent st)))
                       (isotime en (ticks st)) []))) en st3 T3)
    as (st4 & R4 & S4).
  exists (isotime en (ticks st)), (isotime en (ticks st1)),
         (isotime en (ticks st2)), (isotime en (ticks st3)), st4.
  split.
  - unfold bind. rewrite R1, R2, R3, R4. unfold ret.
    now rewrite <- L1, <- L2, <- L3.
  - rewrite S4, S3, S2, S1. unfold metric_names. cbn [map].
    now rewrite <- !app_assoc.
Qed.

Lemma after_block_other (k k' : string) (r : http_reply) (t : string)
    (metrics : dict) :
  k <> k' -> dict_get k (after_block k' r t metrics) = dict_get k metrics.
Proof.
  intros N. unfold after_block.
  destruct (ok_reply r); [|reflexivity].
  destruct (reply_response r); try reflexivity.
  now apply dict_get_set_other.
Qed.

Lemma after_block_same (k : string) (r : http_reply) (t : string)
    (metrics : dict) :
  text_reply r ->
  (ok_reply r = false ->
   dict_get k (after_block k r t metrics) = dict_get k metrics)
  /\ (ok_reply r = true ->
      exists text,
        reply_response r = VStr text
        /\ dict_get k (after_block k r t metrics)
           = Some (VDict (metric_record text k t))).
Proof.
  intros T. unfold after_block. split; intros OK; rewrite OK; [reflexivity|].
  destruct (T OK) as [text E]. exists text. rewrite E.
  split; [reflexivity | apply dict_get_set_same].
Qed.

Lemma after_block_keys (k k' : string) (r : http_reply) (t : string)
    (metrics : dict) :
  dict_has k (after_block k' r t metrics) = true ->
  k = k' \/ dict_has k metrics = true.
Proof.
  destruct (String.eqb_spec k k') as [->|N]; [now left|].
  unfold dict_has. rewrite after_block_other by assumption. now right.
Qed.

(** A block whose accepted reply carries a response that is not text
    raises the TypeError of [re.search], after its request is posted. *)
Lemma metric_block_raises (metric_type : string) (summary : dict)
    (context : WorkflowContext) (metrics : dict) (en : env) (st : state) :
  let r := reply en (List.length (sent st)) in
  ok_reply r = true ->
  (forall text, reply_response r <> VStr text) ->
  metric_block metric_type summary context metrics en st
  = (inl (not_text_error (reply_response r)),
     posted [metric_request metric_type summary context] st).
Proof.
  cbv zeta. intros O N.
  unfold metric_block. unfold bind at 1.
  rewrite call_persona_run. cbn [metric_request req_persona req_query req_context].
  destruct (reply en (List.length (sent st))) as [status [e|v] t | e];
    try discriminate O.
  destruct v; try discriminate O.
  cbn [ok_reply] in O. cbn [result_of_reply reply_response] in *. rewrite O.
  unfold bind, lift, ret, success_result.
  cbn [dict_item dict_get String.eqb Ascii.eqb Bool.eqb truthy].
  destruct (dict_get_default "response" (VStr "") entries) eqn:R;
    try reflexivity.
  now destruct (N s).
Qed.

(** The blocks before the first reply that is not text, then that reply. *)
Lemma calculate_all_metrics_raises (workflow_results : list PersonaResult.t)
    (context : WorkflowContext) (en : env) (st : state) (i : nat) :
  let n := List.length (sent st) in
  let run := calculate_all_metrics workflow_results context en st in
  i < 4 ->
  (forall j, j < i -> text_reply (reply en (n + j))) ->
  ok_reply (reply en (n + i)) = true ->
  (forall text, reply_response (reply en (n + i)) <> VStr text) ->
  raised run = Some (not_text_error (reply_response (reply en (n + i))))
  /\ sent (snd run)
     = sent st ++ firstn (S i) (metric_requests workflow_results context).
Proof.
  cbv zeta. intros Hi T O N.
  unfold calculate_all_metrics, metric_requests, metric_names.
  set (summary := results_summary workflow_results context).
  assert (Step : forall k metrics st0 (f : dict -> M dict),
            text_reply (reply en (List.length (sent st0))) ->
            exists metrics' st1,
              bind (metric_block k summary context metrics) f en st0
              = f metrics' en st1
              /\ sent st1 = sent st0 ++ [metric_request k summary context]).
  { intros k metrics st0 f T0.
    destruct (metric_block_run k summary context metrics en st0 T0)
      as (st1 & R & S).
    eexists _, st1. unfold bind. rewrite R. split; [reflexivity | exact S]. }
  assert (Stop : forall k metrics st0 (f : dict -> M dict) j,
            List.length (sent st0) = List.length (sent st) + j -> j = i ->
            bind (metric_block k summary context metrics) f en st0
            = (inl (not_text_error
                      (reply_response (reply en (List.length (sent st) + i)))),
               posted [metric_request k summary context] st0)).
  { intros k metrics st0 f j L ->. unfold bind.
    rewrite metric_block_raises; rewrite L; auto. }
  destruct i as [|i].
  { rewrite (Stop _ _ st _ 0) by lia. split; reflexivity. }
  destruct (Step "functionality" [] st
              (fun metrics =>
                 metrics <- metric_block "performance" summary context metrics ;;
                 metrics <- metric_block "stability" summary context metrics ;;
                 metrics <- metric_block "scalability" summary context metrics ;;
                 ret metrics))
    as (m1 & st1 & R1 & S1).
  { specialize (T 0 ltac:(lia)). now rewrite Nat.add_0_r in T. }
  rewrite R1.
  assert (L1 : List.length (sent st1) = List.length (sent st) + 1)
    by (rewrite S1, length_app; reflexivity).
  destruct i as [|i].
  { rewrite (Stop _ _ st1 _ 1) by lia. unfold raised, posted. cbn [fst snd sent].
    split; [reflexivity|]. rewrite S1, <- app_assoc. reflexivity. }
  destruct (Step "performance" m1 st1
              (fun metrics =>
                 metrics <- metric_block "stability" summary context metrics ;;
                 metrics <- metric_block "scalability" summary context metrics ;;
                 ret metrics))
    as (m2 & st2 & R2 & S2).
  { rewrite L1. apply T. lia. }
  rewrite R2.
  assert (L2 : List.length (sent st2) = List.length (sent st) + 2)
    by (rewrite S2, length_app, L1; simpl; lia).
  destruct i as [|i].
  { rewrite (Stop _ _ st2 _ 2) by lia. unfold raised, posted. cbn [fst snd sent].
    split; [reflexivity|]. rewrite S2, S1, <- !app_assoc. reflexivity. }
  destruct (Step "stability" m2 st2
              (fun metrics =>
                 metrics <- metric_block "scalability" summary context metrics ;;
                 ret metrics))
    as (m3 & st3 & R3 & S3).
  { rewrite L2. apply T. lia. }
  rewrite R3.
  assert (L3 : List.length (sent st3) = List.length (sent st) + 3)
    by (rewrite S3, length_app, L2; simpl; lia).
  destruct i as [|i]; [|lia].
  rewrite (Stop _ _ st3 _ 3) by lia. unfold raised, posted. cbn [fst snd sent].
  split; [reflexivity|]. rewrite S3, S2, S1, <- !app_assoc. reflexivity.
Qed.

(** C6, as the code has it. For every results list the requester posts the
    serialized results to the endpoints functionality_metrics,
    performance_metrics, stability_metrics and scalability_metrics, in that
    order. When every accepted reply carries free text, all four are
    posted to and the map returned holds, of the four named metrics, those
    whose call succeeded and no other entry: a metric whose call failed is
    absent, and a present metric is the parse of the reply of its own
    endpoint. When an accepted reply carries a response that is not a
    text, the first such reply makes the requester raise the TypeError of
    re.search: no map is returned and the later endpoints are not posted
    to. *)
Theorem metrics_of_successful_calls
    (workflow_results : list PersonaResult.t) (context : WorkflowContext)
    (en : env) (st : state) :
  let n := List.length (sent st) in
  let summary := results_summary workflow_results context in
  let run := calculate_all_metrics workflow_results context en st in
  ((forall i, i < 4 -> text_reply (reply en (n + i))) ->
   exists metrics st',
     run = (inr metrics, st')
     /\ sent st'
        = sent st ++ map (fun k => metric_request k summary context) metric_names
     /\ (forall i k,
           nth_error metric_names i = Some k ->
           (ok_reply (reply en (n + i)) = false -> dict_get k metrics = None)
           /\ (ok_reply (reply en (n + i)) = true ->
               exists text calculated_at,
                 reply_response (reply en (n + i)) = VStr text
                 /\ dict_get k metrics
                    = Some (VDict (metric_record text k calculated_at))))
     /\ (forall k, dict_has k metrics = true -> In k metric_names))
  /\ (forall i,
        i < 4 ->
        (forall j, j < i -> text_reply (reply en (n + j))) ->
        ok_reply (reply en (n + i)) = true ->
        (forall text, reply_response (reply en (n + i)) <> VStr text) ->
        raised run
        = Some (TypeError ("expected string or bytes-like object, got '"
                           ++ type_name (reply_response (reply en (n + i)))
                           ++ "'"))
        /\ sent (snd run)
           = sent st ++ firstn (S i) (map (fun k => metric_request k summary context)
                                         metric_names)).
Proof.
  cbv zeta. split;
    [|intros i Hi T O N;
      exact (calculate_all_metrics_raises workflow_results context en st i
               Hi T O N)].
  intros T.
  destruct (calculate_all_metrics_run workflow_results context en st T)
    as (t0 & t1 & t2 & t3 & st' & R & S).
  eexists _, st'. split; [exact R|]. split; [exact S|]. split.
  - intros i k Hk.
    assert (Ti : text_reply (reply en (List.length (sent st) + i))).
    { apply T.
      assert (Hi : i < List.length metric_names)
        by (apply nth_error_Some; congruence).
      exact Hi. }
    destruct i as [|[|[|[|i]]]]; cbn in Hk;
      [ | | | | destruct i; discriminate Hk ];
      injection Hk as <-;
      rewrite ?after_block_other by discriminate;
      match goal with
      | |- context [dict_get ?k (after_block ?k ?r ?t ?m)] =>
          destruct (after_block_same k r t m Ti) as [A B]
      end;
      (split; intros OK;
       [ rewrite (A OK), ?after_block_other by discriminate; reflexivity
       | destruct (B OK) as (text & E & G);
         exists text; eexists; split; [exact E | exact G] ]).
  - intros k H.
    apply after_block_keys in H as [-> | H]; [simpl; tauto|].
    apply after_block_keys in H as [-> | H]; [simpl; tauto|].
    apply after_block_keys in H as [-> | H]; [simpl; tauto|].
    apply after_block_keys in H as [-> | H]; [simpl; tauto|].
    discriminate H.
Qed.

(** Four replies, two of them accepted: the map holds functionality, read
    from its reply as 8.5, and scalability, whose rating of 12 is capped at
    10.0; performance and stability are absent. *)
Lemma metrics_mixed_replies_example :
  (forall i, i < 4 -> text_reply (reply metrics_env (0 + i)))
  /\ (exists metrics st',
        calculate_all_metrics [] sample_context metrics_env initial_state
        = (inr metrics, st')
        /\ dict_keys metrics = ["functionality"; "scalability"]
        /\ dict_get "performance" metrics = None
        /\ map req_persona (sent st')
           = ["functionality_metrics"; "performance_metrics";
              "stability_metrics"; "scalability_metrics"])
  /\ raised (calculate_all_metrics [] sample_context null_metric_env initial_state)
     = Some (TypeError "expected string or bytes-like object, got 'NoneType'")
  /\ map req_persona
       (sent (snd (calculate_all_metrics [] sample_context null_metric_env
                     initial_state)))
     = ["functionality_metrics"; "performance_metrics"].
Proof.
  assert (T : forall i, i < 4 -> text_reply (reply metrics_env (0 + i))).
  { intros i Hi. unfold text_reply.
    destruct i as [|[|[|[|i]]]]; cbn; intros OK;
      first [ discriminate OK | eexists; reflexivity | lia ]. }
  split; [exact T|].
  assert (Null : raised (calculate_all_metrics [] sample_context null_metric_env
                           initial_state)
                 = Some (TypeError
                           "expected string or bytes-like object, got 'NoneType'")
                 /\ map req_persona
                      (sent (snd (calculate_all_metrics [] sample_context
                                    null_metric_env initial_state)))
                    = ["functionality_metrics"; "performance_metrics"]).
  { destruct (proj2 (metrics_of_successful_calls [] sample_context
                       null_metric_env initial_state) 1) as [R S].
    - lia.
    - intros j Hj. assert (j = 0) as -> by lia.
      intros _. eexists. reflexivity.
    - reflexivity.
    - discriminate.
    - split; [exact R|]. rewrite S. reflexivity. }
  split; [|exact Null].
  destruct (proj1 (metrics_of_successful_calls [] sample_context metrics_env
                     initial_state) T)
    as (metrics & st' & R & S & _ & _).
  exists metrics, st'.
  assert (E : calculate_all_metrics [] sample_context metrics_env initial_state
              = (inr [("functionality",
                       VDict (metric_record "Overall score: 8.5" "functionality"
                                "2025-01-01T00:00:00"));
                      ("scalability",
                       VDict (metric_record "Rating: 12" "scalability"
                                "2025-01-01T00:00:00"))],
                 mkState (map (fun k => metric_request k
                                          (results_summary [] sample_context)
                                          sample_context) metric_names)
                         2 []))
    by reflexivity.
  rewrite E in R. injection R as <- <-.
  conjuncts; reflexivity.
Defined.

(** C6, as the specification words it, fails when a call fails: with the
    gateway down the four requests are posted, each call fails, and the map
    returned is empty; none of the four named metrics is in it. *)
Lemma metrics_absent_when_calls_fail :
  let run := calculate_all_metrics [] sample_context offline_env initial_state in
  map req_persona (sent (snd run))
  = ["functionality_metrics"; "performance_metrics";
     "stability_metrics"; "scalability_metrics"]
  /\ returned run = Some []
  /\ option_map (dict_has "functionality") (returned run) = Some false
  /\ option_map (dict_has "performance") (returned run) = Some false
  /\ option_map (dict_has "stability") (returned run) = Some false
  /\ option_map (dict_has "scalability") (returned run) = Some false.
Proof.
  cbv zeta. conjuncts; reflexivity.
Qed.

(** Outside the interface: an accepted reply whose response is null makes
    [re.search] raise, and the requester returns no map. *)
Example metrics_null_response_raises :
  raised (calculate_all_metrics [] sample_context
            (mkEnv (fun _ => Response 200 (inr (VDict [("response", VNone)])) (inr "ok"))
                   (isotime offline_env) (seconds offline_env) (uuid offline_env))
            initial_state)
  = Some (TypeError "expected string or bytes-like object, got 'NoneType'").
Proof. reflexivity. Qed.

(* ================================================================== *)
(** * Further properties of the orchestrator                           *)
(* ================================================================== *)

(** ** What a run posts and returns *)

(** The API call of a step posts one request (a direct call, or a refused
    validation) or three (validation, routing, target). *)
Lemma api_call_posts (context : WorkflowContext) (s : step) (en : env) (st : state) :
  exists d rs,
    api_call context s en st = (inr d, posted rs st)
    /\ (List.length rs = 1 \/ List.length rs = 3).
Proof.
  unfold api_call.
  destruct (negb (existsb (String.eqb (step_persona s))
                    ["interface_validator"; "queue_manager"])).
  - rewrite validate_and_route_run.
    destruct (ok_reply (reply en (List.length (sent st))));
      eexists _, _; split; try reflexivity; simpl; auto.
  - rewrite call_persona_run. eexists _, _; split; try reflexivity; simpl; auto.
Qed.

(** One step: what it posts, and that it either raises the KeyError or
    returns a result built by the failure branch. *)
Lemma run_step_outcome (context : WorkflowContext) (s : step) (en : env) (st : state) :
  exists new st1,
    sent st1 = sent st ++ new
    /\ execution_history st1 = execution_history st
    /\ 1 <= List.length new <= 3
    /\ (run_step context s en st = (inl (KeyError "persona_id"), st1)
        \/ exists r,
             run_step context s en st = (inr r, st1)
             /\ PersonaResult.persona_name r = step_persona s
             /\ recorded_as_failed r).
Proof.
  destruct (run_step_cases context s en st) as (d & rs & A & C).
  destruct (api_call_posts context s en st) as (d' & rs' & A' & L).
  rewrite A in A'. injection A' as _ E. apply app_inv_head in E. subst rs'.
  exists rs, (ticked (posted rs st)).
  split; [reflexivity|]. split; [reflexivity|]. split; [lia|].
  destruct C as [[_ R] | [_ (e & R)]]; [left; exact R|].
  right. eexists. split; [exact R|].
  split; [reflexivity|]. unfold recorded_as_failed, failed_result; cbn.
  eauto 6.
Qed.

(** A list of steps: either the KeyError of the first step that succeeds,
    or one failed result per step, in order. *)
Lemma run_steps_outcome (context : WorkflowContext) (steps : list step)
    (en : env) (st : state) :
  exists new st1,
    sent st1 = sent st ++ new
    /\ execution_history st1 = execution_history st
    /\ List.length new <= 3 * List.length steps
    /\ ((run_steps context steps [] en st = (inl (KeyError "persona_id"), st1)
         /\ 1 <= List.length new)
        \/ exists rs,
             run_steps context steps [] en st = (inr rs, st1)
             /\ map PersonaResult.persona_name rs = map step_persona steps
             /\ Forall recorded_as_failed rs
             /\ List.length steps <= List.length new).
Proof.
  revert st; induction steps as [|s steps IH]; intros st.
  - exists [], st. rewrite app_nil_r. repeat split; simpl; try lia.
    right. exists []. repeat split; simpl; auto.
  - rewrite run_steps_cons.
    destruct (run_step_outcome context s en st)
      as (new1 & st1 & S1 & H1 & L1 & [R | (r & R & N & F)]); rewrite R.
    + exists new1, st1. cbn [List.length]. repeat split; try lia; auto.
      left. split; [reflexivity | lia].
    + rewrite run_steps_from.
      destruct (IH st1) as (new2 & st2 & S2 & H2 & L2 & [[R2 B2] | (rs & R2 & N2 & F2 & B2)]);
        rewrite R2; exists (new1 ++ new2), st2; rewrite length_app;
        cbn [List.length];
        (split; [rewrite S2, S1; symmetry; apply app_assoc|]);
        (split; [congruence|]); (split; [lia|]).
      * left. split; [reflexivity | lia].
      * right. exists (r :: rs). cbn [app map].
        repeat split; try lia; [congruence | constructor; assumption].
Qed.

(** One metric block posts its request and either returns a map or raises
    the TypeError of [re.search]. *)
Lemma metric_block_outcome (metric_type : string) (summary : dict)
    (context : WorkflowContext) (metrics : dict) (en : env) (st : state) :
  exists st1,
    sent st1 = sent st ++ [metric_request metric_type summary context]
    /\ execution_history st1 = execution_history st
    /\ ((exists metrics', metric_block metric_type summary context metrics en st
                          = (inr metrics', st1)
                          /\ (metrics' = metrics
                              \/ exists v, metrics' = dict_set metric_type v metrics))
        \/ exists v,
             (forall s, v <> VStr s)
             /\ metric_block metric_type summary context metrics en st
                = (inl (not_text_error v), st1)).
Proof.
  unfold metric_block.
  cbn [metric_request req_persona req_query req_context].
  unfold bind. rewrite call_persona_run.
  destruct (result_of_reply_cases (metric_persona metric_type)
              (reply en (List.length (sent st))))
    as [[_ [d ->]] | [_ [e ->]]].
  - unfold lift, ret, raise, success_result.
    cbn [dict_item dict_get String.eqb Ascii.eqb Bool.eqb truthy].
    destruct (dict_get_default "response" (VStr "") d) as [| | | |text| |].
    5:{ rewrite parse_string_run.
        exists (ticked (posted [mkRequest (metric_persona metric_type)
                                  (Fmt ("Calculate " ++ metric_type
                                        ++ " metrics for this workflow execution:")
                                       [Json (VDict summary)])
                                  [("metric_type", VStr metric_type);
                                   ("workflow_id", VStr (workflow_id context))]] st)).
        split; [reflexivity|]. split; [reflexivity|]. left. eexists.
        split; [reflexivity|]. right. eexists. reflexivity. }
    all: exists (posted [mkRequest (metric_persona metric_type)
                          (Fmt ("Calculate " ++ metric_type
                                ++ " metrics for this workflow execution:")
                               [Json (VDict summary)])
                          [("metric_type", VStr metric_type);
                           ("workflow_id", VStr (workflow_id context))]] st);
      split; [reflexivity|]; split; [reflexivity|]; right;
      eexists; (split; [|reflexivity]); discriminate.
  - exists (posted [mkRequest (metric_persona metric_type)
                      (Fmt ("Calculate " ++ metric_type
                            ++ " metrics for this workflow execution:")
                           [Json (VDict summary)])
                      [("metric_type", VStr metric_type);
                       ("workflow_id", VStr (workflow_id context))]] st).
    split; [reflexivity|]. split; [reflexivity|].
    left. eexists. split; [reflexivity|]. left. reflexivity.
Qed.

(** The four blocks: the requests posted are the first [j] of the four,
    all four when a map is returned. *)
Lemma calculate_all_metrics_outcome (workflow_results : list PersonaResult.t)
    (context : WorkflowContext) (en : env) (st : state) :
  exists j st1,
    1 <= j <= 4
    /\ sent st1 = sent st ++ firstn j (metric_requests workflow_results context)
    /\ execution_history st1 = execution_history st
    /\ ((exists metrics,
           calculate_all_metrics workflow_results context en st = (inr metrics, st1)
           /\ j = 4
           /\ dict_keys metrics
              = filter (fun k => dict_has k metrics) metric_names)
        \/ exists v,
             (forall s, v <> VStr s)
             /\ calculate_all_metrics workflow_results context en st
                = (inl (not_text_error v), st1)).
Proof.
  remember (calculate_all_metrics workflow_results context en st) as run eqn:E.
  unfold calculate_all_metrics in E.
  unfold metric_requests, metric_names.
  set (summary := results_summary workflow_results context) in *.
  destruct (metric_block_outcome "functionality" summary context [] en st)
    as (st1 & S1 & H1 & [(m1 & R1 & K1) | (v & V & R1)]);
    unfold bind at 1 in E; rewrite R1 in E.
  2:{ exists 1, st1. subst run. repeat split; try lia; eauto. }
  destruct (metric_block_outcome "performance" summary context m1 en st1)
    as (st2 & S2 & H2 & [(m2 & R2 & K2) | (v & V & R2)]);
    unfold bind at 1 in E; rewrite R2 in E.
  2:{ exists 2, st2. subst run. repeat split; try lia; [|congruence|eauto].
      rewrite S2, S1, <- app_assoc. reflexivity. }
  destruct (metric_block_outcome "stability" summary context m2 en st2)
    as (st3 & S3 & H3 & [(m3 & R3 & K3) | (v & V & R3)]);
    unfold bind at 1 in E; rewrite R3 in E.
  2:{ exists 3, st3. subst run. repeat split; try lia; [|congruence|eauto].
      rewrite S3, S2, S1, <- !app_assoc. reflexivity. }
  destruct (metric_block_outcome "scalability" summary context m3 en st3)
    as (st4 & S4 & H4 & [(m4 & R4 & K4) | (v & V & R4)]);
    unfold bind at 1 in E; rewrite R4 in E.
  2:{ exists 4, st4. subst run. repeat split; try lia; [|congruence|eauto].
      rewrite S4, S3, S2, S1, <- !app_assoc. reflexivity. }
  exists 4, st4. subst run. repeat split; try lia; [|congruence|].
  - rewrite S4, S3, S2, S1, <- !app_assoc. reflexivity.
  - left. exists m4. split; [reflexivity|]. split; [reflexivity|].
    clear -K1 K2 K3 K4.
    destruct K1 as [-> | [v1 ->]]; destruct K2 as [-> | [v2 ->]];
      destruct K3 as [-> | [v3 ->]]; destruct K4 as [-> | [v4 ->]];
      reflexivity.
Qed.

(** The whole method, by the outcome of its two stages. *)
Lemma process_requirement_cases (user_input : string) (context : option dict)
    (en : env) (st : state) :
  let ctx := context_or_empty context in
  let wc := run_context user_input ctx (uuid en) (isotime en (ticks st)) in
  process_requirement user_input context en st
  = match run_steps wc (run_plan user_input wc) [] en (ticked st) with
    | (inl e, st1) =>
        (inr (error_report user_input ctx (uuid en) e (seconds en (ticks st1))),
         ticked st1)
    | (inr results, st1) =>
        match calculate_all_metrics results wc en st1 with
        | (inl e, st2) =>
            (inr (error_report user_input ctx (uuid en) e (seconds en (ticks st2))),
             ticked st2)
        | (inr metrics, st2) =>
            (inr (success_report user_input ctx (uuid en) results metrics
                    (seconds en (ticks st2))),
             mkState (sent st2) (S (ticks st2))
               (execution_history st2
                ++ [success_report user_input ctx (uuid en) results metrics
                      (seconds en (ticks st2))]))
        end
    end.
Proof.
  cbv zeta.
  unfold process_requirement, bind at 1, now_isoformat, try_except.
  fold (context_or_empty context). fold (ticked st).
  rewrite process_requirement_body_steps. cbv zeta.
  destruct (run_steps _ _ [] en (ticked st)) as [[e|results] st1];
    [reflexivity|].
  destruct (calculate_all_metrics results _ en st1) as [[e|metrics] st2];
    reflexivity.
Qed.

Lemma run_plan_length (user_input : string) (context : WorkflowContext) :
  7 <= List.length (run_plan user_input context) <= 12.
Proof.
  unfold run_plan, workflow_steps. cbn [List.length]. rewrite length_app.
  destruct (run_channel user_input); simpl; lia.
Qed.

(** X1. process_requirement never raises: for every requirement, context
    and gateway it returns a report that names the workflow and the input.
    The report either has success true, with results and metrics and no
    error, or has success false, with no results and no metrics and the
    text of one of two errors: the KeyError of a step that succeeded, or
    the TypeError of a metric reply that is not text, which names the
    type of the reply. *)
Theorem process_requirement_always_reports
    (user_input : string) (context : option dict) (en : env) (st : state) :
  exists d st',
    process_requirement user_input context en st = (inr d, st')
    /\ dict_get "workflow_id" d = Some (VStr (uuid en))
    /\ dict_get "input" d = Some (VStr user_input)
    /\ dict_get "context" d = Some (VDict (context_or_empty context))
    /\ ((dict_get "success" d = Some (VBool true)
         /\ dict_has "error" d = false
         /\ dict_has "results" d = true
         /\ dict_has "metrics" d = true)
        \/ (dict_get "success" d = Some (VBool false)
            /\ dict_has "results" d = false
            /\ dict_has "metrics" d = false
            /\ (dict_get "error" d = Some (VStr "'persona_id'")
                \/ exists v,
                     (forall s, v <> VStr s)
                     /\ dict_get "error" d
                        = Some (VStr ("expected string or bytes-like object, got '"
                                      ++ type_name v ++ "'"))))).
Proof.
  rewrite process_requirement_cases. cbv zeta.
  set (wc := run_context _ _ _ _).
  destruct (run_steps_outcome wc (run_plan user_input wc) en (ticked st))
    as (new & st1 & _ & _ & _ & [[R _] | (rs & R & _)]); rewrite R.
  - eexists _, _. split; [reflexivity|].
    repeat split. right. repeat split. left. reflexivity.
  - destruct (calculate_all_metrics_outcome rs wc en st1)
      as (j & st2 & _ & _ & _ & [(metrics & M & _) | (v & V & M)]); rewrite M.
    + eexists _, _. split; [reflexivity|]. repeat split. left. repeat split.
    + eexists _, _. split; [reflexivity|].
      repeat split. right. repeat split. right. exists v. split; [exact V|].
      reflexivity.
Qed.

(** X2. A report with success true never lists a successful persona step:
    its results are one record per step of the plan, in plan order, each
    built by the failure branch (success false, validated false,
    persona_id "unknown", an error as output). *)
Theorem successful_report_lists_only_failures
    (user_input : string) (context : option dict) (en : env) (st : state)
    (d : dict) (st' : state) :
  process_requirement user_input context en st = (inr d, st') ->
  dict_get "success" d = Some (VBool true) ->
  exists results,
    dict_get "results" d = Some (VList (map _serialize_result results))
    /\ map PersonaResult.persona_name results
       = map step_persona
           (run_plan user_input
              (run_context user_input (context_or_empty context) (uuid en)
                 (isotime en (ticks st))))
    /\ Forall recorded_as_failed results.
Proof.
  rewrite process_requirement_cases. cbv zeta.
  set (wc := run_context _ _ _ _).
  destruct (run_steps_outcome wc (run_plan user_input wc) en (ticked st))
    as (new & st1 & _ & _ & _ & [[R _] | (rs & R & N & F & _)]); rewrite R.
  - intros [= <- _] S. discriminate S.
  - destruct (calculate_all_metrics rs wc en st1) as [[e|metrics] st2].
    + intros [= <- _] S. discriminate S.
    + intros [= <- _] _. exists rs. repeat split; assumption.
Qed.

(** With the gateway down every step fails, the run is reported as a
    success, and its seven results are all failures. *)
Lemma offline_run_example :
  exists d,
    returned (process_requirement
                "Fix mobile checkout button not responding to taps" None
                offline_env initial_state) = Some d
    /\ dict_get "success" d = Some (VBool true)
    /\ exists results,
         dict_get "results" d = Some (VList (map _serialize_result results))
         /\ List.length results = 7
         /\ Forall recorded_as_failed results.
Proof.
  destruct (process_requirement
              "Fix mobile checkout button not responding to taps" None
              offline_env initial_state) as [[e|d] st'] eqn:E;
    [vm_compute in E; discriminate E|].
  assert (S : dict_get "success" d = Some (VBool true)).
  { vm_compute in E. injection E as <- _. reflexivity. }
  exists d. split; [reflexivity|]. split; [exact S|].
  destruct (successful_report_lists_only_failures _ _ _ _ _ _ E S)
    as (results & R & N & F).
  exists results. split; [exact R|]. split; [|exact F].
  apply (f_equal (@List.length _)) in N. rewrite !length_map in N.
  rewrite N. reflexivity.
Defined.

(** X3. execution_history records the successful runs and only them: a
    report with success true is appended to it, as returned; a run whose
    report has success false leaves it as it was. *)
Theorem execution_history_records_successes
    (user_input : string) (context : option dict) (en : env) (st : state) :
  exists d st',
    process_requirement user_input context en st = (inr d, st')
    /\ ((dict_get "success" d = Some (VBool true)
         /\ execution_history st' = execution_history st ++ [d])
        \/ (dict_get "success" d = Some (VBool false)
            /\ execution_history st' = execution_history st)).
Proof.
  rewrite process_requirement_cases. cbv zeta.
  set (wc := run_context _ _ _ _).
  destruct (run_steps_outcome wc (run_plan user_input wc) en (ticked st))
    as (new & st1 & _ & H1 & _ & [[R _] | (rs & R & _)]); rewrite R.
  - eexists _, _. split; [reflexivity|]. right. split; [reflexivity|exact H1].
  - destruct (calculate_all_metrics_outcome rs wc en st1)
      as (j & st2 & _ & _ & H2 & [(metrics & M & _) | (v & V & M)]); rewrite M.
    + eexists _, _. split; [reflexivity|]. left. split; [reflexivity|].
      cbn [execution_history]. now rewrite H2, H1.
    + eexists _, _. split; [reflexivity|]. right. split; [reflexivity|].
      cbn [ticked execution_history]. now rewrite H2, H1.
Qed.

(** X4. A run of process_requirement posts at least one and at most forty
    requests to the gateway, after those already posted: at most three for
    each of the at most twelve steps of the plan, and at most four for the
    metrics. *)
Theorem process_requirement_request_bound
    (user_input : string) (context : option dict) (en : env) (st : state) :
  exists new,
    sent (snd (process_requirement user_input context en st)) = sent st ++ new
    /\ 1 <= List.length new <= 40.
Proof.
  rewrite process_requirement_cases. cbv zeta.
  set (wc := run_context _ _ _ _).
  pose proof (run_plan_length user_input wc) as P.
  destruct (run_steps_outcome wc (run_plan user_input wc) en (ticked st))
    as (new & st1 & S1 & _ & L1 & [[R B] | (rs & R & _ & _ & B)]); rewrite R.
  - exists new. cbn [snd ticked sent]. split; [exact S1 | lia].
  - destruct (calculate_all_metrics_outcome rs wc en st1)
      as (j & st2 & J & S2 & _ & [(metrics & M & _) | (v & V & M)]); rewrite M;
      exists (new ++ firstn j (metric_requests rs wc));
      cbn [snd ticked sent];
      (split; [rewrite S2, S1; symmetry; apply app_assoc|]);
      rewrite length_app;
      pose proof (firstn_le_length j (metric_requests rs wc)) as F; lia.
Qed.

(** ** The classifier, further *)

Lemma lower_char_idem (c : ascii) :
  Text.lower_char (Text.lower_char c) = Text.lower_char c.
Proof.
  destruct c as [[] [] [] [] [] [] [] []]; reflexivity.
Qed.

Lemma lower_idem (s : string) : Text.lower (Text.lower s) = Text.lower s.
Proof.
  induction s as [|c s IH]; simpl; [reflexivity|].
  now rewrite lower_char_idem, IH.
Qed.

(** X5. Classification ignores letter case: two texts with the same
    lower-case form get the same classification and the same channel, and
    a text is classified as its lower-case form is. *)
Theorem classification_ignores_case
    (a b : string) (context : WorkflowContext) :
  Text.lower a = Text.lower b ->
  _classify_requirement a context = _classify_requirement b context
  /\ _classify_requirement (Text.lower a) context = _classify_requirement a context
  /\ _select_workflow_channel (_classify_requirement a context) context
     = _select_workflow_channel (_classify_requirement b context) context.
Proof.
  intros E.
  assert (C : _classify_requirement a context = _classify_requirement b context)
    by (unfold _classify_requirement; now rewrite E).
  conjuncts.
  - exact C.
  - unfold _classify_requirement. now rewrite lower_idem.
  - now rewrite C.
Qed.

Lemma classification_case_example :
  _classify_requirement "URGENT: Fix The Checkout" sample_context
  = _classify_requirement "urgent: fix the checkout" sample_context.
Proof.
  exact (proj1 (classification_ignores_case "URGENT: Fix The Checkout"
                  "urgent: fix the checkout" sample_context eq_refl)).
Defined.

(** X6. Keywords are matched as substrings, so the first case of each
    chain survives any text put around the requirement: a text holding a
    bug-fix word stays a bug fix, one holding a critical word stays
    critical, and one holding a simple word keeps complexity 2.0, whatever
    is written before and after it. *)
Theorem first_match_survives_embedding
    (text pre post : string) (context : WorkflowContext) :
  let c := _classify_requirement (pre ++ text ++ post) context in
  (mentions text ["fix"; "bug"; "error"; "broken"] ->
   type c = RequirementType.BUG_FIX)
  /\ (mentions text ["critical"; "urgent"; "emergency"] ->
      priority c = RequirementPriority.CRITICAL)
  /\ (mentions text ["simple"; "quick"; "small"] ->
      complexity_score c = 2.0%float).
Proof.
  cbv zeta.
  unfold _classify_requirement, classify_type, classify_priority,
    classify_complexity, bug_fix_words, critical_words, simple_words.
  cbn [type priority complexity_score].
  conjuncts; intros M;
    apply (mentions_embedded text pre post) in M;
    match goal with
    | |- context [Text.any_in ?ws (Text.lower (pre ++ text ++ post))] =>
        destruct (mentions_reflect (pre ++ text ++ post)%string ws);
        [reflexivity | contradiction]
    end.
Qed.

(** The word prefix holds the bug-fix word fix: a request about a URL
    prefix is classified as a bug fix. *)
Lemma embedding_example :
  mentions "fix" ["fix"; "bug"; "error"; "broken"]
  /\ type (_classify_requirement "Add a URL prefix option" sample_context)
     = RequirementType.BUG_FIX.
Proof.
  assert (M : mentions "fix" ["fix"; "bug"; "error"; "broken"]).
  { exists "fix". split; [simpl; auto|]. now exists "", "". }
  split; [exact M|].
  exact (proj1 (first_match_survives_embedding "fix" "Add a URL pre" " option"
                  sample_context) M).
Defined.

(** X7. The priority chain, in its order: critical when a word of
    critical/urgent/emergency is present, else high for
    high/important/soon, else low for low/nice/future, else medium. *)
Theorem priority_chain
    (user_input : string) (context : WorkflowContext) :
  let c := _classify_requirement user_input context in
  let critical := mentions user_input ["critical"; "urgent"; "emergency"] in
  let high := mentions user_input ["high"; "important"; "soon"] in
  let low := mentions user_input ["low"; "nice"; "future"] in
  (critical -> priority c = RequirementPriority.CRITICAL)
  /\ (~ critical -> high -> priority c = RequirementPriority.HIGH)
  /\ (~ critical -> ~ high -> low -> priority c = RequirementPriority.LOW)
  /\ (~ critical -> ~ high -> ~ low -> priority c = RequirementPriority.MEDIUM).
Proof.
  unfold _classify_requirement, classify_priority,
    critical_words, high_words, low_words.
  cbv zeta. cbn [priority].
  conjuncts; intros; split_keywords user_input; cbv beta iota;
    solve [ reflexivity | contradiction ].
Qed.

(** The word follow holds the word low: with no critical and no high
    word, a text that says to follow up has priority low. *)
Lemma priority_example :
  priority (_classify_requirement "Follow up on the newsletter layout"
              sample_context)
  = RequirementPriority.LOW.
Proof.
  apply (proj1 (proj2 (proj2
    (priority_chain "Follow up on the newsletter layout" sample_context)))).
  - apply no_keyword; reflexivity.
  - apply no_keyword; reflexivity.
  - exists "low". split; [simpl; auto|]. now exists "fol", " up on the newsletter layout".
Defined.

(** Case analysis on the keyword tests of a goal, one at a time, dropping
    the branches each answer closes. *)
Ltac split_keywords_in_order text :=
  repeat (match goal with
          | |- context [Text.any_in ?ws (Text.lower text)] =>
              destruct (mentions_reflect text ws)
          end; cbv beta iota).

(** X8. The channel of a requirement, read off its keywords. The research
    channel is for a research word with no bug-fix, compliance, migration
    or infrastructure word. Fast track is for a bug-fix word with no domain
    word and low complexity (a simple word, or neither a complex nor an
    architecture word). Mega is for high complexity (no simple word, and a
    complex or architecture word) outside the research channel, and for a
    migration or infrastructure word with no bug-fix and no compliance
    word. Standard is for the rest. *)
Theorem channel_by_keywords
    (user_input : string) (context : WorkflowContext) :
  let channel :=
    _select_workflow_channel (_classify_requirement user_input context) context in
  let bug := mentions user_input ["fix"; "bug"; "error"; "broken"] in
  let compliance := mentions user_input ["compliance"; "hipaa"; "gdpr"; "audit"] in
  let migration := mentions user_input ["migrate"; "migration"; "upgrade"] in
  let infrastructure :=
    mentions user_input ["infrastructure"; "deployment"; "server"] in
  let research := mentions user_input ["research"; "poc"; "investigate"] in
  let simple := mentions user_input ["simple"; "quick"; "small"] in
  let complex :=
    mentions user_input ["complex"; "large"; "enterprise"; "platform"] in
  let architecture :=
    mentions user_input ["microservices"; "migration"; "architecture"] in
  let domain := mentions user_input ["patient"; "financial"; "security"] in
  let research_type :=
    ~ bug /\ ~ compliance /\ ~ migration /\ ~ infrastructure /\ research in
  let low_complexity := simple \/ (~ complex /\ ~ architecture) in
  let high_complexity := ~ simple /\ (complex \/ architecture) in
  let fast := bug /\ ~ domain /\ low_complexity in
  let mega :=
    (high_complexity /\ ~ research_type)
    \/ (~ bug /\ ~ compliance /\ (migration \/ infrastructure)) in
  (channel = WorkflowChannel.RESEARCH <-> research_type)
  /\ (channel = WorkflowChannel.FAST_TRACK <-> fast)
  /\ (channel = WorkflowChannel.MEGA <-> mega)
  /\ (channel = WorkflowChannel.STANDARD <-> ~ research_type /\ ~ fast /\ ~ mega).
Proof.
  cbv zeta.
  unfold _classify_requirement, classify_type, classify_priority,
    classify_complexity, classify_risk,
    bug_fix_words, compliance_words, migration_words, infrastructure_words,
    research_words, critical_words, high_words, low_words, simple_words,
    complex_words, architecture_words, domain_words.
  set (p := if Text.any_in ["critical"; "urgent"; "emergency"]
                 (Text.lower user_input)
            then _ else _).
  clearbody p.
  split_keywords_in_order user_input;
    match goal with
    | |- context [_select_workflow_channel ?c ?x] =>
        let v := eval vm_compute in
                   (_select_workflow_channel
                      (mkClassification (type c) RequirementPriority.MEDIUM
                         (complexity_score c) (risk_score c) "" 0%float) x) in
        change (_select_workflow_channel c x) with v
    end;
    conjuncts; split; intro H;
    first [ discriminate H | reflexivity | tauto | (exfalso; tauto) ].
Qed.

(** A patient-data bug fix is not fast-tracked: the domain word raises its
    risk, and with no size word it goes to the standard channel. *)
Lemma channel_by_keywords_example :
  _select_workflow_channel
    (_classify_requirement "Fix patient record export" sample_context)
    sample_context
  = WorkflowChannel.STANDARD.
Proof.
  apply (proj2 (proj2 (proj2 (proj2
    (channel_by_keywords "Fix patient record export" sample_context))))).
  assert (D : mentions "Fix patient record export"
                ["patient"; "financial"; "security"]).
  { exists "patient". split; [simpl; auto|]. now exists "fix ", " record export". }
  assert (B : mentions "Fix patient record export"
                ["fix"; "bug"; "error"; "broken"]).
  { exists "fix". split; [simpl; auto|]. now exists "", " patient record export". }
  assert (NC : ~ mentions "Fix patient record export"
                 ["complex"; "large"; "enterprise"; "platform"])
    by (apply no_keyword; reflexivity).
  assert (NA : ~ mentions "Fix patient record export"
                 ["microservices"; "migration"; "architecture"])
    by (apply no_keyword; reflexivity).
  tauto.
Defined.

(** ** The metrics requester, further *)

(** X9. calculate_all_metrics, whatever the gateway answers, either
    returns a map or raises the TypeError of a reply that is not text,
    whose text names the type of the reply, and nothing else. It posts its requests straight to the metric endpoints
    (never to interface_validator or queue_manager), in the fixed order,
    all four when it returns. The keys of the returned map are the names
    of the metrics present, in that same order. *)
Theorem metrics_requester_outcome
    (workflow_results : list PersonaResult.t) (context : WorkflowContext)
    (en : env) (st : state) :
  let run := calculate_all_metrics workflow_results context en st in
  map req_persona (metric_requests workflow_results context)
  = ["functionality_metrics"; "performance_metrics";
     "stability_metrics"; "scalability_metrics"]
  /\ exists j,
       1 <= j <= 4
       /\ sent (snd run)
          = sent st ++ firstn j (metric_requests workflow_results context)
       /\ ((exists metrics,
              returned run = Some metrics
              /\ j = 4
              /\ dict_keys metrics
                 = filter (fun k => dict_has k metrics) metric_names)
           \/ exists v,
                (forall s, v <> VStr s)
                /\ raised run
                   = Some (TypeError ("expected string or bytes-like object, got '"
                                      ++ type_name v ++ "'"))).
Proof.
  cbv zeta. split; [reflexivity|].
  destruct (calculate_all_metrics_outcome workflow_results context en st)
    as (j & st1 & J & S & _ & [(metrics & R & J4 & K) | (v & V & R)]); rewrite R;
    exists j; (split; [exact J|]); (split; [exact S|]).
  - left. exists metrics. repeat split; assumption.
  - right. exists v. split; [exact V | reflexivity].
Qed.

Lemma ellipsis_length (n : nat) (s : string) :
  String.length (Text.ellipsis n s) <= n + 3
  /\ (String.length s <= n -> Text.ellipsis n s = s)
  /\ (n < String.length s -> Text.ellipsis n s = (Text.take n s ++ "...")%string).
Proof.
  unfold Text.ellipsis.
  assert (T : forall k t, String.length (Text.take k t) <= k).
  { clear. induction k as [|k IH]; intros [|c t]; simpl; try lia.
    specialize (IH t). lia. }
  assert (A : forall a b : string,
             String.length (a ++ b) = String.length a + String.length b).
  { clear. intros a b. induction a as [|c a IH]; simpl; [reflexivity|].
    now rewrite IH. }
  destruct (Nat.ltb_spec n (String.length s)); conjuncts;
    try reflexivity; try lia.
  rewrite A. specialize (T n s). simpl. lia.
Qed.

Lemma insights_of_tags (response : string) :
  List.length (insights_of response) <= 3
  /\ incl (insights_of response)
          [VStr "improvement_opportunities_identified";
           VStr "strong_performance_indicators";
           VStr "attention_required"].
Proof.
  unfold insights_of.
  destruct (Text.contains "improvement" _);
    destruct (Text.contains "excellent" _ || Text.contains "high" _);
    destruct (Text.contains "concern" _ || Text.contains "risk" _);
    (split; [simpl; lia|]); intros x Hx; simpl in *; tauto.
Qed.

(** X10. The shape of a parsed metric. On a string reply the parser
    returns the five entries score, assessment, insights, calculated_at
    and metric_type, in that order. The metric type is the one asked for;
    the assessment is the reply itself when it has at most 200 characters
    and its first 200 characters followed by three dots otherwise, so
    never more than 203 characters; the insights are at most three tags
    out of a fixed three. On any other object the parser raises the
    TypeError of re.search, whose text names the type of the object, and
    does not read the clock. *)
Theorem parsed_metric_shape
    (text metric_type : string) (en : env) (st : state) :
  (exists d assessment tags,
     _parse_metric_response (VStr text) metric_type en st = (inr d, ticked st)
     /\ dict_keys d
        = ["score"; "assessment"; "insights"; "calculated_at"; "metric_type"]
     /\ dict_get "metric_type" d = Some (VStr metric_type)
     /\ dict_get "calculated_at" d = Some (VStr (isotime en (ticks st)))
     /\ dict_get "assessment" d = Some (VStr assessment)
     /\ String.length assessment <= 203
     /\ (String.length text <= 200 -> assessment = text)
     /\ (200 < String.length text ->
         assessment = (Text.take 200 text ++ "...")%string)
     /\ dict_get "insights" d = Some (VList tags)
     /\ List.length tags <= 3
     /\ incl tags [VStr "improvement_opportunities_identified";
                   VStr "strong_performance_indicators";
                   VStr "attention_required"])
  /\ (forall v,
        (forall s, v <> VStr s) ->
        _parse_metric_response v metric_type en st
        = (inl (TypeError ("expected string or bytes-like object, got '"
                           ++ type_name v ++ "'")), st)).
Proof.
  split.
  - rewrite parse_string_run.
    destruct (ellipsis_length 200 text) as (L & E1 & E2).
    destruct (insights_of_tags text) as (T1 & T2).
    eexists _, _, _. split; [reflexivity|]. repeat split; assumption.
  - intros v N. destruct v; try reflexivity. now destruct (N s).
Qed.

Lemma parsed_metric_example :
  _parse_metric_response VNone "stability" offline_env initial_state
  = (inl (TypeError "expected string or bytes-like object, got 'NoneType'"),
     initial_state).
Proof.
  apply (proj2 (parsed_metric_shape "" "stability" offline_env initial_state)).
  discriminate.
Defined.

Lemma class_of_lower_char (c : ascii) :
  Re.is_digit (Text.lower_char c) = Re.is_digit c
  /\ Re.is_colon_or_space (Text.lower_char c) = Re.is_colon_or_space c
  /\ (Re.is_digit c = true -> Text.lower_char c = c).
Proof.
  destruct c as [[] [] [] [] [] [] [] []]; vm_compute; repeat split; congruence.
Qed.

Lemma while_lower (p : ascii -> bool) (s : string) :
  (forall c, p (Text.lower_char c) = p c) ->
  take_while p (Text.lower s) = Text.lower (take_while p s)
  /\ drop_while p (Text.lower s) = Text.lower (drop_while p s).
Proof.
  intros P. induction s as [|c s [IH1 IH2]]; simpl; [auto|].
  rewrite P. destruct (p c); simpl; [rewrite IH1|]; auto.
Qed.

Lemma lower_digits (s : string) :
  Text.lower (take_while Re.is_digit s) = take_while Re.is_digit s.
Proof.
  induction s as [|c s IH]; simpl; [reflexivity|].
  destruct (Re.is_digit c) eqn:D; simpl; [|reflexivity].
  rewrite IH. f_equal. now apply class_of_lower_char.
Qed.

Lemma digits_of_lower (s : string) :
  take_while Re.is_digit (Text.lower s) = take_while Re.is_digit s.
Proof.
  destruct (while_lower Re.is_digit s) as [T _];
    [intros c; apply class_of_lower_char|].
  rewrite T. apply lower_digits.
Qed.

Lemma number_prefix_lower (s : string) :
  number_prefix (Text.lower s) = number_prefix s.
Proof.
  unfold number_prefix. rewrite digits_of_lower.
  destruct (while_lower Re.is_digit s) as [_ D];
    [intros c; apply class_of_lower_char|].
  rewrite D.
  destruct (take_while Re.is_digit s); [reflexivity|].
  destruct (drop_while Re.is_digit s) as [|c r]; simpl; [reflexivity|].
  pose proof (lower_char_point c) as P.
  change (Text.lower_char ".") with "."%char in P. rewrite P.
  destruct (Ascii.eqb c ".") eqn:E; [|reflexivity].
  apply Ascii.eqb_eq in E; subst c.
  now rewrite digits_of_lower.
Qed.

Lemma after_keyword_lower (s : string) :
  after_keyword (Text.lower s) = after_keyword s.
Proof.
  unfold after_keyword.
  destruct (while_lower Re.is_colon_or_space s) as [T D];
    [intros c; apply class_of_lower_char|].
  rewrite T, D, number_prefix_lower.
  now destruct (take_while Re.is_colon_or_space s).
Qed.

Lemma strip_word_lower (w s : string) :
  strip_word w (Text.lower s) = option_map Text.lower (strip_word w s).
Proof.
  revert s; induction w as [|a w IH]; intros s; [reflexivity|].
  destruct s as [|x s]; [reflexivity|]. simpl.
  rewrite lower_char_idem.
  destruct (Ascii.eqb (Text.lower_char x) (Text.lower_char a)); [apply IH|reflexivity].
Qed.

Lemma number_at_lower (s : string) :
  number_at (Text.lower s) = number_at s.
Proof.
  unfold number_at. rewrite !strip_word_lower.
  destruct (strip_word "score" s) as [r|]; cbn [option_map];
    [apply after_keyword_lower|].
  destruct (strip_word "rating" s) as [r|]; cbn [option_map];
    [apply after_keyword_lower|reflexivity].
Qed.

Lemma first_number_lower (s : string) :
  first_number (Text.lower s) = first_number s.
Proof.
  induction s as [|c s IH].
  - reflexivity.
  - change (Text.lower (String c s))
      with (String (Text.lower_char c) (Text.lower s)).
    cbn [first_number].
    change (String (Text.lower_char c) (Text.lower s))
      with (Text.lower (String c s)).
    rewrite number_at_lower, IH. reflexivity.
Qed.

Lemma extract_score_lower (s : string) :
  extract_score (Text.lower s) = extract_score s.
Proof.
  unfold extract_score. now rewrite !search_first_number, first_number_lower.
Qed.

(** X11. For replies whose characters lie in U+0000..U+00FF, the texts of
    the embedding, the parsed score and insights ignore letter case: two
    such replies with the same lower-case form get the same score and the
    same insights (their assessments, which quote the reply, may
    differ). *)
Theorem parsed_metric_ignores_case
    (a b metric_type : string) (en : env) (st : state) :
  Text.lower a = Text.lower b ->
  exists da db,
    _parse_metric_response (VStr a) metric_type en st = (inr da, ticked st)
    /\ _parse_metric_response (VStr b) metric_type en st = (inr db, ticked st)
    /\ dict_get "score" da = dict_get "score" db
    /\ dict_get "insights" da = dict_get "insights" db.
Proof.
  intros E. rewrite !parse_string_run. eexists _, _.
  split; [reflexivity|]. split; [reflexivity|].
  unfold metric_record, score_of, insights_of. cbn [dict_get String.eqb Ascii.eqb Bool.eqb].
  rewrite <- (extract_score_lower a), <- (extract_score_lower b), E.
  split; reflexivity.
Qed.

Lemma parsed_metric_case_example :
  parsed_score "OVERALL RATING: 7.5 (HIGH)"
  = parsed_score "overall rating: 7.5 (high)".
Proof.
  destruct (parsed_metric_ignores_case "OVERALL RATING: 7.5 (HIGH)"
              "overall rating: 7.5 (high)" "functionality"
              offline_env initial_state eq_refl)
    as (da & db & Ra & Rb & S & _).
  unfold parsed_score, returned. rewrite Ra, Rb. exact S.
Defined.

(** ** The context accumulator, further *)

Lemma string_app_length (a b : string) :
  String.length (a ++ b) = String.length a + String.length b.
Proof.
  induction a as [|c a IH]; simpl; [reflexivity | now rewrite IH].
Qed.

Lemma string_app_inv_tail (a b s : string) :
  (a ++ s)%string = (b ++ s)%string -> a = b.
Proof.
  revert b; induction a as [|x a IH]; intros [|y b] H; simpl in H.
  - reflexivity.
  - apply (f_equal String.length) in H. simpl in H.
    rewrite string_app_length in H. lia.
  - apply (f_equal String.length) in H. simpl in H.
    rewrite string_app_length in H. lia.
  - injection H as -> H. f_equal. now apply IH.
Qed.

Lemma eqb_app_tail (a b s : string) :
  String.eqb (a ++ s) (b ++ s) = String.eqb a b.
Proof.
  destruct (String.eqb_spec a b) as [->|N].
  - apply String.eqb_refl.
  - apply String.eqb_neq. intros H. apply N.
    now apply string_app_inv_tail in H.
Qed.

Lemma add_key_nodup (k : string) (keys : list string) :
  NoDup keys -> NoDup (add_key k keys).
Proof.
  intros ND. unfold add_key.
  destruct (existsb (String.eqb k) keys) eqn:E; [exact ND|].
  apply NoDup_app; [exact ND | repeat constructor; auto |].
  intros x Hx [<- | []].
  apply existsb_eqb_In in Hx. congruence.
Qed.

Lemma dict_keys_nodup (k : string) (v : value) (d : dict) :
  NoDup (dict_keys d) -> NoDup (dict_keys (dict_set k v d)).
Proof.
  rewrite dict_keys_set. apply add_key_nodup.
Qed.

Lemma mirrors_set (outputs context : dict) (p : string) (entry out : value) :
  entry_output entry = Some out ->
  mirrors outputs context ->
  mirrors (dict_set p entry outputs) (dict_set (p ++ "_output") out context).
Proof.
  intros E M. induction M as [|[k v] [k' v'] outputs context [K V] M IH]; simpl.
  - repeat constructor; assumption.
  - simpl in K, V. subst k'. rewrite eqb_app_tail.
    destruct (String.eqb p k).
    + constructor; [split; [reflexivity | exact E] | exact M].
    + constructor; [split; [reflexivity | exact V] | exact IH].
Qed.

Lemma mirrors_keys (outputs context : dict) :
  mirrors outputs context ->
  dict_keys context
  = map (fun name => (name ++ "_output")%string) (dict_keys outputs).
Proof.
  unfold dict_keys.
  induction 1 as [|o c os cs' [K _] M IH]; simpl;
    [reflexivity | now rewrite K, IH].
Qed.

(** X12. What one call of add_persona_output stores. The persona's entry
    holds the output in full, with the first clock reading and the
    metadata (or an empty dictionary); the workflow context holds the
    output in full under the persona name followed by _output, its other
    keys unchanged; and the history gets one more record, whose output is
    the output itself up to 200 characters and its first 200 characters
    followed by three dots beyond. *)
Theorem add_persona_output_stores
    (m : WorkflowContextManager) (persona_name output : string)
    (metadata : option dict) (now1 now2 : string) :
  let m' := add_persona_output m persona_name output metadata now1 now2 in
  dict_get persona_name (persona_outputs m')
  = Some (VDict [("output", VStr output); ("timestamp", VStr now1);
                 ("metadata", VDict (metadata_or_empty metadata))])
  /\ dict_get (persona_name ++ "_output") (workflow_context m')
     = Some (VStr output)
  /\ (forall k, k <> (persona_name ++ "_output")%string ->
                dict_get k (workflow_context m') = dict_get k (workflow_context m))
  /\ exists shown,
       context_history m'
       = context_history m
         ++ [[("persona", VStr persona_name); ("output", VStr shown);
              ("timestamp", VStr now2)]]
       /\ String.length shown <= 203
       /\ (String.length output <= 200 -> shown = output)
       /\ (200 < String.length output ->
           shown = (Text.take 200 output ++ "...")%string).
Proof.
  cbv zeta. unfold add_persona_output. cbn [persona_outputs workflow_context context_history].
  conjuncts.
  - apply dict_get_set_same.
  - apply dict_get_set_same.
  - intros k N. now apply dict_get_set_other.
  - destruct (ellipsis_length 200 output) as (L & E1 & E2).
    eexists. split; [reflexivity|]. repeat split; assumption.
Qed.

(** A short output is shown as it is in the history. *)
Lemma add_persona_output_example :
  map (dict_get "output")
      (context_history
         (add_persona_output new_manager "developer" "Use OAuth 2.0" None
            "t0" "t1"))
  = [Some (VStr "Use OAuth 2.0")].
Proof.
  destruct (add_persona_output_stores new_manager "developer" "Use OAuth 2.0"
              None "t0" "t1") as (_ & _ & _ & shown & H & _ & S & _).
  rewrite H, (S ltac:(simpl; lia)). reflexivity.
Defined.

(** X13. Whatever calls are made on a fresh accumulator, its two
    dictionaries stay in step: persona_outputs never holds a persona name
    twice, and workflow_context mirrors it entry by entry, in the same
    order, with the key name_output for the entry of name and the same
    output. In particular they have the same number of entries. *)
Theorem accumulator_dictionaries_in_step (cs : list output_call) :
  let m := apply_calls new_manager cs in
  NoDup (dict_keys (persona_outputs m))
  /\ mirrors (persona_outputs m) (workflow_context m)
  /\ dict_keys (workflow_context m)
     = map (fun name => (name ++ "_output")%string) (dict_keys (persona_outputs m))
  /\ List.length (workflow_context m) = List.length (persona_outputs m).
Proof.
  cbv zeta.
  assert (I : forall cs m,
             NoDup (dict_keys (persona_outputs m)) ->
             mirrors (persona_outputs m) (workflow_context m) ->
             NoDup (dict_keys (persona_outputs (apply_calls m cs)))
             /\ mirrors (persona_outputs (apply_calls m cs))
                        (workflow_context (apply_calls m cs))).
  { clear. unfold apply_calls.
    induction cs as [|c cs IH]; intros m ND M; simpl; [auto|].
    apply IH.
    - rewrite persona_outputs_apply_call. now apply dict_keys_nodup.
    - unfold apply_call, add_persona_output.
      cbn [persona_outputs workflow_context].
      now apply mirrors_set. }
  destruct (I cs new_manager) as [ND M]; [constructor | constructor |].
  conjuncts; [exact ND | exact M | |].
  - now apply mirrors_keys.
  - symmetry. eapply Forall2_length. exact M.
Qed.

(** ** The enriched context *)

Lemma upper_char_length (c : ascii) (u : string) :
  upper_char c = Some u -> 1 <= String.length u <= 2.
Proof.
  unfold upper_char.
  repeat match goal with |- context [if ?b then _ else _] => destruct b end;
    intros E; inversion E; subst; simpl; lia.
Qed.

Lemma upper_length (s u : string) :
  upper s = Some u -> String.length s <= String.length u <= 2 * String.length s.
Proof.
  revert u; induction s as [|c s IH]; simpl; intros u E.
  - inversion E; simpl; lia.
  - destruct (upper_char c) as [uc|] eqn:Ec; [|discriminate].
    destruct (upper s) as [us|]; [|discriminate].
    inversion E; subst.
    rewrite string_app_length.
    pose proof (upper_char_length c uc Ec).
    specialize (IH us eq_refl). lia.
Qed.

Lemma replace_length (a b : ascii) (s : string) :
  String.length (replace a b s) = String.length s.
Proof. induction s; simpl; congruence. Qed.

Lemma heading_length (s h : string) :
  heading s = Some h -> String.length h <= 2 * String.length s.
Proof.
  unfold heading. destruct (upper s) as [u|] eqn:E; [|discriminate].
  intros H; inversion H; subst. rewrite replace_length.
  apply upper_length in E. lia.
Qed.

Lemma contribution_text (output : string) :
  (if Nat.ltb 400 (String.length output)
   then Text.take 400 output ++ "..." ++ newline
   else output ++ newline)%string
  = (Text.ellipsis 400 output ++ newline)%string.
Proof.
  unfold Text.ellipsis.
  destruct (Nat.ltb 400 (String.length output)); [|reflexivity].
  now rewrite string_app_assoc.
Qed.

Lemma contributions_cons (persona : string) (data : value) (rest : dict)
    (body : string) :
  contributions ((persona, data) :: rest) = Some (inr body) ->
  exists name output more,
    heading persona = Some name /\ output_text data = Some output
    /\ contributions rest = Some (inr more)
    /\ body = (newline ++ "--- " ++ name ++ " ---" ++ newline
               ++ Text.ellipsis 400 output ++ newline ++ more)%string.
Proof.
  cbn [contributions]. unfold contribution, entry_item, output_text, dict_item.
  destruct data as [| | | | | |d];
    try (destruct (contributions rest) as [[?|?]|]; discriminate).
  destruct (dict_get "output" d) as [[| | | |output| |]|];
    try (destruct (contributions rest) as [[?|?]|]; discriminate).
  destruct (heading persona) as [name|];
    [|destruct (contributions rest) as [[?|?]|]; discriminate].
  destruct (contributions rest) as [[e|more]|]; try discriminate.
  intros E. exists name, output, more. conjuncts; try reflexivity.
  rewrite contribution_text in E.
  assert (B : forall x y : string, Some (@inr exn string x) = Some (inr y) -> y = x)
    by (intros x y H; now inversion H).
  rewrite (B _ _ E). now rewrite !string_app_assoc.
Qed.

Lemma contributions_length (outputs : dict) (body : string) :
  contributions outputs = Some (inr body) ->
  String.length body
  <= list_sum (map (fun name => 2 * String.length name + 414) (dict_keys outputs)).
Proof.
  revert body; induction outputs as [|[persona data] rest IH]; intros body E.
  - inversion E. simpl. lia.
  - apply contributions_cons in E.
    destruct E as (name & output & more & Hn & _ & Hm & ->).
    specialize (IH more Hm).
    apply heading_length in Hn.
    pose proof (ellipsis_length 400 output) as [L _].
    unfold dict_keys, list_sum in *. cbn [map fst fold_right] in *.
    rewrite !string_app_length. cbn [String.length newline]. lia.
Qed.

Lemma contributions_occurs (outputs : dict) (body persona : string) (data : value) :
  contributions outputs = Some (inr body) ->
  In (persona, data) outputs ->
  exists name output,
    heading persona = Some name /\ output_text data = Some output
    /\ occurs ("--- " ++ name ++ " ---" ++ newline
               ++ Text.ellipsis 400 output ++ newline) body.
Proof.
  revert body; induction outputs as [|[p d] rest IH]; intros body E I.
  - destruct I.
  - apply contributions_cons in E.
    destruct E as (name & output & more & Hn & Ho & Hm & ->).
    destruct I as [I | I].
    + inversion I; subst. exists name, output. conjuncts; auto.
      exists newline, more. now rewrite !string_app_assoc.
    + destruct (IH more Hm I) as (n' & o' & Hn' & Ho' & O).
      exists n', o'. conjuncts; auto.
      destruct O as (x & y & ->).
      exists (newline ++ "--- " ++ name ++ " ---" ++ newline
               ++ Text.ellipsis 400 output ++ newline ++ x)%string, y.
      now rewrite !string_app_assoc.
Qed.

Lemma format_context_summary_occurs (self : WorkflowContextManager)
    (current_persona summary persona : string) (data : value) :
  format_context_summary self current_persona = Some (inr summary) ->
  In (persona, data) (persona_outputs self) ->
  exists name output,
    heading persona = Some name /\ output_text data = Some output
    /\ occurs ("--- " ++ name ++ " ---" ++ newline
               ++ Text.ellipsis 400 output ++ newline) summary.
Proof.
  unfold format_context_summary.
  destruct (persona_outputs self) as [|e rest] eqn:P; [intros _ []|].
  destruct (contributions (e :: rest)) as [[x|body]|] eqn:Hb; try discriminate.
  destruct (heading current_persona) as [name|] eqn:Hn; [|discriminate].
  intros E I.
  apply (f_equal (fun o => match o with Some (inr x) => x | _ => "" end)) in E.
  cbv beta iota in E. subst summary.
  destruct (contributions_occurs _ _ _ _ Hb I) as (n' & o' & Hn' & Ho' & O).
  exists n', o'. conjuncts; auto.
  destruct O as (x & y & ->).
  exists ("=== WORKFLOW CONTEXT FOR " ++ name ++ " ===" ++ newline ++ newline
            ++ "Previous Persona Contributions:" ++ newline ++ x)%string,
         (y ++ newline ++ "=== CURRENT CONTEXT FOR " ++ name ++ " ===" ++ newline)%string.
  now rewrite !string_app_assoc.
Qed.

Lemma well_kept_contributions (outputs : dict) :
  well_kept outputs -> exists body, contributions outputs = Some (inr body).
Proof.
  induction 1 as [|[persona data] rest [Hn Ho] _ [more IH]]; cbn [contributions].
  - eauto.
  - cbn [fst snd] in Hn, Ho.
    unfold contribution, entry_item, dict_item. unfold output_text in Ho.
    destruct data as [| | | | | |d]; try contradiction.
    destruct (dict_get "output" d) as [[| | | |output| |]|]; try contradiction.
    destruct (heading persona); [|contradiction].
    rewrite IH. eauto.
Qed.

Lemma well_kept_set (persona : string) (data : value) (outputs : dict) :
  well_kept outputs -> heading persona <> None -> output_text data <> None ->
  well_kept (dict_set persona data outputs).
Proof.
  intros W Hn Ho.
  induction W as [|[p d] rest [Hp Hd] W IH]; cbn [dict_set].
  - repeat constructor; assumption.
  - destruct (String.eqb persona p); constructor; auto.
Qed.

Lemma well_kept_add (self : WorkflowContextManager) (persona_name output : string)
    (metadata : option dict) (now1 now2 : string) :
  well_kept (persona_outputs self) -> heading persona_name <> None ->
  well_kept (persona_outputs
               (add_persona_output self persona_name output metadata now1 now2)).
Proof.
  intros W Hn. cbn [add_persona_output persona_outputs].
  apply well_kept_set; auto. discriminate.
Qed.

Lemma well_kept_apply_calls (cs : list output_call) (m : WorkflowContextManager) :
  Forall (fun c => heading (call_persona_name c) <> None) cs ->
  well_kept (persona_outputs m) ->
  well_kept (persona_outputs (apply_calls m cs)).
Proof.
  unfold apply_calls.
  intros F; revert m; induction F as [|c cs Hc _ IH]; intros m W; simpl; auto.
  apply IH. now apply well_kept_add.
Qed.

Lemma format_context_summary_defined (self : WorkflowContextManager)
    (current_persona : string) :
  well_kept (persona_outputs self) -> heading current_persona <> None ->
  exists summary,
    format_context_summary self current_persona = Some (inr summary).
Proof.
  intros W Hn. unfold format_context_summary.
  destruct (well_kept_contributions _ W) as [body ->].
  destruct (persona_outputs self); [eauto|].
  destruct (heading current_persona); [eauto|contradiction].
Qed.

(** X14. The summary that format_context_summary gives for a manager that
    holds what add_persona_output stores: text outputs, under names whose
    upper-case form, like that of the current persona, stays within
    U+0000..U+00FF. With no persona output recorded it is the fixed
    sentence. Otherwise every recorded persona has its block in it: its
    name in capitals with hyphens turned to spaces between dashes, then
    its output, in full up to 400 characters and cut to 400 characters and
    three dots beyond. The length of the summary is bounded by the lengths
    of the names alone, whatever the lengths of the outputs. *)
Theorem context_summary_bounded_and_complete
    (self : WorkflowContextManager) (current_persona : string) :
  well_kept (persona_outputs self) -> heading current_persona <> None ->
  exists summary,
    format_context_summary self current_persona = Some (inr summary)
    /\ String.length summary
       <= 93 + 4 * String.length current_persona
          + list_sum (map (fun name => 2 * String.length name + 414)
                          (dict_keys (persona_outputs self)))
    /\ (persona_outputs self = [] ->
        summary = "No previous persona outputs available.")
    /\ forall persona data,
         In (persona, data) (persona_outputs self) ->
         exists name output,
           heading persona = Some name /\ output_text data = Some output
           /\ occurs ("--- " ++ name ++ " ---" ++ newline
                      ++ Text.ellipsis 400 output ++ newline) summary.
Proof.
  intros W Hc.
  destruct (format_context_summary_defined self current_persona W Hc)
    as [summary S].
  exists summary. split; [exact S|].
  split; [|split].
  - unfold format_context_summary in S.
    destruct (persona_outputs self) as [|e rest] eqn:P.
    + apply (f_equal (fun o => match o with Some (inr x) => x | _ => "" end)) in S.
      cbv beta iota in S. subst summary. simpl. lia.
    + destruct (contributions (e :: rest)) as [[x|body]|] eqn:Hb; try discriminate.
      destruct (heading current_persona) as [name|] eqn:Hn; [|discriminate].
      apply (f_equal (fun o => match o with Some (inr x) => x | _ => "" end)) in S.
      cbv beta iota in S. subst summary.
      apply contributions_length in Hb. apply heading_length in Hn.
      rewrite !string_app_length. cbn [String.length newline]. lia.
  - intros P. unfold format_context_summary in S. rewrite P in S.
    now injection S as <-.
  - intros persona data I.
    now apply (format_context_summary_occurs self current_persona).
Qed.

Lemma context_summary_example :
  let cm := add_persona_output new_manager "requirement-concierge"
              "Use OAuth" None "t1" "t2" in
  exists summary,
    format_context_summary cm "program-manager" = Some (inr summary)
    /\ String.length summary <= 93 + 4 * 15 + (2 * 21 + 414).
Proof.
  cbv zeta.
  destruct (context_summary_bounded_and_complete
              (add_persona_output new_manager "requirement-concierge"
                 "Use OAuth" None "t1" "t2") "program-manager")
    as (summary & S & L & _).
  - repeat constructor; discriminate.
  - discriminate.
  - exists summary. split; [exact S | exact L].
Defined.

(** What the enriched context holds. *)
Lemma get_enriched_context_entries (self : WorkflowContextManager)
    (current_persona : string) (base_context enriched : dict) :
  get_enriched_context self current_persona base_context = Some (inr enriched) ->
  dict_get "workflow_history" enriched = Some (VDict (persona_outputs self))
  /\ dict_get "previous_outputs" enriched
     = Some (VList (map VStr (dict_keys (persona_outputs self))))
  /\ (exists summary,
        format_context_summary self current_persona = Some (inr summary)
        /\ dict_get "context_summary" enriched = Some (VStr summary))
  /\ forall k, k <> "workflow_history" -> k <> "previous_outputs" ->
               k <> "context_summary" ->
               dict_get k enriched = dict_get k base_context.
Proof.
  unfold get_enriched_context.
  destruct (format_context_summary self current_persona) as [[e|summary]|];
    try discriminate.
  intros E; injection E as <-. conjuncts.
  - rewrite !dict_get_set_other by discriminate. apply dict_get_set_same.
  - rewrite dict_get_set_other by discriminate. apply dict_get_set_same.
  - exists summary. split; [reflexivity|]. apply dict_get_set_same.
  - intros k K1 K2 K3. now rewrite !dict_get_set_other by assumption.
Qed.

Lemma dict_get_In (k : string) (v : value) (d : dict) :
  dict_get k d = Some v -> In (k, v) d.
Proof.
  induction d as [|[k' v'] d IH]; simpl; [discriminate|].
  destruct (String.eqb_spec k k') as [->|]; intros E.
  - injection E as <-. now left.
  - right; auto.
Qed.

Lemma latest_entry (earlier later : list output_call) (c : output_call)
    (m : WorkflowContextManager) :
  ~ In (call_persona_name c) (map call_persona_name later) ->
  dict_get (call_persona_name c)
    (persona_outputs (apply_calls m (earlier ++ c :: later)))
  = Some (entry_of c).
Proof.
  intros NI. unfold apply_calls. rewrite fold_left_app. cbn [fold_left].
  fold (apply_calls (apply_call (fold_left apply_call earlier m) c) later).
  rewrite accumulated_entry_kept by assumption.
  rewrite persona_outputs_apply_call. apply dict_get_set_same.
Qed.

(** X15. The enriched context after any calls of add_persona_output on a
    fresh manager. Its previous_outputs are the persona names in the order
    of their first call; its workflow_history is the accumulator's
    dictionary; its context_summary shows, for each persona, the output
    of its latest call (cut at 400 characters), and is the fixed sentence
    when there was no call; every other key is as in the base context,
    while a base context's own entries under the three keys are
    replaced. *)
Theorem enriched_context_after_calls (cs : list output_call)
    (current_persona : string) (base_context : dict) :
  Forall (fun c => heading (call_persona_name c) <> None) cs ->
  heading current_persona <> None ->
  let cm := apply_calls new_manager cs in
  exists enriched summary,
    get_enriched_context cm current_persona base_context = Some (inr enriched)
    /\ dict_get "previous_outputs" enriched
       = Some (VList (map VStr (first_occurrences (map call_persona_name cs))))
    /\ dict_get "workflow_history" enriched = Some (VDict (persona_outputs cm))
    /\ dict_get "context_summary" enriched = Some (VStr summary)
    /\ (cs = [] -> summary = "No previous persona outputs available.")
    /\ (forall earlier c later,
          cs = earlier ++ c :: later ->
          ~ In (call_persona_name c) (map call_persona_name later) ->
          exists name,
            heading (call_persona_name c) = Some name
            /\ occurs ("--- " ++ name ++ " ---" ++ newline
                       ++ Text.ellipsis 400 (call_output c) ++ newline) summary)
    /\ (forall k, k <> "workflow_history" -> k <> "previous_outputs" ->
                  k <> "context_summary" ->
                  dict_get k enriched = dict_get k base_context).
Proof.
  intros F Hn cm.
  assert (W : well_kept (persona_outputs cm))
    by (apply well_kept_apply_calls; [assumption|constructor]).
  destruct (format_context_summary_defined cm current_persona W Hn)
    as [summary S].
  assert (E : get_enriched_context cm current_persona base_context
              = Some (inr (dict_set "context_summary" (VStr summary)
                             (dict_set "previous_outputs"
                                (VList (map VStr (dict_keys (persona_outputs cm))))
                                (dict_set "workflow_history"
                                   (VDict (persona_outputs cm)) base_context)))))
    by (unfold get_enriched_context; now rewrite S).
  destruct (get_enriched_context_entries _ _ _ _ E)
    as (H1 & H2 & (summary' & S' & H3) & H4).
  rewrite S in S'. injection S' as <-.
  eexists; exists summary. conjuncts; try eassumption; auto.
  - rewrite H2. unfold cm. now rewrite accumulated_keys.
  - intros ->. cbv in S. congruence.
  - intros earlier c later -> NI.
    pose proof (latest_entry earlier later c new_manager NI) as L.
    apply dict_get_In in L.
    destruct (format_context_summary_occurs cm current_persona summary _ _ S L)
      as (name & output & Hname & Ho & O).
    exists name. split; [assumption|].
    cbn in Ho. injection Ho as <-. exact O.
Qed.

Lemma enriched_context_example :
  let cs := [mkCall "requirement-concierge" "Use OAuth" None "t1" "t2"] in
  let base := [("phase", VStr "project_planning")] in
  exists enriched,
    get_enriched_context (apply_calls new_manager cs) "program-manager" base
    = Some (inr enriched)
    /\ dict_get "previous_outputs" enriched
       = Some (VList [VStr "requirement-concierge"])
    /\ dict_get "phase" enriched = Some (VStr "project_planning").
Proof.
  cbv zeta.
  destruct (enriched_context_after_calls
              [mkCall "requirement-concierge" "Use OAuth" None "t1" "t2"]
              "program-manager" [("phase", VStr "project_planning")])
    as (enriched & summary & E & P & _ & _ & _ & _ & K).
  - repeat constructor. discriminate.
  - discriminate.
  - exists enriched. conjuncts.
    + exact E.
    + exact P.
    + now rewrite K by discriminate.
Defined.


(** ** The client with a context manager *)













(** ** The client's contract *)

(** X19. The contract of call_persona. It never raises and posts exactly
    one request. The dictionary it returns has one of two shapes: success
    true with response, persona, execution_time and raw_result, exactly
    when the status is 200 and the body decodes to a JSON object; or
    success false with an error text and the persona that was asked. For
    a status other than 200 the error is HTTP, the status, a colon and
    the body's text when the text can be read, and the text of the
    exception when reading it fails; for a status 200 whose body does not
    decode it is the text of that exception; for a request that raised
    it is the exception's text. Neither shape has a persona_id. *)
Theorem call_persona_contract (persona_name : string) (user_message : prompt)
    (context : dict) (en : env) (st : state) :
  let r := reply en (List.length (sent st)) in
  exists d,
    call_persona persona_name user_message context en st
    = (inr d, posted [mkRequest persona_name user_message context] st)
    /\ dict_get "persona_id" d = None
    /\ ((ok_reply r = true
         /\ dict_keys d
            = ["success"; "response"; "persona"; "execution_time"; "raw_result"]
         /\ dict_get "success" d = Some (VBool true)
         /\ dict_get "response" d = Some (reply_response r))
        \/ (ok_reply r = false
            /\ dict_keys d = ["success"; "error"; "persona"]
            /\ dict_get "success" d = Some (VBool false)
            /\ dict_get "persona" d = Some (VStr persona_name)
            /\ (forall status json text,
                  r = Response status json (inr text) -> status <> 200%N ->
                  dict_get "error" d
                  = Some (VStr ("HTTP " ++ decimal status ++ ": " ++ text)))
            /\ (forall status json e,
                  r = Response status json (inl e) -> status <> 200%N ->
                  dict_get "error" d = Some (VStr e))
            /\ (forall e text,
                  r = Response 200 (inl e) text ->
                  dict_get "error" d = Some (VStr e))
            /\ (forall e, r = Raised e -> dict_get "error" d = Some (VStr e)))).
Proof.
  intros r. rewrite call_persona_run. fold r.
  eexists. split; [reflexivity|]. clearbody r.
  assert (Shape : forall e,
            dict_get "persona_id" (failure_result e persona_name) = None
            /\ dict_keys (failure_result e persona_name)
               = ["success"; "error"; "persona"]
            /\ dict_get "success" (failure_result e persona_name)
               = Some (VBool false)
            /\ dict_get "persona" (failure_result e persona_name)
               = Some (VStr persona_name)
            /\ dict_get "error" (failure_result e persona_name) = Some (VStr e))
    by (intros e; conjuncts; reflexivity).
  destruct (result_of_reply_cases persona_name r) as [[O [d D]] | [O [e D]]].
  - split; [now rewrite D|]. left. conjuncts; try assumption; try (now rewrite D).
    destruct r as [status [e|[]] text | e]; try discriminate O.
    cbn [ok_reply] in O. cbn [result_of_reply]. rewrite O. reflexivity.
  - rewrite D.
    destruct (Shape e) as (S0 & S1 & S2 & S3 & S4).
    split; [assumption|]. right. conjuncts; try assumption.
    + intros status json text -> N. rewrite S4.
      cbn [result_of_reply] in D.
      destruct (N.eqb_spec status 200); [contradiction|].
      now injection D as <-.
    + intros status json e' -> N. rewrite S4.
      cbn [result_of_reply] in D.
      destruct (N.eqb_spec status 200); [contradiction|].
      now injection D as <-.
    + intros e' text ->. rewrite S4. cbn [result_of_reply] in D.
      cbn [N.eqb Pos.eqb] in D. now injection D as <-.
    + intros e' ->. rewrite S4. cbn [result_of_reply] in D.
      now injection D as <-.
Qed.
